(** * User CRUD controllers over a document store and a relational store

    A shallow embedding of [controllers/userController.js] and of the
    Mongoose schema of [models/User.js], with executable models of the two
    store clients the controllers call (a Mongoose model bound to a MongoDB
    collection, and a Prisma client bound to a PostgreSQL table).

    Conventions of the embedding
    - A JavaScript string is a [string]: a sequence of code units below 256
      (Latin-1).
    - A JavaScript number is an integer ([Num z]) or [NaN]; request bodies
      are JSON, so the scalar values a body field can hold are [VNull],
      [VBool], [VNumber (Num z)] and [VStr]; [VUndefined] stands for a key
      that is absent.  Numbers are exact: the rounding of integers beyond
      2^53 is outside the model, and so are numbers with a fraction (a
      body field 17.5, or a string that [Number()] reads as one).
    - A request body is the record of the four fields the controllers
      read, and it is the whole body: an update whose body has other keys
      (an update operator such as [$inc] among them) is outside the model.
    - A store call is a computation in the monad [M]: it takes the store,
      and either throws ([inl (e, st)]) or returns a value
      ([inr (a, st)]); in both cases [st] is the store after the call.  A
      controller is a function from the store to the HTTP response and
      the store afterwards.
    - Time is a parameter: [now] is the time of the request, which the
      stores write to [createdAt] and [updatedAt]. *)

From Stdlib Require Import ZArith NArith List String Ascii Bool Lia.
From Stdlib Require Import DecimalString DecimalPos Permutation.
From Stdlib Require Import QArith Lqa.
Import ListNotations.

Local Open Scope string_scope.
Local Open Scope Z_scope.

(* ================================================================== *)
(** ** JavaScript values and the built-ins the controllers use *)
(* ================================================================== *)

Module JS.

Inductive number : Type :=
| NaN : number
| Num : Z -> number.

Inductive value : Type :=
| VUndefined : value
| VNull : value
| VBool : bool -> value
| VNumber : number -> value
| VStr : string -> value.

Definition code (c : ascii) : Z := Z.of_N (N_of_ascii c).

Definition str_empty (s : string) : bool :=
  match s with
  | EmptyString => true
  | String _ _ => false
  end.

(** ToBoolean: the test of [if (x)], [!x], [x ? a : b] and [x || y]. *)
Definition truthy (v : value) : bool :=
  match v with
  | VUndefined => false
  | VNull => false
  | VBool b => b
  | VNumber NaN => false
  | VNumber (Num z) => negb (z =? 0)
  | VStr s => negb (str_empty s)
  end.

(** [x || y] *)
Definition or_else (x y : value) : value := if truthy x then x else y.

Definition isNaN (n : number) : bool :=
  match n with
  | NaN => true
  | Num _ => false
  end.

(** WhiteSpace and LineTerminator code units below 256:
    TAB, LF, VT, FF, CR, SP, NBSP. *)
Definition is_space (c : ascii) : bool :=
  let k := code c in
  ((9 <=? k) && (k <=? 13)) || (k =? 32) || (k =? 160).

Fixpoint trimStart (s : string) : string :=
  match s with
  | EmptyString => EmptyString
  | String c s' => if is_space c then trimStart s' else s
  end.

Fixpoint trimEnd (s : string) : string :=
  match s with
  | EmptyString => EmptyString
  | String c s' =>
      let t := trimEnd s' in
      if is_space c && str_empty t then EmptyString else String c t
  end.

(** String.prototype.trim *)
Definition trim (s : string) : string := trimEnd (trimStart s).

Definition lower_char (c : ascii) : ascii :=
  let k := code c in
  if ((65 <=? k) && (k <=? 90))
     || ((192 <=? k) && (k <=? 222) && negb (k =? 215))
  then ascii_of_N (Z.to_N (k + 32))
  else c.

(** String.prototype.toLowerCase *)
Fixpoint toLowerCase (s : string) : string :=
  match s with
  | EmptyString => EmptyString
  | String c s' => String (lower_char c) (toLowerCase s')
  end.

(** The value of a code unit as a digit in radix [R], if it is one. *)
Definition digit_val (R : Z) (c : ascii) : option Z :=
  let k := code c in
  let d :=
    if (48 <=? k) && (k <=? 57) then k - 48
    else if (97 <=? k) && (k <=? 122) then k - 87
    else if (65 <=? k) && (k <=? 90) then k - 55
    else 36 in
  if d <? R then Some d else None.

(** The longest prefix of radix-[R] digits, read as an integer; [acc] is
    [None] until a digit has been read. *)
Fixpoint digits_prefix (R : Z) (s : string) (acc : option Z) : option Z :=
  match s with
  | EmptyString => acc
  | String c s' =>
      match digit_val R c with
      | Some d =>
          digits_prefix R s'
            (Some (R * (match acc with Some a => a | None => 0 end) + d))
      | None => acc
      end
  end.

(** A whole string of radix-[R] digits, read as an integer; [None] when the
    string is empty or holds anything else. *)
Fixpoint digits_all (R : Z) (s : string) (acc : option Z) : option Z :=
  match s with
  | EmptyString => acc
  | String c s' =>
      match digit_val R c with
      | Some d =>
          digits_all R s'
            (Some (R * (match acc with Some a => a | None => 0 end) + d))
      | None => None
      end
  end.

Definition has_hex_prefix (s : string) : bool :=
  match s with
  | String c (String p _) => ((c =? "0") && ((p =? "x") || (p =? "X")))%char
  | _ => false
  end.

Definition drop2 (s : string) : string :=
  match s with
  | String _ (String _ r) => r
  | _ => s
  end.

(** parseInt(string) with no radix argument, on a string: leading white
    space is skipped, then an optional sign, then an optional [0x]; the
    longest run of digits is read and whatever follows is ignored. *)
Definition sign_of (s : string) : Z :=
  match s with
  | String c _ => if (c =? "-")%char then -1 else 1
  | EmptyString => 1
  end.

Definition drop_sign (s : string) : string :=
  match s with
  | String c r => if ((c =? "-") || (c =? "+"))%char then r else s
  | EmptyString => s
  end.

Definition parseInt_string (s : string) : number :=
  let S := trimStart s in
  let sign := sign_of S in
  let S := drop_sign S in
  let R := if has_hex_prefix S then 16 else 10 in
  let S := if has_hex_prefix S then drop2 S else S in
  match digits_prefix R S None with
  | None => NaN
  | Some m => Num (sign * m)
  end.

(** The first code unit is a digit of radix [R]. *)
Definition starts_with_digit (R : Z) (s : string) : bool :=
  match s with
  | String c _ => match digit_val R c with Some _ => true | None => false end
  | EmptyString => false
  end.

(** The string starts with an integer as parseInt reads one: after leading
    white space and an optional sign comes a decimal digit, or [0x] and a
    hexadecimal digit. *)
Definition has_integer_prefix (s : string) : bool :=
  let t := drop_sign (trimStart s) in
  if has_hex_prefix t then starts_with_digit 16 (drop2 t)
  else starts_with_digit 10 t.

(** The decimal digits of an integer, with a minus sign for a negative
    one. *)
Definition decimal (z : Z) : string := NilZero.string_of_int (Z.to_int z).

(** A string of digits without the zeros at its end. *)
Fixpoint strip_zeros (s : string) : string :=
  match s with
  | EmptyString => EmptyString
  | String c s' =>
      let t := strip_zeros s' in
      if (c =? "0")%char && str_empty t then EmptyString else String c t
  end.

(** The exponent notation of an integer: its first digit, the digits that
    follow up to the last one that is not 0 after a point, and [e+] with
    the number of digits after the first. *)
Definition exponential (z : Z) : string :=
  match decimal (Z.abs z) with
  | EmptyString => EmptyString
  | String d rest =>
      let frac := strip_zeros rest in
      ((if (z <? 0)%Z then "-" else "")
       ++ String d (if str_empty frac then "" else String "." frac)
       ++ "e+" ++ decimal (Z.of_nat (String.length rest)))%string
  end.

(** Number::toString on the integers of the model: the decimal digits
    below 10^21, the exponent notation from there on. *)
Definition number_toString (n : number) : string :=
  match n with
  | NaN => "NaN"
  | Num z => if Z.abs z <? 10 ^ 21 then decimal z else exponential z
  end.

(** ToString *)
Definition toString (v : value) : string :=
  match v with
  | VUndefined => "undefined"
  | VNull => "null"
  | VBool true => "true"
  | VBool false => "false"
  | VNumber n => number_toString n
  | VStr s => s
  end.

(** parseInt(x): the argument is converted with ToString first. *)
Definition parseInt (v : value) : number := parseInt_string (toString v).

(** Number(s) on a string (StringToNumber), restricted to the integer
    literals: surrounding white space is dropped, the empty string is 0, a
    signed run of decimal digits or an unsigned [0x]/[0o]/[0b] literal is
    its value, and the whole string has to be consumed. *)
Definition radix_prefix (s : string) : option Z :=
  match s with
  | String c (String p _) =>
      if negb (c =? "0")%char then None
      else if ((p =? "x") || (p =? "X"))%char then Some 16
      else if ((p =? "o") || (p =? "O"))%char then Some 8
      else if ((p =? "b") || (p =? "B"))%char then Some 2
      else None
  | _ => None
  end.

Definition Number_string (s : string) : number :=
  let t := trim s in
  if str_empty t then Num 0
  else
    match radix_prefix t with
    | Some R =>
        match digits_all R (drop2 t) None with
        | Some m => Num m
        | None => NaN
        end
    | None =>
        match digits_all 10 (drop_sign t) None with
        | Some m => Num (sign_of t * m)
        | None => NaN
        end
    end.

End JS.

(* ================================================================== *)
(** ** Regular expressions, matched by derivatives *)
(* ================================================================== *)

Module Regex.

Inductive regex : Type :=
| Void : regex
| Eps : regex
| Class : (ascii -> bool) -> regex
| Seq : regex -> regex -> regex
| Alt : regex -> regex -> regex
| Star : regex -> regex.

Fixpoint nullable (r : regex) : bool :=
  match r with
  | Void => false
  | Eps => true
  | Class _ => false
  | Seq a b => nullable a && nullable b
  | Alt a b => nullable a || nullable b
  | Star _ => true
  end.

Fixpoint deriv (c : ascii) (r : regex) : regex :=
  match r with
  | Void => Void
  | Eps => Void
  | Class p => if p c then Eps else Void
  | Seq a b =>
      if nullable a then Alt (Seq (deriv c a) b) (deriv c b)
      else Seq (deriv c a) b
  | Alt a b => Alt (deriv c a) (deriv c b)
  | Star a => Seq (deriv c a) (Star a)
  end.

(** [test s]: the whole of [s] is in the language of [r] (the pattern is
    anchored with [^] and [$] and has no flags). *)
Fixpoint test (r : regex) (s : string) : bool :=
  match s with
  | EmptyString => nullable r
  | String c s' => test (deriv c r) s'
  end.

Definition Plus (r : regex) : regex := Seq r (Star r).
Definition Opt (r : regex) : regex := Alt Eps r.
Definition Chr (c : ascii) : regex := Class (fun x => (x =? c)%char).

(** [\w] without the unicode or ignore-case flag: [A-Za-z0-9_]. *)
Definition word_char (c : ascii) : bool :=
  let k := JS.code c in
  ((48 <=? k) && (k <=? 57)) || ((65 <=? k) && (k <=? 90))
  || ((97 <=? k) && (k <=? 122)) || (k =? 95).

Definition w : regex := Class word_char.

(** [[\.-]] *)
Definition dot_or_dash : regex :=
  Class (fun c => ((c =? ".") || (c =? "-"))%char).

End Regex.

(* ================================================================== *)
(** ** Requests, errors thrown by the store clients, store calls *)
(* ================================================================== *)

Module Req.

(** [req.body] of a create or update request: the four fields the
    controllers read; [VUndefined] is a key the body does not have.  The
    body has no other key. *)
Record body : Type := mkBody {
  name : JS.value;
  email : JS.value;
  age : JS.value;
  role : JS.value
}.

End Req.

(** What a store call can throw. *)
Inductive exception : Type :=
| CastError : exception                 (* Mongoose: a value cannot be cast to its schema type *)
| ValidationError : exception           (* Mongoose: document or update validation failed *)
| MongoServerError : Z -> exception     (* MongoDB server error with its numeric code *)
| MongooseError : exception             (* Mongoose: no connection to the server *)
| PrismaClientKnownRequestError : string -> exception  (* Prisma: P2002, P2025, ... *)
| PrismaClientValidationError : exception   (* Prisma: the query does not fit the schema *)
| PrismaClientRangeError : exception    (* Prisma: an integer does not fit a 32-bit column *)
| PrismaClientInitializationError : exception (* Prisma: the database cannot be reached *)
| PrismaClientUnknownRequestError : exception. (* Prisma: the database refused the statement, no code *)

(** [error.code] *)
Inductive code : Type :=
| CodeUndefined : code
| CodeNumber : Z -> code
| CodeString : string -> code.

Definition error_code (e : exception) : code :=
  match e with
  | MongoServerError n => CodeNumber n
  | PrismaClientKnownRequestError c => CodeString c
  | _ => CodeUndefined
  end.

(** [error.code === n] for a number literal [n] *)
Definition code_is_number (e : exception) (n : Z) : bool :=
  match error_code e with
  | CodeNumber m => m =? n
  | _ => false
  end.

(** [error.code === s] for a string literal [s] *)
Definition code_is_string (e : exception) (s : string) : bool :=
  match error_code e with
  | CodeString c => String.eqb c s
  | _ => false
  end.

(** A store call on a store of type [S] returning an [A]: it throws or
    returns, and what it has done to the store before it throws stays
    done. *)
Definition M (S A : Type) : Type := S -> (exception * S) + (A * S).

Definition ret {S A : Type} (a : A) : M S A := fun st => inr (a, st).
Definition throw {S A : Type} (e : exception) : M S A := fun st => inl (e, st).
Definition bind {S A B : Type} (m : M S A) (k : A -> M S B) : M S B :=
  fun st =>
    match m st with
    | inl (e, st') => inl (e, st')
    | inr (a, st') => k a st'
    end.

Declare Scope store_scope.
Delimit Scope store_scope with store.
Notation "x <- m ;; k" := (bind m (fun x => k))
  (at level 61, m at next level, right associativity) : store_scope.
Notation "m ;;; k" := (bind m (fun _ => k))
  (at level 61, right associativity) : store_scope.

(** [if (!ok) throw e] *)
Definition guard {S : Type} (ok : bool) (e : exception) : M S unit :=
  if ok then ret tt else throw e.

(* ================================================================== *)
(** ** The Mongoose model [User] of models/User.js *)
(* ================================================================== *)

Module Mongoose.

(** The model is the schema of models/User.js (paths, setters, defaults,
    validators, timestamps) on a collection held as a list.  Of Mongoose
    itself the model keeps what the controllers depend on: a value is cast
    to the type of its path and passed through the setters before it is
    validated; [create] validates the document before it is inserted; an
    update with [runValidators] is cast and validated before the collection
    is asked; a malformed id is a cast error of the query; the unique index
    on [email] answers a duplicate with server error 11000; every call
    fails when the server cannot be reached. *)

(** The pattern of the [match] validator of [email]:
    [/^\w+([\.-]?\w+)*@\w+([\.-]?\w+)*(\.\w{2,3})+$/] *)
Definition email_pattern : Regex.regex :=
  let w := Regex.w in
  let words := Regex.Star (Regex.Seq (Regex.Opt Regex.dot_or_dash) (Regex.Plus w)) in
  let tld := Regex.Seq (Regex.Chr ".") (Regex.Seq w (Regex.Seq w (Regex.Opt w))) in
  Regex.Seq (Regex.Plus w)
    (Regex.Seq words
       (Regex.Seq (Regex.Chr "@")
          (Regex.Seq (Regex.Plus w) (Regex.Seq words (Regex.Plus tld))))).

(** [enum.values] of [role] *)
Definition role_values : list string := ["USER"; "ADMIN"; "MODERATOR"].

Definition in_enum (s : string) : bool :=
  existsb (String.eqb s) role_values.

(** A stored document.  [age] and [role] may hold null; [name] and [email]
    are required.  An age is an integer, as every number of the model. *)
Record User : Type := mkUser {
  _id : N;
  name : string;
  email : string;
  age : option Z;
  role : option string;
  createdAt : Z;
  updatedAt : Z
}.

(** The collection behind the model, in its natural (insertion) order,
    the identifier the driver generates next, and whether the server can
    be reached.  The driver makes an ObjectId from the time, a random
    value and a counter; the model numbers the identifiers it generates,
    and of these numbers only that a new one differs from those in use
    stands for something.  [email] carries a unique index. *)
Record Collection : Type := mkCollection {
  docs : list User;
  next_id : N;
  connected : bool
}.

(** The outcome of casting one path of the schema. *)
Inductive cast (A : Type) : Type :=
| Unset : cast A             (* undefined: the path is not set *)
| Null : cast A
| Val : A -> cast A
| Failed : cast A.             (* CastError *)
Arguments Unset {A}.
Arguments Null {A}.
Arguments Val {A} _.
Arguments Failed {A}.

Definition cast_map {A B : Type} (f : A -> B) (c : cast A) : cast B :=
  match c with
  | Unset => Unset
  | Null => Null
  | Val a => Val (f a)
  | Failed => Failed
  end.

(** SchemaString cast: strings as they are, numbers and booleans through
    their toString. *)
Definition castString (v : JS.value) : cast string :=
  match v with
  | JS.VUndefined => Unset
  | JS.VNull => Null
  | v => Val (JS.toString v)
  end.

(** SchemaNumber cast: the empty string is null, other strings and booleans
    go through Number(), NaN is refused. *)
Definition castNumber (v : JS.value) : cast Z :=
  match v with
  | JS.VUndefined => Unset
  | JS.VNull => Null
  | JS.VBool b => Val (if b then 1 else 0)
  | JS.VNumber JS.NaN => Failed
  | JS.VNumber (JS.Num z) => Val z
  | JS.VStr s =>
      if JS.str_empty s then Null
      else match JS.Number_string s with
           | JS.NaN => Failed
           | JS.Num z => Val z
           end
  end.

(** The paths with their setters: [trim] on [name]; [lowercase] and [trim]
    on [email]. *)
Definition set_name (v : JS.value) : cast string :=
  cast_map JS.trim (castString v).
Definition set_email (v : JS.value) : cast string :=
  cast_map (fun s => JS.trim (JS.toLowerCase s)) (castString v).
Definition set_age (v : JS.value) : cast Z := castNumber v.
Definition set_role (v : JS.value) : cast string := castString v.

(** The validators, on a cast value.  [required] refuses a path that is
    not set, null and the empty string; the others accept null. *)
Definition required (c : cast string) : bool :=
  match c with
  | Val s => negb (JS.str_empty s)
  | _ => false
  end.

(** [minlength: 2] and [maxlength: 50] *)
Definition name_length_ok (s : string) : bool :=
  (2 <=? Z.of_nat (String.length s)) && (Z.of_nat (String.length s) <=? 50).

(** The [match] validator: the empty string is not tested. *)
Definition email_match (s : string) : bool :=
  if JS.str_empty s then true else Regex.test email_pattern s.

(** [min: 0] and [max: 150] *)
Definition age_in_range (z : Z) : bool := (0 <=? z) && (z <=? 150).

(** [name]: required, minlength 2, maxlength 50. *)
Definition valid_name (c : cast string) : bool :=
  required c
  && match c with
     | Val s => name_length_ok s
     | _ => true
     end.

(** [email]: required, match. *)
Definition valid_email (c : cast string) : bool :=
  required c
  && match c with
     | Val s => email_match s
     | _ => true
     end.

(** [age]: min, max. *)
Definition valid_age (c : cast Z) : bool :=
  match c with
  | Unset | Null => true
  | Val z => age_in_range z
  | Failed => false
  end.

(** [role]: enum. *)
Definition valid_role (c : cast string) : bool :=
  match c with
  | Unset | Null => true
  | Val s => in_enum s
  | Failed => false
  end.

Definition cast_failed {A : Type} (c : cast A) : bool :=
  match c with
  | Failed => true
  | _ => false
  end.

(** What an optional path holds once it is set to [c]: [unset] when the
    path is not set (its default on create, its former value on update). *)
Definition stored {A : Type} (c : cast A) (unset : option A) : option A :=
  match c with
  | Unset => unset
  | Val a => Some a
  | Null | Failed => None
  end.

(** Document validation: every path passes its validators. *)
Definition validate (doc : Req.body) : bool :=
  valid_name (set_name (Req.name doc))
  && valid_email (set_email (Req.email doc))
  && valid_age (set_age (Req.age doc))
  && valid_role (set_role (Req.role doc)).

(** A path of an update passes the update validators: a path the update
    does not set is not validated; [name] and [email] are required, so
    null is refused. *)
Definition update_valid_required (valid : cast string -> bool)
    (c : cast string) : bool :=
  match c with
  | Unset => true
  | c => valid c
  end.

(** Casting an update: no path fails to cast. *)
Definition castUpdate (update : Req.body) : bool :=
  negb (cast_failed (set_name (Req.name update))
        || cast_failed (set_email (Req.email update))
        || cast_failed (set_age (Req.age update))
        || cast_failed (set_role (Req.role update))).

(** Update validation ([runValidators: true]). *)
Definition validate_update (update : Req.body) : bool :=
  update_valid_required valid_name (set_name (Req.name update))
  && update_valid_required valid_email (set_email (Req.email update))
  && valid_age (set_age (Req.age update))
  && valid_role (set_role (Req.role update)).

Definition find_by_id (i : N) (l : list User) : option User :=
  find (fun u => N.eqb (_id u) i) l.

Definition email_taken (e : string) (l : list User) : bool :=
  existsb (fun u => String.eqb (email u) e) l.

Definition connection (e : exception) : M Collection unit :=
  fun st => if connected st then inr (tt, st) else inl (e, st).

(** Model.find() *)
Definition find : M Collection (list User) :=
  (connection MongooseError ;;;
   fun st => inr (docs st, st))%store.

(** Model.create(doc): the document is built with the setters and the
    default of [role], validated, and inserted; the unique index on
    [email] refuses a second document with the same stored email with
    code 11000.  [now] is the time of the call. *)
Definition create (now : Z) (doc : Req.body) : M Collection User :=
  let n := set_name (Req.name doc) in
  let e := set_email (Req.email doc) in
  let a := set_age (Req.age doc) in
  let r := set_role (Req.role doc) in
  match n, e with
  | Val n', Val e' =>
      (guard (validate doc) ValidationError ;;;
       connection MongooseError ;;;
       fun st =>
         if email_taken e' (docs st) then inl (MongoServerError 11000, st)
         else
           let u := {| _id := next_id st;
                       name := n';
                       email := e';
                       age := stored a None;
                       role := stored r (Some "USER");
                       createdAt := now;
                       updatedAt := now |} in
           inr (u, {| docs := docs st ++ [u];
                      next_id := N.succ (next_id st);
                      connected := connected st |}))%store
  | _, _ => throw ValidationError
  end.

(** The document [u] after [$set] of the paths the update sets. *)
Definition apply_set (now : Z) (n e : cast string) (a : cast Z)
    (r : cast string) (u : User) : User :=
  {| _id := _id u;
     name := match n with Val s => s | _ => name u end;
     email := match e with Val s => s | _ => email u end;
     age := stored a (age u);
     role := stored r (role u);
     createdAt := createdAt u;
     updatedAt := now |}.

Fixpoint replace_doc (i : N) (u' : User) (l : list User) : list User :=
  match l with
  | [] => []
  | u :: l' => if N.eqb (_id u) i then u' :: l' else u :: replace_doc i u' l'
  end.

Fixpoint remove_doc (i : N) (l : list User) : list User :=
  match l with
  | [] => []
  | u :: l' => if N.eqb (_id u) i then l' else u :: remove_doc i l'
  end.

Section Driver.

(** ObjectId casting of the driver: the identifier a string denotes, or
    nothing when the string is not a well-formed ObjectId.  Which strings
    are well formed depends on the driver's version, so it is left open. *)
Variable castObjectId : string -> option N.

(** Model.findById(id) *)
Definition findById (id : string) : M Collection (option User) :=
  match castObjectId id with
  | None => throw CastError
  | Some i =>
      (connection MongooseError ;;;
       fun st => inr (find_by_id i (docs st), st))%store
  end.

(** Model.findByIdAndUpdate(id, update, { new: true, runValidators: true }):
    the id is cast, then the update (its keys become a [$set], with the
    setters of the schema), then the update validators run, and only then
    the collection is asked; the document after the update is returned, or
    null when no document has this id. *)
Definition findByIdAndUpdate (now : Z) (id : string) (update : Req.body)
    : M Collection (option User) :=
  match castObjectId id with
  | None => throw CastError
  | Some i =>
      let n := set_name (Req.name update) in
      let e := set_email (Req.email update) in
      let a := set_age (Req.age update) in
      let r := set_role (Req.role update) in
      (guard (castUpdate update) CastError ;;;
       guard (validate_update update) ValidationError ;;;
       connection MongooseError ;;;
       fun st =>
         match find_by_id i (docs st) with
         | None => inr (None, st)
         | Some u =>
             let u' := apply_set now n e a r u in
             if negb (String.eqb (email u') (email u))
                && email_taken (email u') (docs st)
             then inl (MongoServerError 11000, st)
             else inr (Some u', {| docs := replace_doc i u' (docs st);
                                   next_id := next_id st;
                                   connected := connected st |})
         end)%store
  end.

(** Model.findByIdAndDelete(id) *)
Definition findByIdAndDelete (id : string) : M Collection (option User) :=
  match castObjectId id with
  | None => throw CastError
  | Some i =>
      (connection MongooseError ;;;
       fun st =>
         match find_by_id i (docs st) with
         | None => inr (None, st)
         | Some u => inr (Some u, {| docs := remove_doc i (docs st);
                                     next_id := next_id st;
                                     connected := connected st |})
         end)%store
  end.

End Driver.

End Mongoose.

(* ================================================================== *)
(** ** The Prisma client on the table [User] *)
(* ================================================================== *)

Module Prisma.

(** Of the Prisma client the model keeps what the controllers depend on:
    the arguments of a call are checked against the types of the schema
    before a query is sent; a unique constraint that fails is error P2002;
    an update or delete of a row that does not exist is error P2025;
    [findUnique] answers null for it; every call fails when the database
    cannot be reached.  A text column holds any string without the code
    unit 0, compared as it is; the database refuses a statement that
    carries a string with the code unit 0 when it reads its parameters,
    before it runs it.  The identifier of a new row comes from a sequence,
    and a value the sequence has given out is not given out again, also
    when the insert it was taken for is refused by the unique index. *)

(** Modelled from the spec: prisma/schema.prisma is not among the sources.
    The row follows the User entity and the field list of the PostgreSQL
    model in DATA_FORMAT_GUIDE.md: an integer [id] the store assigns, [name]
    and [email] required strings, [email] unique, [age] an optional integer,
    [role] a string with default USER, and the two timestamps. *)
Record User : Type := mkUser {
  id : Z;
  name : string;
  email : string;
  age : option Z;
  role : string;
  createdAt : Z;
  updatedAt : Z
}.

(** The table in its natural order, the next value of the identifier
    sequence, and whether the database can be reached. *)
Record Table : Type := mkTable {
  rows : list User;
  next_id : Z;
  connected : bool
}.

(** Modelled from the spec: the integer columns ([id], [age]) are 32-bit
    signed integers, the Int type of a Prisma schema on PostgreSQL. *)
Definition int4 (z : Z) : bool := (- 2 ^ 31 <=? z) && (z <? 2 ^ 31).

(** What the client accepts for a field, before any query is sent. *)
Inductive arg (A : Type) : Type :=
| Omitted : arg A            (* undefined: the key is left out *)
| Given : A -> arg A
| Rejected : arg A.          (* a value of the wrong type *)
Arguments Omitted {A}.
Arguments Given {A} _.
Arguments Rejected {A}.

Definition arg_string (v : JS.value) : arg string :=
  match v with
  | JS.VUndefined => Omitted
  | JS.VStr s => Given s
  | _ => Rejected
  end.

(** An optional integer field: null is a value of its own, and NaN, which
    JSON cannot write, reaches the query engine as null. *)
Definition arg_int_opt (v : JS.value) : arg (option Z) :=
  match v with
  | JS.VUndefined => Omitted
  | JS.VNull => Given None
  | JS.VNumber JS.NaN => Given None
  | JS.VNumber (JS.Num z) => Given (Some z)
  | _ => Rejected
  end.

Definition rejected {A : Type} (a : arg A) : bool :=
  match a with
  | Rejected => true
  | _ => false
  end.

Definition fits (a : arg (option Z)) : bool :=
  match a with
  | Given (Some z) => int4 z
  | _ => true
  end.

(** The arguments of a create fit the schema: [name] and [email] are
    strings, [age] is an integer or null, [role] is a string or left out. *)
Definition check_create (data : Req.body) : bool :=
  match arg_string (Req.name data), arg_string (Req.email data) with
  | Given _, Given _ =>
      negb (rejected (arg_int_opt (Req.age data))
            || rejected (arg_string (Req.role data)))
  | _, _ => false
  end.

(** The arguments of an update fit the schema: every key that is given
    has a value of its type. *)
Definition check_update (data : Req.body) : bool :=
  negb (rejected (arg_string (Req.name data))
        || rejected (arg_string (Req.email data))
        || rejected (arg_int_opt (Req.age data))
        || rejected (arg_string (Req.role data))).

(** [age], when it is given, fits the column. *)
Definition in_range (data : Req.body) : bool :=
  fits (arg_int_opt (Req.age data)).

(** The string holds the code unit 0. *)
Fixpoint has_nul (s : string) : bool :=
  match s with
  | EmptyString => false
  | String c s' => (JS.code c =? 0) || has_nul s'
  end.

Definition storable (a : arg string) : bool :=
  match a with
  | Given s => negb (has_nul s)
  | _ => true
  end.

(** Every string of [data] can be stored in a text column. *)
Definition text_ok (data : Req.body) : bool :=
  storable (arg_string (Req.name data))
  && storable (arg_string (Req.email data))
  && storable (arg_string (Req.role data)).

Definition given {A : Type} (a : arg A) : bool :=
  match a with
  | Given _ => true
  | _ => false
  end.

Definition find_by_id (i : Z) (l : list User) : option User :=
  find (fun u => Z.eqb (id u) i) l.

Definition email_taken (e : string) (l : list User) : bool :=
  existsb (fun u => String.eqb (email u) e) l.

Fixpoint replace_row (i : Z) (u' : User) (l : list User) : list User :=
  match l with
  | [] => []
  | u :: l' => if Z.eqb (id u) i then u' :: l' else u :: replace_row i u' l'
  end.

Fixpoint remove_row (i : Z) (l : list User) : list User :=
  match l with
  | [] => []
  | u :: l' => if Z.eqb (id u) i then l' else u :: remove_row i l'
  end.

Definition connection : M Table unit :=
  fun st => if connected st then inr (tt, st)
            else inl (PrismaClientInitializationError, st).

(** The table once the sequence has given out a value. *)
Definition nextval (st : Table) : Table :=
  {| rows := rows st; next_id := next_id st + 1; connected := connected st |}.

(** The [where: { id }] argument: a number that is an integer of the
    column's range. *)
Definition where_id (i : JS.number) : M Table Z :=
  match i with
  | JS.NaN => throw PrismaClientValidationError
  | JS.Num z => (connection ;;; guard (int4 z) PrismaClientRangeError ;;; ret z)%store
  end.

(** prisma.user.findMany() *)
Definition findMany : M Table (list User) :=
  (connection ;;; fun st => inr (rows st, st))%store.

(** prisma.user.findUnique({ where: { id } }) *)
Definition findUnique (i : JS.number) : M Table (option User) :=
  (z <- where_id i ;;
   fun st => inr (find_by_id z (rows st), st))%store.

(** prisma.user.create({ data }): the arguments are checked against the
    schema, then the row is inserted with the next value of the sequence;
    a second row with the same [email] is refused with code P2002, and the
    value taken from the sequence is spent. *)
Definition create (now : Z) (data : Req.body) : M Table User :=
  let n := arg_string (Req.name data) in
  let e := arg_string (Req.email data) in
  let a := arg_int_opt (Req.age data) in
  let r := arg_string (Req.role data) in
  match n, e with
  | Given n', Given e' =>
      (guard (check_create data) PrismaClientValidationError ;;;
       connection ;;;
       guard (in_range data) PrismaClientRangeError ;;;
       guard (text_ok data) PrismaClientUnknownRequestError ;;;
       fun st =>
         if email_taken e' (rows st)
         then inl (PrismaClientKnownRequestError "P2002", nextval st)
         else
           let u := {| id := next_id st;
                       name := n';
                       email := e';
                       age := match a with Given z => z | _ => None end;
                       role := match r with Given s => s | _ => "USER" end;
                       createdAt := now;
                       updatedAt := now |} in
           inr (u, {| rows := rows st ++ [u];
                      next_id := next_id st + 1;
                      connected := connected st |}))%store
  | _, _ => throw PrismaClientValidationError
  end.

(** The row [u] with the fields of [data] that are given; [updatedAt] is
    written along with them, and not when [data] has no key. *)
Definition apply_data (now : Z) (n e : arg string) (a : arg (option Z))
    (r : arg string) (u : User) : User :=
  {| id := id u;
     name := match n with Given s => s | _ => name u end;
     email := match e with Given s => s | _ => email u end;
     age := match a with Given z => z | _ => age u end;
     role := match r with Given s => s | _ => role u end;
     createdAt := createdAt u;
     updatedAt := if given n || given e || given a || given r
                  then now else updatedAt u |}.

(** prisma.user.update({ where: { id }, data }): only the keys of [data]
    are written; no row with this id is code P2025, an [email] another row
    has is code P2002. *)
Definition update (now : Z) (i : JS.number) (data : Req.body)
    : M Table User :=
  let n := arg_string (Req.name data) in
  let e := arg_string (Req.email data) in
  let a := arg_int_opt (Req.age data) in
  let r := arg_string (Req.role data) in
  (guard (check_update data) PrismaClientValidationError ;;;
   z <- where_id i ;;
   guard (in_range data) PrismaClientRangeError ;;;
   guard (text_ok data) PrismaClientUnknownRequestError ;;;
   fun st =>
     match find_by_id z (rows st) with
     | None => inl (PrismaClientKnownRequestError "P2025", st)
     | Some u =>
         let u' := apply_data now n e a r u in
         if negb (String.eqb (email u') (email u))
            && email_taken (email u') (rows st)
         then inl (PrismaClientKnownRequestError "P2002", st)
         else inr (u', {| rows := replace_row z u' (rows st);
                          next_id := next_id st;
                          connected := connected st |})
     end)%store.

(** prisma.user.delete({ where: { id } }) *)
Definition delete (i : JS.number) : M Table User :=
  (z <- where_id i ;;
   fun st =>
     match find_by_id z (rows st) with
     | None => inl (PrismaClientKnownRequestError "P2025", st)
     | Some u => inr (u, {| rows := remove_row z (rows st);
                            next_id := next_id st;
                            connected := connected st |})
     end)%store.

End Prisma.

(* ================================================================== *)
(** ** controllers/userController.js *)
(* ================================================================== *)

Module Controller.

(** [data] of a success envelope: [{ users }] or [{ user }]. *)
Inductive Data (U : Type) : Type :=
| Users : list U -> Data U
| OneUser : U -> Data U.
Arguments Users {U} _.
Arguments OneUser {U} _.

(** The JSON object a controller sends; a key the object does not have is
    [None].  [error] holds the thrown error whose message is reported. *)
Record Envelope (U : Type) : Type := mkEnvelope {
  status : string;
  message : option string;
  results : option nat;
  data : option (Data U);
  error : option exception
}.
Arguments mkEnvelope {U}.
Arguments status {U}.
Arguments message {U}.
Arguments results {U}.
Arguments data {U}.
Arguments error {U}.

(** [res.status(statusCode).json(json)] *)
Record Response (U : Type) : Type := mkResponse {
  statusCode : Z;
  json : Envelope U
}.
Arguments mkResponse {U}.
Arguments statusCode {U}.
Arguments json {U}.

(** [{ status: 'error', message }] *)
Definition failure {U : Type} (c : Z) (msg : string) : Response U :=
  mkResponse c (mkEnvelope "error" (Some msg) None None None).

(** [{ status: 'error', message, error: error.message }] *)
Definition failure_with {U : Type} (c : Z) (msg : string) (e : exception)
    : Response U :=
  mkResponse c (mkEnvelope "error" (Some msg) None None (Some e)).

(** [{ status: 'success', results: users.length, data: { users } }] *)
Definition success_list {U : Type} (users : list U) : Response U :=
  mkResponse 200
    (mkEnvelope "success" None (Some (List.length users)) (Some (Users users)) None).

(** [{ status: 'success', data: { user } }] *)
Definition success_user {U : Type} (user : U) : Response U :=
  mkResponse 200 (mkEnvelope "success" None None (Some (OneUser user)) None).

(** [{ status: 'success', message, data: { user } }] *)
Definition success_message {U : Type} (c : Z) (msg : string) (user : U)
    : Response U :=
  mkResponse c (mkEnvelope "success" (Some msg) None (Some (OneUser user)) None).

(** [try { r = await call; respond(r) } catch (error) { handle(error) }] *)
Definition try_catch {S A U : Type} (call : M S A) (respond : A -> Response U)
    (handle : exception -> Response U) (st : S) : Response U * S :=
  match call st with
  | inr (a, st') => (respond a, st')
  | inl (e, st') => (handle e, st')
  end.

(** *** MongoDB controllers (Mongoose) *)

Section Mongo.

Variable castObjectId : string -> option N.

Definition getAllUsersFromMongo
    : Mongoose.Collection -> Response Mongoose.User * Mongoose.Collection :=
  try_catch Mongoose.find
    success_list
    (failure_with 500 "Failed to fetch users from MongoDB").

Definition getUserByIdFromMongo (id : string)
    : Mongoose.Collection -> Response Mongoose.User * Mongoose.Collection :=
  try_catch (Mongoose.findById castObjectId id)
    (fun user =>
       match user with
       | None => failure 404 "User not found"
       | Some u => success_user u
       end)
    (failure_with 500 "Failed to fetch user from MongoDB").

Definition createUserInMongo (now : Z) (body : Req.body)
    : Mongoose.Collection -> Response Mongoose.User * Mongoose.Collection :=
  fun st =>
    let name := Req.name body in
    let email := Req.email body in
    let age := Req.age body in
    let role := Req.role body in
    if negb (JS.truthy name) || negb (JS.truthy email)
    then (failure 400 "Name and email are required", st)
    else
      try_catch (Mongoose.create now (Req.mkBody name email age role))
        (success_message 201 "User created successfully")
        (fun error =>
           if code_is_number error 11000
           then failure 400 "Email already exists"
           else failure_with 500 "Failed to create user in MongoDB" error)
        st.

Definition updateUserInMongo (now : Z) (id : string) (body : Req.body)
    : Mongoose.Collection -> Response Mongoose.User * Mongoose.Collection :=
  let updateData := body in
  try_catch (Mongoose.findByIdAndUpdate castObjectId now id updateData)
    (fun updatedUser =>
       match updatedUser with
       | None => failure 404 "User not found"
       | Some u => success_message 200 "User updated successfully" u
       end)
    (failure_with 500 "Failed to update user in MongoDB").

Definition deleteUserFromMongo (id : string)
    : Mongoose.Collection -> Response Mongoose.User * Mongoose.Collection :=
  try_catch (Mongoose.findByIdAndDelete castObjectId id)
    (fun deletedUser =>
       match deletedUser with
       | None => failure 404 "User not found"
       | Some u => success_message 200 "User deleted successfully" u
       end)
    (failure_with 500 "Failed to delete user from MongoDB").

End Mongo.

(** *** PostgreSQL controllers (Prisma) *)

Definition getAllUsersFromPostgres
    : Prisma.Table -> Response Prisma.User * Prisma.Table :=
  try_catch Prisma.findMany
    success_list
    (failure_with 500 "Failed to fetch users from PostgreSQL").

Definition getUserByIdFromPostgres (params_id : string)
    : Prisma.Table -> Response Prisma.User * Prisma.Table :=
  fun st =>
    let id := JS.parseInt (JS.VStr params_id) in
    if JS.isNaN id
    then (failure 400 "Invalid user ID", st)
    else
      try_catch (Prisma.findUnique id)
        (fun user =>
           match user with
           | None => failure 404 "User not found"
           | Some u => success_user u
           end)
        (failure_with 500 "Failed to fetch user from PostgreSQL")
        st.

(** [data] of the create call:
    [{ name, email, age: age ? parseInt(age) : null, role: role || 'USER' }] *)
Definition create_data (body : Req.body) : Req.body :=
  let name := Req.name body in
  let email := Req.email body in
  let age := Req.age body in
  let role := Req.role body in
  Req.mkBody name email
    (if JS.truthy age then JS.VNumber (JS.parseInt age) else JS.VNull)
    (JS.or_else role (JS.VStr "USER")).

Definition createUserInPostgres (now : Z) (body : Req.body)
    : Prisma.Table -> Response Prisma.User * Prisma.Table :=
  fun st =>
    let name := Req.name body in
    let email := Req.email body in
    if negb (JS.truthy name) || negb (JS.truthy email)
    then (failure 400 "Name and email are required", st)
    else
      try_catch (Prisma.create now (create_data body))
        (success_message 201 "User created successfully")
        (fun error =>
           if code_is_string error "P2002"
           then failure 400 "Email already exists"
           else failure_with 500 "Failed to create user in PostgreSQL" error)
        st.

(** [updateData]: starts empty, and gets a key for each field of the body
    that is truthy. *)
Definition build_updateData (body : Req.body) : Req.body :=
  let name := Req.name body in
  let email := Req.email body in
  let age := Req.age body in
  let role := Req.role body in
  Req.mkBody
    (if JS.truthy name then name else JS.VUndefined)
    (if JS.truthy email then email else JS.VUndefined)
    (if JS.truthy age then JS.VNumber (JS.parseInt age) else JS.VUndefined)
    (if JS.truthy role then role else JS.VUndefined).

Definition updateUserInPostgres (now : Z) (params_id : string)
    (body : Req.body)
    : Prisma.Table -> Response Prisma.User * Prisma.Table :=
  fun st =>
    let id := JS.parseInt (JS.VStr params_id) in
    if JS.isNaN id
    then (failure 400 "Invalid user ID", st)
    else
      let updateData := build_updateData body in
      try_catch (Prisma.update now id updateData)
        (success_message 200 "User updated successfully")
        (fun error =>
           if code_is_string error "P2025"
           then failure 404 "User not found"
           else failure_with 500 "Failed to update user in PostgreSQL" error)
        st.

Definition deleteUserFromPostgres (params_id : string)
    : Prisma.Table -> Response Prisma.User * Prisma.Table :=
  fun st =>
    let id := JS.parseInt (JS.VStr params_id) in
    if JS.isNaN id
    then (failure 400 "Invalid user ID", st)
    else
      try_catch (Prisma.delete id)
        (success_message 200 "User deleted successfully")
        (fun error =>
           if code_is_string error "P2025"
           then failure 404 "User not found"
           else failure_with 500 "Failed to delete user from PostgreSQL" error)
        st.

End Controller.

(* ================================================================== *)
(** ** The entity contract, on the values of a request body *)
(* ================================================================== *)

Module Entity.

(** A name of 2 to 50 characters once trimmed. *)
Definition name_ok (s : string) : bool := Mongoose.name_length_ok (JS.trim s).

(** An email that matches the pattern once trimmed and in lower case. *)
Definition email_ok (s : string) : bool :=
  Regex.test Mongoose.email_pattern (JS.trim (JS.toLowerCase s)).

Definition malformed_name (v : JS.value) : bool :=
  match v with
  | JS.VStr s => negb (name_ok s)
  | _ => false
  end.

Definition malformed_email (v : JS.value) : bool :=
  match v with
  | JS.VStr s => negb (email_ok s)
  | _ => false
  end.

Definition age_out_of_range (v : JS.value) : bool :=
  match v with
  | JS.VNumber (JS.Num z) => negb (Mongoose.age_in_range z)
  | _ => false
  end.

Definition role_outside_enum (v : JS.value) : bool :=
  match v with
  | JS.VStr s => negb (Mongoose.in_enum s)
  | _ => false
  end.


End Entity.

(* ================================================================== *)
(** ** Concrete stores and requests used in the examples *)
(* ================================================================== *)

Module Sample.

(** An ObjectId written as 24 hexadecimal digits, the form every version of
    the driver accepts. *)
Definition hex24 (s : string) : option N :=
  if Nat.eqb (String.length s) 24
  then option_map Z.to_N (JS.digits_all 16 s None)
  else None.

Definition empty_collection : Mongoose.Collection :=
  Mongoose.mkCollection [] 1%N true.

Definition empty_table : Prisma.Table :=
  Prisma.mkTable [] 1 true.

Definition absent : JS.value := JS.VUndefined.

(** [{"name":"Ann","email":"ann@ex.com"}] *)
Definition ann : Req.body :=
  Req.mkBody (JS.VStr "Ann") (JS.VStr "ann@ex.com") absent absent.

(** [{"name":"Bo","email":"bo@ex.com","age":"30"}] *)
Definition bo : Req.body :=
  Req.mkBody (JS.VStr "Bo") (JS.VStr "bo@ex.com") (JS.VStr "30") absent.

(** The stores after Ann, respectively Bo, has been created at time 100. *)
Definition collection_ann : Mongoose.Collection :=
  snd (Controller.createUserInMongo 100 ann empty_collection).

Definition table_bo : Prisma.Table :=
  snd (Controller.createUserInPostgres 100 bo empty_table).

(** Two well-formed ObjectIds: the one of Ann, and one no document has. *)
Definition id1 : string := "000000000000000000000001".
Definition id9 : string := "000000000000000000000009".

(** [{"age":26}], [{"age":0}] and [{"age":"0"}] *)
Definition age26 : Req.body :=
  Req.mkBody absent absent (JS.VNumber (JS.Num 26)) absent.
Definition age0 : Req.body :=
  Req.mkBody absent absent (JS.VNumber (JS.Num 0)) absent.
Definition age0_string : Req.body :=
  Req.mkBody absent absent (JS.VStr "0") absent.

(** [{"name":"Ann","email":"not-an-email"}] *)
Definition ann_bad_email : Req.body :=
  Req.mkBody (JS.VStr "Ann") (JS.VStr "not-an-email") absent absent.

(** [{"name":"Ann","email":"ann@ex.com","age":200}] *)
Definition ann_age200 : Req.body :=
  Req.mkBody (JS.VStr "Ann") (JS.VStr "ann@ex.com") (JS.VNumber (JS.Num 200)) absent.

(** [{"email":"ann@ex.com"}] *)
Definition no_name : Req.body :=
  Req.mkBody absent (JS.VStr "ann@ex.com") absent absent.



(** The row of Bo. *)
Definition bo_row : Prisma.User :=
  Prisma.mkUser 1 "Bo" "bo@ex.com" (Some 30) "USER" 100 100.


(** The first integer above the 32-bit range, as an id. *)
Definition id_2_31 : string := "2147483648".

End Sample.

(* ================================================================== *)
(** ** models/User.js: the virtual and the statics of the schema *)
(* ================================================================== *)

Module UserModel.

(** [a < b] on numbers that are not NaN. *)
Definition lt (a b : Q) : bool := negb (Qle_bool b a).

(** The virtual [ageGroup], on what [this.age] holds: nothing (null or
    undefined) or a number.  The path is a Number with [min] and [max]
    only, so the number need not be whole, and here it is a rational.
    [!this.age] holds when there is no age, and when the age is 0. *)
Definition ageGroup_of (age : option Q) : string :=
  match age with
  | None => "Unknown"
  | Some q =>
      if Qeq_bool q 0 then "Unknown"
      else if lt q 18 then "Minor"
      else if lt q 65 then "Adult"
      else "Senior"
  end.

(** The virtual on a document of the model. *)
Definition ageGroup (this : Mongoose.User) : string :=
  ageGroup_of (option_map inject_Z (Mongoose.age this)).

(** Model.findOne({ email: v }) on a string: the value of the filter goes
    through the setters of the path, as a value that is stored does; the
    answer is the first document in natural order with this email, or
    null. *)
Definition findOne_email (v : string) : M Mongoose.Collection (option Mongoose.User) :=
  (Mongoose.connection MongooseError ;;;
   fun st =>
     inr (List.find
            (fun u => String.eqb (Mongoose.email u) (JS.trim (JS.toLowerCase v)))
            (Mongoose.docs st), st))%store.

(** [statics.findByEmail]: [this.findOne({ email: email.toLowerCase() })] *)
Definition findByEmail (email : string)
    : M Mongoose.Collection (option Mongoose.User) :=
  findOne_email (JS.toLowerCase email).

Definition has_role (r : string) (u : Mongoose.User) : bool :=
  match Mongoose.role u with
  | Some x => String.eqb x r
  | None => false
  end.

(** Model.find({ role: r }) *)
Definition find_role (r : string) : M Mongoose.Collection (list Mongoose.User) :=
  (Mongoose.connection MongooseError ;;;
   fun st => inr (filter (has_role r) (Mongoose.docs st), st))%store.

(** [statics.findAdmins]: [this.find({ role: 'ADMIN' })] *)
Definition findAdmins : M Mongoose.Collection (list Mongoose.User) :=
  find_role "ADMIN".

End UserModel.

(* ================================================================== *)
(** ** routes/userRoutes.js *)
(* ================================================================== *)

Module Routes.

(** A request that matches one of the ten routes of the router, with the
    parts of it the controller reads; [now] is the time of the request. *)
Inductive request : Type :=
| GET_mongo : request                                  (* GET /mongo *)
| GET_mongo_id : string -> request                     (* GET /mongo/:id *)
| POST_mongo : Z -> Req.body -> request                (* POST /mongo *)
| PUT_mongo_id : Z -> string -> Req.body -> request    (* PUT /mongo/:id *)
| DELETE_mongo_id : string -> request                  (* DELETE /mongo/:id *)
| GET_postgres : request                               (* GET /postgres *)
| GET_postgres_id : string -> request                  (* GET /postgres/:id *)
| POST_postgres : Z -> Req.body -> request             (* POST /postgres *)
| PUT_postgres_id : Z -> string -> Req.body -> request (* PUT /postgres/:id *)
| DELETE_postgres_id : string -> request.              (* DELETE /postgres/:id *)

(** The two stores of the process. *)
Record stores : Type := mkStores {
  collection : Mongoose.Collection;
  table : Prisma.Table
}.

(** What is sent back: the response of a MongoDB controller or of a
    PostgreSQL controller. *)
Inductive reply : Type :=
| MongoReply : Controller.Response Mongoose.User -> reply
| PostgresReply : Controller.Response Prisma.User -> reply.

Definition code_of (r : reply) : Z :=
  match r with
  | MongoReply x => Controller.statusCode x
  | PostgresReply x => Controller.statusCode x
  end.

Definition status_of (r : reply) : string :=
  match r with
  | MongoReply x => Controller.status (Controller.json x)
  | PostgresReply x => Controller.status (Controller.json x)
  end.

Definition message_of (r : reply) : option string :=
  match r with
  | MongoReply x => Controller.message (Controller.json x)
  | PostgresReply x => Controller.message (Controller.json x)
  end.

Definition has_data (r : reply) : bool :=
  match r with
  | MongoReply x =>
      match Controller.data (Controller.json x) with Some _ => true | None => false end
  | PostgresReply x =>
      match Controller.data (Controller.json x) with Some _ => true | None => false end
  end.

Definition error_of (r : reply) : option exception :=
  match r with
  | MongoReply x => Controller.error (Controller.json x)
  | PostgresReply x => Controller.error (Controller.json x)
  end.

(** The three shapes of an answer: a success carries [data] and no
    [error]; a client error (400, 404) carries a [message] and neither
    [data] nor [error]; a server error (500) carries a [message] and the
    [error] that was caught. *)
Definition well_shaped (r : reply) : Prop :=
  ((code_of r = 200 \/ code_of r = 201)
   /\ status_of r = "success" /\ has_data r = true /\ error_of r = None)
  \/ ((code_of r = 400 \/ code_of r = 404)
      /\ status_of r = "error" /\ message_of r <> None
      /\ has_data r = false /\ error_of r = None)
  \/ (code_of r = 500
      /\ status_of r = "error" /\ message_of r <> None
      /\ has_data r = false /\ error_of r <> None).

Definition is_get (r : request) : bool :=
  match r with
  | GET_mongo | GET_mongo_id _ | GET_postgres | GET_postgres_id _ => true
  | _ => false
  end.

Section Router.

Variable castObjectId : string -> option N.

Definition on_mongo (h : Mongoose.Collection ->
                        Controller.Response Mongoose.User * Mongoose.Collection)
    (s : stores) : reply * stores :=
  let (r, c) := h (collection s) in (MongoReply r, mkStores c (table s)).

Definition on_postgres (h : Prisma.Table ->
                           Controller.Response Prisma.User * Prisma.Table)
    (s : stores) : reply * stores :=
  let (r, t) := h (table s) in (PostgresReply r, mkStores (collection s) t).

(** The route table: each route with the controller it names. *)
Definition handle (r : request) : stores -> reply * stores :=
  match r with
  | GET_mongo => on_mongo Controller.getAllUsersFromMongo
  | GET_mongo_id id => on_mongo (Controller.getUserByIdFromMongo castObjectId id)
  | POST_mongo now body => on_mongo (Controller.createUserInMongo now body)
  | PUT_mongo_id now id body =>
      on_mongo (Controller.updateUserInMongo castObjectId now id body)
  | DELETE_mongo_id id => on_mongo (Controller.deleteUserFromMongo castObjectId id)
  | GET_postgres => on_postgres Controller.getAllUsersFromPostgres
  | GET_postgres_id id => on_postgres (Controller.getUserByIdFromPostgres id)
  | POST_postgres now body => on_postgres (Controller.createUserInPostgres now body)
  | PUT_postgres_id now id body =>
      on_postgres (Controller.updateUserInPostgres now id body)
  | DELETE_postgres_id id => on_postgres (Controller.deleteUserFromPostgres id)
  end.

(** The stores after a sequence of requests, served one after the other. *)
Definition serve (rs : list request) (s : stores) : stores :=
  fold_left (fun s r => snd (handle r s)) rs s.

End Router.

(** Stores that hold no record yet. *)
Definition fresh (n : N) (m : Z) (up_mongo up_postgres : bool) : stores :=
  mkStores (Mongoose.mkCollection [] n up_mongo) (Prisma.mkTable [] m up_postgres).

End Routes.

(* ================================================================== *)
(** ** What the stores keep true *)
(* ================================================================== *)

Module Invariant.

(** Every identifier in use was handed out before: it is below the next
    one. *)
Definition mongo_ids_fresh (c : Mongoose.Collection) : Prop :=
  Forall (fun u => (Mongoose._id u < Mongoose.next_id c)%N) (Mongoose.docs c).

Definition postgres_ids_fresh (t : Prisma.Table) : Prop :=
  Forall (fun u => Prisma.id u < Prisma.next_id t) (Prisma.rows t).

Definition mongo_ids_unique (c : Mongoose.Collection) : Prop :=
  NoDup (map Mongoose._id (Mongoose.docs c)).

Definition postgres_ids_unique (t : Prisma.Table) : Prop :=
  NoDup (map Prisma.id (Prisma.rows t)).

Definition mongo_emails_unique (c : Mongoose.Collection) : Prop :=
  NoDup (map Mongoose.email (Mongoose.docs c)).

Definition postgres_emails_unique (t : Prisma.Table) : Prop :=
  NoDup (map Prisma.email (Prisma.rows t)).

(** A document that passes the validators of the schema as it is stored. *)
Definition valid_doc (u : Mongoose.User) : bool :=
  Mongoose.name_length_ok (Mongoose.name u)
  && Regex.test Mongoose.email_pattern (Mongoose.email u)
  && match Mongoose.age u with
     | Some z => Mongoose.age_in_range z
     | None => true
     end
  && match Mongoose.role u with
     | Some r => Mongoose.in_enum r
     | None => true
     end.

(** A document whose name is trimmed and whose email is trimmed and in
    lower case. *)
Definition normalized (u : Mongoose.User) : Prop :=
  JS.trim (Mongoose.name u) = Mongoose.name u
  /\ JS.trim (Mongoose.email u) = Mongoose.email u
  /\ JS.toLowerCase (Mongoose.email u) = Mongoose.email u.

(** A string that does not start with white space. *)
Definition starts_clean (s : string) : bool :=
  match s with
  | EmptyString => true
  | String c _ => negb (JS.is_space c)
  end.

(** The four together, for the collection; the three on identifiers and
    emails, for the table. *)
Definition mongo_wf (c : Mongoose.Collection) : Prop :=
  mongo_ids_fresh c
  /\ mongo_ids_unique c
  /\ mongo_emails_unique c
  /\ Forall (fun u => valid_doc u = true /\ normalized u) (Mongoose.docs c).

Definition postgres_wf (t : Prisma.Table) : Prop :=
  postgres_ids_fresh t /\ postgres_ids_unique t /\ postgres_emails_unique t.

End Invariant.

(* ================================================================== *)
(** ** config/prismaDb.js: the client of the process *)
(* ================================================================== *)

Module PrismaDb.

(** A client: which instance it is, and the [log] option it was made
    with. *)
Record PrismaClient : Type := mkClient {
  instance : nat;
  log : list string
}.

(** What loading the module reads and writes: [process.env.NODE_ENV],
    [global.prisma], and the number of clients made so far. *)
Record process : Type := mkProcess {
  NODE_ENV : option string;
  global_prisma : option PrismaClient;
  made : nat
}.

Definition env_is (p : process) (s : string) : bool :=
  match NODE_ENV p with
  | Some e => String.eqb e s
  | None => false
  end.

(** [prismaClientSingleton()] *)
Definition prismaClientSingleton (p : process) : PrismaClient :=
  mkClient (made p)
    (if env_is p "development"
     then ["query"; "info"; "warn"; "error"]
     else ["error"]).

(** Loading the module: [prisma] is [global.prisma] when there is one, a
    new client otherwise, and outside production it is kept in
    [global.prisma]. *)
Definition load (p : process) : PrismaClient * process :=
  let (prisma, n) :=
    match global_prisma p with
    | Some c => (c, made p)
    | None => (prismaClientSingleton p, S (made p))
    end in
  (prisma,
   mkProcess (NODE_ENV p)
     (if negb (env_is p "production") then Some prisma else global_prisma p)
     n).

End PrismaDb.

(* ================================================================== *)
(** ** Further sample data *)
(* ================================================================== *)

Module Scenario.

Import Sample.

(** The document of Ann in [collection_ann]. *)
Definition ann_doc : Mongoose.User :=
  Mongoose.mkUser 1 "Ann" "ann@ex.com" None (Some "USER") 100 100.

(** [{"name":"Cy","email":"cy@ex.com"}] and [{"name":"Di","email":"di@ex.com"}] *)
Definition cy : Req.body :=
  Req.mkBody (JS.VStr "Cy") (JS.VStr "cy@ex.com") absent absent.
Definition di : Req.body :=
  Req.mkBody (JS.VStr "Di") (JS.VStr "di@ex.com") absent absent.

Definition cy_doc : Mongoose.User :=
  Mongoose.mkUser 2 "Cy" "cy@ex.com" None (Some "USER") 101 101.
Definition di_row : Prisma.User :=
  Prisma.mkUser 2 "Di" "di@ex.com" None "USER" 101 101.

(** The stores after Cy, respectively Di, has been created at time 101. *)
Definition collection_ann_cy : Mongoose.Collection :=
  snd (Controller.createUserInMongo 101 cy collection_ann).
Definition table_bo_di : Prisma.Table :=
  snd (Controller.createUserInPostgres 101 di table_bo).

Definition id2 : string := "000000000000000000000002".

(** [{"email":"ann@ex.com"}] and [{"email":"bo@ex.com"}] *)
Definition email_ann : Req.body :=
  Req.mkBody absent (JS.VStr "ann@ex.com") absent absent.
Definition email_bo : Req.body :=
  Req.mkBody absent (JS.VStr "bo@ex.com") absent absent.

(** [{"name":"Ann","email":"ann@ex.com","age":0}] *)
Definition ann_age0 : Req.body :=
  Req.mkBody (JS.VStr "Ann") (JS.VStr "ann@ex.com") (JS.VNumber (JS.Num 0)) absent.

(** The row of Ann created with a falsy age. *)
Definition ann_row : Prisma.User :=
  Prisma.mkUser 1 "Ann" "ann@ex.com" None "USER" 100 100.

(** The stores after the one record of [collection_ann], respectively
    [table_bo], has been deleted. *)
Definition empty_collection_2 : Mongoose.Collection :=
  Mongoose.mkCollection [] 2%N true.
Definition empty_table_2 : Prisma.Table :=
  Prisma.mkTable [] 2 true.

(** The stores without records, both reachable, and the stores that
    hold Ann and Bo. *)
Definition stores0 : Routes.stores := Routes.fresh 1 1 true true.
Definition stores_ann_bo : Routes.stores :=
  Routes.mkStores collection_ann table_bo.

(** A process started with [NODE_ENV=development] and one started with
    [NODE_ENV=production], before the module is loaded. *)
Definition development : PrismaDb.process :=
  PrismaDb.mkProcess (Some "development") None 0.
Definition production : PrismaDb.process :=
  PrismaDb.mkProcess (Some "production") None 0.

End Scenario.

(* ================================================================== *)
(** ** Facts about the built-ins *)
(* ================================================================== *)

Module JSFacts.
Import JS.

Lemma digits_prefix_some R s a :
  exists m, digits_prefix R s (Some a) = Some m.
Proof.
  revert a; induction s as [|c s IH]; intros a; simpl.
  - now exists a.
  - destruct (digit_val R c); [apply IH | now exists a].
Qed.

Lemma digits_prefix_none R s :
  digits_prefix R s None = None <-> starts_with_digit R s = false.
Proof.
  destruct s as [|c s]; simpl.
  - tauto.
  - destruct (digit_val R c).
    + destruct (digits_prefix_some R s (R * 0 + z)) as [m ->]. split; discriminate.
    + tauto.
Qed.

Lemma parseInt_string_NaN s :
  isNaN (parseInt_string s) = negb (has_integer_prefix s).
Proof.
  unfold parseInt_string, has_integer_prefix.
  set (t := drop_sign (trimStart s)).
  destruct (has_hex_prefix t).
  - destruct (digits_prefix 16 (drop2 t) None) eqn:E; simpl.
    + destruct (starts_with_digit 16 (drop2 t)) eqn:F; trivial.
      apply digits_prefix_none in F. congruence.
    + apply digits_prefix_none in E. now rewrite E.
  - destruct (digits_prefix 10 t None) eqn:E; simpl.
    + destruct (starts_with_digit 10 t) eqn:F; trivial.
      apply digits_prefix_none in F. congruence.
    + apply digits_prefix_none in E. now rewrite E.
Qed.

Lemma digits_prefix_uint_acc d acc :
  digits_prefix 10 (NilEmpty.string_of_uint d) (Some (Z.pos acc))
  = Some (Z.pos (Pos.of_uint_acc d acc)).
Proof.
  revert acc; induction d; intros acc; cbn [NilEmpty.string_of_uint digits_prefix Pos.of_uint_acc];
    trivial;
    match goal with
    | |- context [digit_val 10 ?c] =>
        let v := eval vm_compute in (digit_val 10 c) in
        change (digit_val 10 c) with v
    end; cbv iota beta;
    match goal with
    | |- digits_prefix _ _ (Some ?a) = Some (Z.pos (Pos.of_uint_acc _ ?b)) =>
        replace a with (Z.pos b) by lia
    end; apply IHd.
Qed.

Lemma digits_prefix_uint d acc :
  acc = None \/ acc = Some 0 ->
  digits_prefix 10 (NilEmpty.string_of_uint d) acc
  = match d with
    | Decimal.Nil => acc
    | _ => Some (Z.of_N (Pos.of_uint d))
    end.
Proof.
  revert acc; induction d; intros acc Hacc;
    cbn [NilEmpty.string_of_uint digits_prefix Pos.of_uint]; trivial;
    match goal with
    | |- context [digit_val 10 ?c] =>
        let v := eval vm_compute in (digit_val 10 c) in
        change (digit_val 10 c) with v
    end; cbv iota beta.
  1: { replace (10 * match acc with Some a => a | None => 0 end + 0) with 0
         by (destruct Hacc; subst; reflexivity).
       rewrite IHd by (now right). destruct d; reflexivity. }
  all: match goal with
    | |- digits_prefix _ _ (Some ?a) = Some (Z.of_N (N.pos (Pos.of_uint_acc _ ?b))) =>
        replace a with (Z.pos b) by (destruct Hacc; subst; reflexivity)
    end; apply digits_prefix_uint_acc.
Qed.

Lemma parseInt_string_uint d :
  d <> Decimal.Nil ->
  parseInt_string (NilEmpty.string_of_uint d) = Num (Z.of_N (Pos.of_uint d))
  /\ parseInt_string (String "-" (NilEmpty.string_of_uint d))
     = Num (- Z.of_N (Pos.of_uint d)).
Proof.
  intros Hd.
  assert (Hhex : has_hex_prefix (NilEmpty.string_of_uint d) = false).
  { destruct d as [|d|d|d|d|d|d|d|d|d|d]; trivial; destruct d; reflexivity. }
  assert (Hdig : digits_prefix 10 (NilEmpty.string_of_uint d) None
                 = Some (Z.of_N (Pos.of_uint d))).
  { rewrite digits_prefix_uint by (now left). destruct d; congruence. }
  split.
  - unfold parseInt_string.
    replace (trimStart (NilEmpty.string_of_uint d)) with (NilEmpty.string_of_uint d)
      by (destruct d; reflexivity).
    replace (drop_sign (NilEmpty.string_of_uint d)) with (NilEmpty.string_of_uint d)
      by (destruct d; reflexivity).
    replace (sign_of (NilEmpty.string_of_uint d)) with 1 by (destruct d; reflexivity).
    rewrite Hhex, Hdig. f_equal; lia.
  - unfold parseInt_string.
    change (trimStart (String "-" (NilEmpty.string_of_uint d)))
      with (String "-" (NilEmpty.string_of_uint d)).
    change (sign_of (String "-" (NilEmpty.string_of_uint d))) with (-1).
    change (drop_sign (String "-" (NilEmpty.string_of_uint d)))
      with (NilEmpty.string_of_uint d).
    rewrite Hhex, Hdig. f_equal; lia.
Qed.

(** Reading the decimal form of an integer gives the integer back. *)
Lemma parseInt_decimal z :
  parseInt_string (decimal z) = Num z.
Proof.
  unfold decimal.
  destruct z as [|p|p]; cbn [Z.to_int NilZero.string_of_int].
  - reflexivity.
  - pose proof (Unsigned.to_uint_nonnil p) as Hn.
    replace (NilZero.string_of_uint (Pos.to_uint p))
      with (NilEmpty.string_of_uint (Pos.to_uint p))
      by (unfold NilZero.string_of_uint; destruct (Pos.to_uint p); congruence).
    rewrite (proj1 (parseInt_string_uint _ Hn)), Unsigned.of_to. reflexivity.
  - pose proof (Unsigned.to_uint_nonnil p) as Hn.
    replace (NilZero.string_of_uint (Pos.to_uint p))
      with (NilEmpty.string_of_uint (Pos.to_uint p))
      by (unfold NilZero.string_of_uint; destruct (Pos.to_uint p); congruence).
    rewrite (proj2 (parseInt_string_uint _ Hn)), Unsigned.of_to. reflexivity.
Qed.

(** A number below 10^21 is written with its decimal digits, so parseInt
    of the number is the number. *)
Lemma parseInt_number_toString z :
  Z.abs z < 10 ^ 21 ->
  parseInt_string (number_toString (Num z)) = Num z.
Proof.
  intros Hz. unfold number_toString.
  apply Z.ltb_lt in Hz. rewrite Hz. apply parseInt_decimal.
Qed.


End JSFacts.

(* ================================================================== *)
(** ** Properties of the controllers *)
(* ================================================================== *)

Import Controller.

(** Unfolding a controller down to the store. *)
Ltac unfold_store :=
  unfold try_catch, bind, guard, ret, throw,
    Mongoose.connection, Prisma.connection in *.

Ltac unfold_mongo :=
  unfold getAllUsersFromMongo, getUserByIdFromMongo, createUserInMongo,
    updateUserInMongo, deleteUserFromMongo,
    Mongoose.find, Mongoose.findById, Mongoose.create,
    Mongoose.findByIdAndUpdate, Mongoose.findByIdAndDelete in *;
  unfold_store.

Ltac unfold_postgres :=
  unfold getAllUsersFromPostgres, getUserByIdFromPostgres,
    createUserInPostgres, updateUserInPostgres, deleteUserFromPostgres,
    Prisma.findMany, Prisma.findUnique, Prisma.create, Prisma.update,
    Prisma.delete, Prisma.where_id in *;
  unfold_store.

(** Reading the fields of a body that is given as a record. *)
Ltac fields := cbn [Req.name Req.email Req.age Req.role] in *.

Section Claims.

Variable castObjectId : string -> option N.


(** C1, as amended.  For every id that the driver cannot cast to an
    ObjectId, getById, update and delete on the document store answer 500
    with [{status:"error", message:"Failed to ... user ... MongoDB", error}],
    the error being the cast error of the client, and leave the store as
    it was; they answer neither 400 nor 404. *)
Theorem mongo_malformed_id_is_cast_error :
  forall (id : string) (now : Z) (body : Req.body) (c : Mongoose.Collection),
    castObjectId id = None ->
    getUserByIdFromMongo castObjectId id c
    = (failure_with 500 "Failed to fetch user from MongoDB" CastError, c)
    /\ updateUserInMongo castObjectId now id body c
       = (failure_with 500 "Failed to update user in MongoDB" CastError, c)
    /\ deleteUserFromMongo castObjectId id c
       = (failure_with 500 "Failed to delete user from MongoDB" CastError, c).
Proof.
  intros id now body c H. unfold_mongo. rewrite H. auto.
Qed.

(** Status codes of the relational controllers that take an id. *)
Lemma postgres_try_not_400 :
  forall (A : Type) (call : M Prisma.Table A)
    (ok : A -> Response Prisma.User) msg1 codeNF msg2 (t : Prisma.Table),
    (forall a, statusCode (ok a) <> 400) ->
    statusCode
      (fst (try_catch call ok
              (fun error =>
                 if code_is_string error codeNF
                 then failure 404 msg1
                 else failure_with 500 msg2 error) t)) <> 400.
Proof.
  intros A call ok msg1 codeNF msg2 t Hok. unfold try_catch.
  destruct (call t) as [[e t']|[a t']]; simpl.
  - destruct (code_is_string e codeNF); simpl; discriminate.
  - apply Hok.
Qed.

(** C2, as amended.  getById, update and delete on the relational store
    answer 400 with [{status:"error", message:"Invalid user ID"}], without
    calling the store, exactly for the ids that do not start with an
    integer as parseInt reads one (after leading white space and an
    optional sign: a decimal digit, or [0x] and a hexadecimal digit).  An
    id that starts with one, such as 12abc or 3.5, is read as that integer
    and is never answered with 400. *)
Theorem postgres_id_rejected_iff_no_integer_prefix :
  forall (id : string) (now : Z) (body : Req.body) (t : Prisma.Table),
    (JS.has_integer_prefix id = false ->
       getUserByIdFromPostgres id t = (failure 400 "Invalid user ID", t)
       /\ updateUserInPostgres now id body t = (failure 400 "Invalid user ID", t)
       /\ deleteUserFromPostgres id t = (failure 400 "Invalid user ID", t))
    /\ (JS.has_integer_prefix id = true ->
          statusCode (fst (getUserByIdFromPostgres id t)) <> 400
          /\ statusCode (fst (updateUserInPostgres now id body t)) <> 400
          /\ statusCode (fst (deleteUserFromPostgres id t)) <> 400).
Proof.
  intros id now body t.
  pose proof (JSFacts.parseInt_string_NaN id) as HN.
  split; intros H; rewrite H in HN; simpl in HN.
  - unfold getUserByIdFromPostgres, updateUserInPostgres, deleteUserFromPostgres,
      JS.parseInt, JS.toString.
    rewrite HN. auto.
  - unfold getUserByIdFromPostgres, updateUserInPostgres, deleteUserFromPostgres,
      JS.parseInt, JS.toString.
    rewrite HN. repeat split.
    + unfold try_catch.
      destruct (Prisma.findUnique _ t) as [[e t']|[[u|] t']]; simpl; discriminate.
    + apply postgres_try_not_400. intros a; simpl; discriminate.
    + apply postgres_try_not_400. intros a; simpl; discriminate.
Qed.




Lemma malformed_not_valid (doc : Req.body) :
  Entity.malformed_name (Req.name doc) || Entity.malformed_email (Req.email doc)
  || Entity.age_out_of_range (Req.age doc)
  || Entity.role_outside_enum (Req.role doc) = true ->
  Mongoose.validate doc = false.
Proof.
  unfold Mongoose.validate. destruct doc as [n e a r]; simpl.
  intros H. repeat rewrite orb_true_iff in H.
  destruct H as [[[H|H]|H]|H].
  - destruct n as [| |b|m|s]; try discriminate H. simpl in H.
    unfold Mongoose.set_name, Mongoose.valid_name, Mongoose.required.
    cbn [Mongoose.castString Mongoose.cast_map JS.toString].
    unfold Entity.name_ok in H.
    apply negb_true_iff in H. rewrite H. now rewrite andb_false_r.
  - destruct e as [| |b|m|s]; try discriminate H. simpl in H.
    unfold Mongoose.set_email, Mongoose.valid_email, Mongoose.required.
    cbn [Mongoose.castString Mongoose.cast_map JS.toString].
    unfold Entity.email_ok in H.
    apply negb_true_iff in H. unfold Mongoose.email_match. rewrite H.
    destruct (JS.str_empty _); simpl; now rewrite andb_false_r.
  - destruct a as [| |b|[|z]|s]; try discriminate H. simpl in H.
    apply negb_true_iff in H. simpl. rewrite H.
    now rewrite andb_false_r.
  - destruct r as [| |b|m|s]; try discriminate H. simpl in H.
    apply negb_true_iff in H. simpl. rewrite H. now rewrite andb_false_r.
Qed.

(** C3, as amended.  For every create payload in which [name] or [email]
    is missing or otherwise falsy, create on either adapter answers 400
    with [{status:"error", message:"Name and email are required"}] and does
    not touch the store.  On the document store, a payload with truthy
    [name] and [email] in which the name or the email is malformed, the age
    is a number outside 0..150, or the role is a string outside the
    enumeration, fails the validation of the schema and is answered with
    500, [{status:"error", message:"Failed to create user in MongoDB",
    error}]. *)
Theorem create_requires_name_and_email :
  forall (now : Z) (body : Req.body) (c : Mongoose.Collection) (t : Prisma.Table),
    (JS.truthy (Req.name body) = false \/ JS.truthy (Req.email body) = false ->
       createUserInMongo now body c
       = (failure 400 "Name and email are required", c)
       /\ createUserInPostgres now body t
          = (failure 400 "Name and email are required", t))
    /\ (JS.truthy (Req.name body) = true ->
        JS.truthy (Req.email body) = true ->
        Entity.malformed_name (Req.name body)
        || Entity.malformed_email (Req.email body)
        || Entity.age_out_of_range (Req.age body)
        || Entity.role_outside_enum (Req.role body) = true ->
        createUserInMongo now body c
        = (failure_with 500 "Failed to create user in MongoDB" ValidationError, c)).
Proof.
  intros now body c t. split.
  - intros H. unfold createUserInMongo, createUserInPostgres.
    assert (G : negb (JS.truthy (Req.name body)) || negb (JS.truthy (Req.email body)) = true)
      by (destruct H as [-> | ->]; simpl; auto using orb_true_r).
    rewrite G. auto.
  - intros Hn He Hbad. apply malformed_not_valid in Hbad.
    destruct body as [n e a r]; cbn [Req.name Req.email Req.age Req.role] in *.
    unfold createUserInMongo. cbn [Req.name Req.email Req.age Req.role].
    rewrite Hn, He. cbn [negb orb].
    unfold_mongo. cbn [Req.name Req.email Req.age Req.role].
    rewrite Hbad.
    destruct (Mongoose.set_name n), (Mongoose.set_email e); reflexivity.
Qed.


(** *** What the store calls return *)


Lemma mongoose_create_inr (now : Z) (doc : Req.body) (c c1 : Mongoose.Collection) u :
  Mongoose.create now doc c = inr (u, c1) ->
  Mongoose.set_name (Req.name doc) = Mongoose.Val (Mongoose.name u)
  /\ Mongoose.set_email (Req.email doc) = Mongoose.Val (Mongoose.email u)
  /\ Mongoose.validate doc = true
  /\ Mongoose.connected c = true
  /\ Mongoose.email_taken (Mongoose.email u) (Mongoose.docs c) = false
  /\ Mongoose.docs c1 = (Mongoose.docs c ++ [u])%list
  /\ Mongoose.connected c1 = true.
Proof.
  unfold Mongoose.create. unfold_store.
  destruct (Mongoose.set_name (Req.name doc)) as [| |n|]; try discriminate.
  destruct (Mongoose.set_email (Req.email doc)) as [| |e|]; try discriminate.
  destruct (Mongoose.validate doc); try discriminate.
  destruct (Mongoose.connected c) eqn:Hc; try discriminate.
  destruct (Mongoose.email_taken e (Mongoose.docs c)) eqn:Ht; try discriminate.
  intros H. injection H as <- <-. cbn. auto 10.
Qed.

Lemma mongoose_create_optional (now : Z) (doc : Req.body)
    (c c1 : Mongoose.Collection) u :
  Mongoose.create now doc c = inr (u, c1) ->
  Mongoose.age u = Mongoose.stored (Mongoose.set_age (Req.age doc)) None
  /\ Mongoose.role u
     = Mongoose.stored (Mongoose.set_role (Req.role doc)) (Some "USER").
Proof.
  unfold Mongoose.create. unfold_store.
  destruct (Mongoose.set_name (Req.name doc)) as [| |n|]; try discriminate.
  destruct (Mongoose.set_email (Req.email doc)) as [| |e|]; try discriminate.
  destruct (Mongoose.validate doc); try discriminate.
  destruct (Mongoose.connected c); try discriminate.
  destruct (Mongoose.email_taken e (Mongoose.docs c)); try discriminate.
  intros H. injection H as <- <-. cbn. auto.
Qed.

Lemma createUserInMongo_201 (now : Z) (body : Req.body) (c c1 : Mongoose.Collection) r :
  createUserInMongo now body c = (r, c1) ->
  statusCode r = 201 ->
  exists u, Mongoose.create now body c = inr (u, c1)
            /\ r = success_message 201 "User created successfully" u.
Proof.
  destruct body as [n e a ro]. unfold createUserInMongo. fields.
  destruct (negb (JS.truthy n) || negb (JS.truthy e)).
  - intros [= <- <-]; discriminate.
  - unfold try_catch.
    destruct (Mongoose.create now _ c) as [[err c']|[u c']].
    + destruct (code_is_number err 11000); intros [= <- <-]; discriminate.
    + intros [= <- <-] _. eauto.
Qed.


Lemma prisma_create_inr (now : Z) (data : Req.body) (t t1 : Prisma.Table) u :
  Prisma.create now data t = inr (u, t1) ->
  Req.name data = JS.VStr (Prisma.name u)
  /\ Req.email data = JS.VStr (Prisma.email u)
  /\ Prisma.connected t = true
  /\ Prisma.rows t1 = (Prisma.rows t ++ [u])%list
  /\ Prisma.connected t1 = true.
Proof.
  unfold Prisma.create. unfold_store.
  destruct (Req.name data) as [| |b|m|n]; try discriminate.
  destruct (Req.email data) as [| |b|m|e]; try discriminate.
  cbn [Prisma.arg_string].
  destruct (Prisma.check_create data); try discriminate.
  destruct (Prisma.connected t) eqn:Hc; try discriminate.
  destruct (Prisma.in_range data); try discriminate.
  destruct (Prisma.text_ok data); try discriminate.
  destruct (Prisma.email_taken e (Prisma.rows t)); try discriminate.
  intros H. injection H as <- <-. cbn. auto 10.
Qed.

Lemma prisma_create_optional (now : Z) (data : Req.body) (t t1 : Prisma.Table) u :
  Prisma.create now data t = inr (u, t1) ->
  Prisma.age u = match Prisma.arg_int_opt (Req.age data) with
                 | Prisma.Given z => z
                 | _ => None
                 end
  /\ Prisma.role u = match Prisma.arg_string (Req.role data) with
                     | Prisma.Given s => s
                     | _ => "USER"
                     end.
Proof.
  unfold Prisma.create. unfold_store.
  destruct (Prisma.arg_string (Req.name data)) as [|n|]; try discriminate.
  destruct (Prisma.arg_string (Req.email data)) as [|e|]; try discriminate.
  destruct (Prisma.check_create data); try discriminate.
  destruct (Prisma.connected t); try discriminate.
  destruct (Prisma.in_range data); try discriminate.
  destruct (Prisma.text_ok data); try discriminate.
  destruct (Prisma.email_taken e (Prisma.rows t)); try discriminate.
  intros H. injection H as <- <-. cbn. auto.
Qed.

Lemma createUserInPostgres_201 (now : Z) (body : Req.body) (t t1 : Prisma.Table) r :
  createUserInPostgres now body t = (r, t1) ->
  statusCode r = 201 ->
  exists u, Prisma.create now (create_data body) t = inr (u, t1)
            /\ r = success_message 201 "User created successfully" u.
Proof.
  unfold createUserInPostgres.
  destruct (negb (JS.truthy (Req.name body)) || negb (JS.truthy (Req.email body))).
  - intros [= <- <-]; discriminate.
  - unfold try_catch.
    destruct (Prisma.create now _ t) as [[err t']|[u t']].
    + destruct (code_is_string err "P2002"); intros [= <- <-]; discriminate.
    + intros [= <- <-] _. eauto.
Qed.





(** *** Updates *)

Lemma mongo_find_replace (i : N) (u u' : Mongoose.User) (l : list Mongoose.User) :
  Mongoose.find_by_id i l = Some u ->
  Mongoose._id u' = i ->
  Mongoose.find_by_id i (Mongoose.replace_doc i u' l) = Some u'.
Proof.
  intros Hf Hi. induction l as [|x l IH]; [discriminate|].
  unfold Mongoose.find_by_id in *. simpl in *.
  destruct (N.eqb (Mongoose._id x) i) eqn:E; simpl.
  - now rewrite Hi, N.eqb_refl.
  - rewrite E. auto.
Qed.

Lemma prisma_find_replace (i : Z) (u u' : Prisma.User) (l : list Prisma.User) :
  Prisma.find_by_id i l = Some u ->
  Prisma.id u' = i ->
  Prisma.find_by_id i (Prisma.replace_row i u' l) = Some u'.
Proof.
  intros Hf Hi. induction l as [|x l IH]; [discriminate|].
  unfold Prisma.find_by_id in *. simpl in *.
  destruct (Z.eqb (Prisma.id x) i) eqn:E; simpl.
  - now rewrite Hi, Z.eqb_refl.
  - rewrite E. auto.
Qed.

Lemma mongo_find_id (i : N) (u : Mongoose.User) (l : list Mongoose.User) :
  Mongoose.find_by_id i l = Some u -> Mongoose._id u = i.
Proof.
  intros H. apply find_some in H. destruct H as [_ H]. now apply N.eqb_eq.
Qed.

Lemma prisma_find_id (i : Z) (u : Prisma.User) (l : list Prisma.User) :
  Prisma.find_by_id i l = Some u -> Prisma.id u = i.
Proof.
  intros H. apply find_some in H. destruct H as [_ H]. now apply Z.eqb_eq.
Qed.

(** The document an update of the document store returns and stores. *)
Lemma findByIdAndUpdate_inr (now : Z) (id : string) (update : Req.body)
    (c c1 : Mongoose.Collection) (u' : Mongoose.User) :
  Mongoose.findByIdAndUpdate castObjectId now id update c = inr (Some u', c1) ->
  exists i u,
    castObjectId id = Some i
    /\ Mongoose.find_by_id i (Mongoose.docs c) = Some u
    /\ u' = Mongoose.apply_set now
              (Mongoose.set_name (Req.name update))
              (Mongoose.set_email (Req.email update))
              (Mongoose.set_age (Req.age update))
              (Mongoose.set_role (Req.role update)) u
    /\ Mongoose.find_by_id i (Mongoose.docs c1) = Some u'.
Proof.
  unfold Mongoose.findByIdAndUpdate. unfold_store.
  destruct (castObjectId id) as [i|]; try discriminate.
  destruct (Mongoose.castUpdate update); try discriminate.
  destruct (Mongoose.validate_update update); try discriminate.
  destruct (Mongoose.connected c); try discriminate.
  destruct (Mongoose.find_by_id i (Mongoose.docs c)) as [u|] eqn:Hf; try discriminate.
  match goal with |- context [if ?b then _ else _] => destruct b end;
    try discriminate.
  intros H. injection H as <- <-.
  exists i, u. repeat split; trivial. cbn [Mongoose.docs].
  eapply mongo_find_replace; eauto. cbn. eapply mongo_find_id; eauto.
Qed.

Lemma updateUserInMongo_200 (now : Z) (id : string) (body : Req.body)
    (c c1 : Mongoose.Collection) r :
  updateUserInMongo castObjectId now id body c = (r, c1) ->
  statusCode r = 200 ->
  exists u', Mongoose.findByIdAndUpdate castObjectId now id body c = inr (Some u', c1)
             /\ r = success_message 200 "User updated successfully" u'.
Proof.
  unfold updateUserInMongo, try_catch.
  destruct (Mongoose.findByIdAndUpdate _ _ _ _ _) as [[e c']|[[u|] c']];
    intros [= <- <-]; try discriminate. eauto.
Qed.

(** The row an update of the relational store returns and stores. *)
Lemma prisma_update_inr (now : Z) (i : JS.number) (data : Req.body)
    (t t1 : Prisma.Table) (u' : Prisma.User) :
  Prisma.update now i data t = inr (u', t1) ->
  exists z u,
    i = JS.Num z
    /\ Prisma.find_by_id z (Prisma.rows t) = Some u
    /\ u' = Prisma.apply_data now
              (Prisma.arg_string (Req.name data))
              (Prisma.arg_string (Req.email data))
              (Prisma.arg_int_opt (Req.age data))
              (Prisma.arg_string (Req.role data)) u
    /\ Prisma.find_by_id z (Prisma.rows t1) = Some u'.
Proof.
  unfold Prisma.update, Prisma.where_id. unfold_store.
  destruct (Prisma.check_update data); try discriminate.
  destruct i as [|z]; try discriminate.
  destruct (Prisma.connected t); try discriminate.
  destruct (Prisma.int4 z); try discriminate.
  destruct (Prisma.in_range data); try discriminate.
  destruct (Prisma.text_ok data); try discriminate.
  destruct (Prisma.find_by_id z (Prisma.rows t)) as [u|] eqn:Hf; try discriminate.
  match goal with |- context [if ?b then _ else _] => destruct b end;
    try discriminate.
  intros H. injection H as <- <-.
  exists z, u. repeat split; trivial. cbn [Prisma.rows].
  eapply prisma_find_replace; eauto. cbn. eapply prisma_find_id; eauto.
Qed.

Lemma updateUserInPostgres_200 (now : Z) (id : string) (body : Req.body)
    (t t1 : Prisma.Table) r :
  updateUserInPostgres now id body t = (r, t1) ->
  statusCode r = 200 ->
  exists u', Prisma.update now (JS.parseInt (JS.VStr id)) (build_updateData body) t
             = inr (u', t1)
             /\ r = success_message 200 "User updated successfully" u'.
Proof.
  unfold updateUserInPostgres.
  destruct (JS.isNaN _).
  - intros [= <- <-]; discriminate.
  - unfold try_catch.
    destruct (Prisma.update _ _ _ _) as [[e t']|[u t']].
    + destruct (code_is_string e "P2025"); intros [= <- <-]; discriminate.
    + intros [= <- <-] _. eauto.
Qed.

(** A successful update of the relational store keeps every field whose
    value in the body is falsy. *)
Lemma postgres_update_keeps_falsy (now : Z) (id : string) (body : Req.body)
    (t t1 : Prisma.Table) r :
  updateUserInPostgres now id body t = (r, t1) ->
  statusCode r = 200 ->
  exists z u u',
    JS.parseInt (JS.VStr id) = JS.Num z
    /\ Prisma.find_by_id z (Prisma.rows t) = Some u
    /\ r = success_message 200 "User updated successfully" u'
    /\ Prisma.find_by_id z (Prisma.rows t1) = Some u'
    /\ (JS.truthy (Req.name body) = false -> Prisma.name u' = Prisma.name u)
    /\ (JS.truthy (Req.email body) = false -> Prisma.email u' = Prisma.email u)
    /\ (JS.truthy (Req.age body) = false -> Prisma.age u' = Prisma.age u)
    /\ (JS.truthy (Req.role body) = false -> Prisma.role u' = Prisma.role u).
Proof.
  intros H S.
  destruct (updateUserInPostgres_200 _ _ _ _ _ _ H S) as (u' & Hu & ->).
  apply prisma_update_inr in Hu. destruct Hu as (z & u & Hz & Hf & -> & Hf').
  exists z, u. eexists. repeat split; eauto;
    intros F; unfold build_updateData; fields; rewrite F; reflexivity.
Qed.

Lemma truthy_undefined (v : JS.value) : v = JS.VUndefined -> JS.truthy v = false.
Proof. now intros ->. Qed.

(** C5.  When an update answers 200, on either adapter, the record with
    that id existed, the answer carries the record as it is stored after
    the update, and every field among name, email, age and role that the
    payload does not have has the value it had before.  The [data] the
    relational adapter sends to the store, [build_updateData body], has no
    key that the payload does not have. *)
Theorem update_keeps_fields_not_in_payload :
  forall (now : Z) (id : string) (body : Req.body),
    (forall (c c1 : Mongoose.Collection) r,
        updateUserInMongo castObjectId now id body c = (r, c1) ->
        statusCode r = 200 ->
        exists i u u',
          castObjectId id = Some i
          /\ Mongoose.find_by_id i (Mongoose.docs c) = Some u
          /\ r = success_message 200 "User updated successfully" u'
          /\ Mongoose.find_by_id i (Mongoose.docs c1) = Some u'
          /\ (Req.name body = JS.VUndefined -> Mongoose.name u' = Mongoose.name u)
          /\ (Req.email body = JS.VUndefined -> Mongoose.email u' = Mongoose.email u)
          /\ (Req.age body = JS.VUndefined -> Mongoose.age u' = Mongoose.age u)
          /\ (Req.role body = JS.VUndefined -> Mongoose.role u' = Mongoose.role u))
    /\ (forall (t t1 : Prisma.Table) r,
          updateUserInPostgres now id body t = (r, t1) ->
          statusCode r = 200 ->
          exists z u u',
            JS.parseInt (JS.VStr id) = JS.Num z
            /\ Prisma.find_by_id z (Prisma.rows t) = Some u
            /\ r = success_message 200 "User updated successfully" u'
            /\ Prisma.find_by_id z (Prisma.rows t1) = Some u'
            /\ (Req.name body = JS.VUndefined -> Prisma.name u' = Prisma.name u)
            /\ (Req.email body = JS.VUndefined -> Prisma.email u' = Prisma.email u)
            /\ (Req.age body = JS.VUndefined -> Prisma.age u' = Prisma.age u)
            /\ (Req.role body = JS.VUndefined -> Prisma.role u' = Prisma.role u))
    /\ (Req.name body = JS.VUndefined ->
          Req.name (build_updateData body) = JS.VUndefined)
    /\ (Req.email body = JS.VUndefined ->
          Req.email (build_updateData body) = JS.VUndefined)
    /\ (Req.age body = JS.VUndefined ->
          Req.age (build_updateData body) = JS.VUndefined)
    /\ (Req.role body = JS.VUndefined ->
          Req.role (build_updateData body) = JS.VUndefined).
Proof.
  intros now id body. split; [|split].
  - intros c c1 r H S.
    destruct (updateUserInMongo_200 _ _ _ _ _ _ H S) as (u' & Hu & ->).
    apply findByIdAndUpdate_inr in Hu.
    destruct Hu as (i & u & Hi & Hf & -> & Hf').
    exists i, u. eexists. repeat split; eauto; intros ->; reflexivity.
  - intros t t1 r H S.
    destruct (postgres_update_keeps_falsy _ _ _ _ _ _ H S)
      as (z & u & u' & Hz & Hf & -> & Hf' & Kn & Ke & Ka & Kr).
    exists z, u, u'. repeat split; auto using truthy_undefined.
  - unfold build_updateData; fields.
    repeat split; intros ->; reflexivity.
Qed.


(** *** Identifiers that match no record *)

(** C6, as amended.  On a store that can be reached, for an id that
    matches no stored record and that the driver casts to an ObjectId
    (document store), respectively from which parseInt reads an integer of
    the 32-bit range of the column (relational store), getById and delete
    answer 404 with [{status:"error", message:"User not found"}], and so
    does update for a payload the store accepts: on the document store it
    passes casting and validation, on the relational store its arguments
    fit the schema, its age fits the column and its strings hold no code
    unit 0; all of this is checked before the record is looked up.  The
    store is left as it was.  An id from which parseInt reads an integer
    outside the 32-bit range is answered with 500 by all three
    operations of the relational store, whatever the store holds. *)
Theorem unknown_id_is_not_found :
  forall (now : Z) (id : string) (body : Req.body),
    (forall (c : Mongoose.Collection) (i : N),
        castObjectId id = Some i ->
        Mongoose.find_by_id i (Mongoose.docs c) = None ->
        Mongoose.connected c = true ->
        getUserByIdFromMongo castObjectId id c
        = (failure 404 "User not found", c)
        /\ deleteUserFromMongo castObjectId id c
           = (failure 404 "User not found", c)
        /\ (Mongoose.castUpdate body = true ->
            Mongoose.validate_update body = true ->
            updateUserInMongo castObjectId now id body c
            = (failure 404 "User not found", c)))
    /\ (forall (t : Prisma.Table) (z : Z),
          JS.parseInt (JS.VStr id) = JS.Num z ->
          Prisma.int4 z = true ->
          Prisma.find_by_id z (Prisma.rows t) = None ->
          Prisma.connected t = true ->
          getUserByIdFromPostgres id t = (failure 404 "User not found", t)
          /\ deleteUserFromPostgres id t = (failure 404 "User not found", t)
          /\ (Prisma.check_update (build_updateData body) = true ->
              Prisma.in_range (build_updateData body) = true ->
              Prisma.text_ok (build_updateData body) = true ->
              updateUserInPostgres now id body t
              = (failure 404 "User not found", t)))
    /\ (forall (t : Prisma.Table) (z : Z),
          JS.parseInt (JS.VStr id) = JS.Num z ->
          Prisma.int4 z = false ->
          statusCode (fst (getUserByIdFromPostgres id t)) = 500
          /\ statusCode (fst (deleteUserFromPostgres id t)) = 500
          /\ statusCode (fst (updateUserInPostgres now id body t)) = 500).
Proof.
  intros now id body. split; [|split].
  - intros c i Hi Hf Hc. unfold_mongo. rewrite Hi, Hc, Hf.
    repeat split. intros Hv Hv'.
    repeat (first [rewrite Hv | rewrite Hv' | rewrite Hc | rewrite Hf];
            cbv beta iota).
    reflexivity.
  - intros t z Hz Hr Hf Hc. unfold_postgres. rewrite Hz. cbn [JS.isNaN].
    cbv beta iota. rewrite Hc, Hr, Hf. repeat split. intros Hv Hr' Hx.
    repeat (first [rewrite Hv | rewrite Hr' | rewrite Hx | rewrite Hc | rewrite Hr
                  | rewrite Hf];
            cbv beta iota).
    reflexivity.
  - intros t z Hz Hr. unfold_postgres. rewrite Hz. cbn [JS.isNaN]. cbv beta iota.
    destruct (Prisma.check_update (build_updateData body));
      destruct (Prisma.connected t); rewrite ?Hr; cbn; auto.
Qed.

(** *** Creating a user *)









(** *** Falsy fields in an update of the relational store *)

(** An update of an existing row that leaves [email] out, with arguments
    the client accepts, succeeds. *)
Lemma postgres_update_existing (now : Z) (id : string) (body : Req.body)
    (t : Prisma.Table) (z : Z) (u : Prisma.User) :
  JS.parseInt (JS.VStr id) = JS.Num z ->
  Prisma.int4 z = true ->
  Prisma.connected t = true ->
  Prisma.find_by_id z (Prisma.rows t) = Some u ->
  Prisma.check_update (build_updateData body) = true ->
  Prisma.in_range (build_updateData body) = true ->
  Prisma.text_ok (build_updateData body) = true ->
  Req.email (build_updateData body) = JS.VUndefined ->
  let u' := Prisma.apply_data now
              (Prisma.arg_string (Req.name (build_updateData body)))
              Prisma.Omitted
              (Prisma.arg_int_opt (Req.age (build_updateData body)))
              (Prisma.arg_string (Req.role (build_updateData body))) u in
  exists t1,
    updateUserInPostgres now id body t
    = (success_message 200 "User updated successfully" u', t1)
    /\ Prisma.find_by_id z (Prisma.rows t1) = Some u'.
Proof.
  intros Hz Hr Hc Hf Hv Hr' Hx He u'.
  unfold_postgres. rewrite Hz. cbn [JS.isNaN].
  repeat (first [rewrite Hv | rewrite Hr' | rewrite Hx | rewrite Hc | rewrite Hr
                | rewrite Hf];
          cbv beta iota).
  rewrite He. cbn [Prisma.arg_string Prisma.apply_data Prisma.email].
  rewrite String.eqb_refl. cbn [negb andb].
  eexists. split; [reflexivity|]. cbn [Prisma.rows].
  eapply prisma_find_replace; eauto. cbn. eapply prisma_find_id; eauto.
Qed.

(** C10, as amended.  In an update of the relational store, every field
    of the body whose value is falsy (0, the empty string, null, false, or
    absent) gets no key in [build_updateData body], and when the update
    answers 200 the stored record keeps its former value for that field.
    For every existing record, on a store that can be reached, the update
    with [{"age": 0}] answers 200 and leaves name, email, age and role as
    they were: the number 0 never sets the age.  A truthy value that
    parses to 0 does: the update with [{"age": "0"}] answers 200 and sets
    the age of the record to 0. *)
Theorem postgres_update_skips_falsy_fields :
  forall (now : Z) (id : string) (body : Req.body),
    (JS.truthy (Req.name body) = false ->
       Req.name (build_updateData body) = JS.VUndefined)
    /\ (JS.truthy (Req.email body) = false ->
          Req.email (build_updateData body) = JS.VUndefined)
    /\ (JS.truthy (Req.age body) = false ->
          Req.age (build_updateData body) = JS.VUndefined)
    /\ (JS.truthy (Req.role body) = false ->
          Req.role (build_updateData body) = JS.VUndefined)
    /\ (forall (t t1 : Prisma.Table) r,
          updateUserInPostgres now id body t = (r, t1) ->
          statusCode r = 200 ->
          exists z u u',
            JS.parseInt (JS.VStr id) = JS.Num z
            /\ Prisma.find_by_id z (Prisma.rows t) = Some u
            /\ r = success_message 200 "User updated successfully" u'
            /\ Prisma.find_by_id z (Prisma.rows t1) = Some u'
            /\ (JS.truthy (Req.name body) = false -> Prisma.name u' = Prisma.name u)
            /\ (JS.truthy (Req.email body) = false -> Prisma.email u' = Prisma.email u)
            /\ (JS.truthy (Req.age body) = false -> Prisma.age u' = Prisma.age u)
            /\ (JS.truthy (Req.role body) = false -> Prisma.role u' = Prisma.role u))
    /\ (forall (t : Prisma.Table) (z : Z) (u : Prisma.User),
          JS.parseInt (JS.VStr id) = JS.Num z ->
          Prisma.int4 z = true ->
          Prisma.connected t = true ->
          Prisma.find_by_id z (Prisma.rows t) = Some u ->
          (exists u' t1,
              updateUserInPostgres now id
                (Req.mkBody JS.VUndefined JS.VUndefined
                   (JS.VNumber (JS.Num 0)) JS.VUndefined) t
              = (success_message 200 "User updated successfully" u', t1)
              /\ Prisma.find_by_id z (Prisma.rows t1) = Some u'
              /\ Prisma.name u' = Prisma.name u
              /\ Prisma.email u' = Prisma.email u
              /\ Prisma.age u' = Prisma.age u
              /\ Prisma.role u' = Prisma.role u)
          /\ (exists u' t1,
                updateUserInPostgres now id
                  (Req.mkBody JS.VUndefined JS.VUndefined
                     (JS.VStr "0") JS.VUndefined) t
                = (success_message 200 "User updated successfully" u', t1)
                /\ Prisma.find_by_id z (Prisma.rows t1) = Some u'
                /\ Prisma.age u' = Some 0)).
Proof.
  intros now id body.
  repeat match goal with |- _ /\ _ => split end.
  1-4: unfold build_updateData; fields; intros ->; reflexivity.
  - apply postgres_update_keeps_falsy.
  - intros t z u Hz Hr Hc Hf. split.
    + destruct (postgres_update_existing now id
                  (Req.mkBody JS.VUndefined JS.VUndefined
                     (JS.VNumber (JS.Num 0)) JS.VUndefined) t z u)
        as (t1 & H1 & H2); trivial.
      eexists; exists t1. split; [exact H1|]. split; [exact H2|].
      repeat split.
    + destruct (postgres_update_existing now id
                  (Req.mkBody JS.VUndefined JS.VUndefined
                     (JS.VStr "0") JS.VUndefined) t z u)
        as (t1 & H1 & H2); trivial.
      eexists; exists t1. split; [exact H1|]. split; [exact H2|].
      reflexivity.
Qed.

End Claims.

(* ================================================================== *)
(** ** The properties on concrete requests *)
(* ================================================================== *)

Import Sample.

(** A malformed ObjectId on the collection that holds Ann. *)
Lemma mongo_malformed_id_is_cast_error_witness :
  getUserByIdFromMongo hex24 "abc" collection_ann
  = (failure_with 500 "Failed to fetch user from MongoDB" CastError, collection_ann)
  /\ updateUserInMongo hex24 200 "abc" age26 collection_ann
     = (failure_with 500 "Failed to update user in MongoDB" CastError, collection_ann)
  /\ deleteUserFromMongo hex24 "abc" collection_ann
     = (failure_with 500 "Failed to delete user from MongoDB" CastError, collection_ann).
Proof.
  apply (mongo_malformed_id_is_cast_error hex24 "abc" 200 age26 collection_ann).
  reflexivity.
Defined.

(** GET, PUT and DELETE /api/users/mongo/abc answer 500, not 400 with
    "Invalid user ID". *)
Lemma mongo_malformed_id_answers_500 :
  hex24 "abc" = None
  /\ statusCode (fst (getUserByIdFromMongo hex24 "abc" collection_ann)) = 500
  /\ fst (getUserByIdFromMongo hex24 "abc" collection_ann)
     <> failure 400 "Invalid user ID"
  /\ statusCode (fst (updateUserInMongo hex24 200 "abc" age26 collection_ann)) = 500
  /\ statusCode (fst (deleteUserFromMongo hex24 "abc" collection_ann)) = 500.
Proof.
  repeat split; try reflexivity. vm_compute. discriminate.
Qed.

Lemma postgres_id_rejected_iff_no_integer_prefix_witness :
  (getUserByIdFromPostgres "abc" table_bo = (failure 400 "Invalid user ID", table_bo)
   /\ updateUserInPostgres 200 "abc" age26 table_bo
      = (failure 400 "Invalid user ID", table_bo)
   /\ deleteUserFromPostgres "abc" table_bo
      = (failure 400 "Invalid user ID", table_bo))
  /\ (statusCode (fst (getUserByIdFromPostgres "12abc" table_bo)) <> 400
      /\ statusCode (fst (updateUserInPostgres 200 "12abc" age26 table_bo)) <> 400
      /\ statusCode (fst (deleteUserFromPostgres "12abc" table_bo)) <> 400).
Proof.
  split.
  - apply (proj1 (postgres_id_rejected_iff_no_integer_prefix "abc" 200 age26 table_bo)).
    reflexivity.
  - apply (proj2 (postgres_id_rejected_iff_no_integer_prefix "12abc" 200 age26 table_bo)).
    reflexivity.
Defined.

(** The ids "12abc" and "3.5" are read as 12 and 3 and looked up; "1abc"
    and "1.5" are read as 1 and answer with the row of Bo. *)
Lemma postgres_id_with_trailing_text_is_looked_up :
  JS.parseInt (JS.VStr "12abc") = JS.Num 12
  /\ JS.parseInt (JS.VStr "3.5") = JS.Num 3
  /\ getUserByIdFromPostgres "12abc" table_bo
     = (failure 404 "User not found", table_bo)
  /\ getUserByIdFromPostgres "3.5" table_bo
     = (failure 404 "User not found", table_bo)
  /\ getUserByIdFromPostgres "1abc" table_bo = (success_user bo_row, table_bo)
  /\ statusCode (fst (updateUserInPostgres 200 "1.5" age26 table_bo)) = 200
  /\ deleteUserFromPostgres "1abc" table_bo
     = (success_message 200 "User deleted successfully" bo_row,
        Prisma.mkTable [] 2 true).
Proof.
  repeat split; reflexivity.
Qed.

Lemma create_requires_name_and_email_witness :
  (createUserInMongo 100 no_name empty_collection
   = (failure 400 "Name and email are required", empty_collection)
   /\ createUserInPostgres 100 no_name empty_table
      = (failure 400 "Name and email are required", empty_table))
  /\ createUserInMongo 100 ann_bad_email empty_collection
     = (failure_with 500 "Failed to create user in MongoDB" ValidationError,
        empty_collection).
Proof.
  split.
  - apply (proj1 (create_requires_name_and_email 100 no_name empty_collection empty_table)).
    left. reflexivity.
  - apply (proj2 (create_requires_name_and_email 100 ann_bad_email empty_collection
                    empty_table)); reflexivity.
Defined.

(** A malformed email and an age of 200 answer 500 on the document store;
    the relational store stores the age of 200 and answers 201. *)
Lemma create_invalid_fields_is_not_400 :
  createUserInMongo 100 ann_bad_email empty_collection
  = (failure_with 500 "Failed to create user in MongoDB" ValidationError,
     empty_collection)
  /\ statusCode (fst (createUserInMongo 100 ann_age200 empty_collection)) = 500
  /\ statusCode (fst (createUserInPostgres 100 ann_age200 empty_table)) = 201.
Proof.
  repeat split; reflexivity.
Qed.



Lemma update_keeps_fields_not_in_payload_witness :
  (exists i u u',
      hex24 id1 = Some i
      /\ Mongoose.find_by_id i (Mongoose.docs collection_ann) = Some u
      /\ fst (updateUserInMongo hex24 200 id1 age26 collection_ann)
         = success_message 200 "User updated successfully" u'
      /\ Mongoose.find_by_id i
           (Mongoose.docs (snd (updateUserInMongo hex24 200 id1 age26 collection_ann)))
         = Some u'
      /\ (Req.name age26 = JS.VUndefined -> Mongoose.name u' = Mongoose.name u)
      /\ (Req.email age26 = JS.VUndefined -> Mongoose.email u' = Mongoose.email u)
      /\ (Req.age age26 = JS.VUndefined -> Mongoose.age u' = Mongoose.age u)
      /\ (Req.role age26 = JS.VUndefined -> Mongoose.role u' = Mongoose.role u))
  /\ (exists z u u',
        JS.parseInt (JS.VStr "1") = JS.Num z
        /\ Prisma.find_by_id z (Prisma.rows table_bo) = Some u
        /\ fst (updateUserInPostgres 200 "1" age26 table_bo)
           = success_message 200 "User updated successfully" u'
        /\ Prisma.find_by_id z
             (Prisma.rows (snd (updateUserInPostgres 200 "1" age26 table_bo)))
           = Some u'
        /\ (Req.name age26 = JS.VUndefined -> Prisma.name u' = Prisma.name u)
        /\ (Req.email age26 = JS.VUndefined -> Prisma.email u' = Prisma.email u)
        /\ (Req.age age26 = JS.VUndefined -> Prisma.age u' = Prisma.age u)
        /\ (Req.role age26 = JS.VUndefined -> Prisma.role u' = Prisma.role u))
  /\ Req.name (build_updateData age26) = JS.VUndefined.
Proof.
  pose proof (update_keeps_fields_not_in_payload hex24 200 id1 age26) as [Hm _].
  pose proof (update_keeps_fields_not_in_payload hex24 200 "1" age26) as (_ & Hp & Hn & _).
  split; [|split].
  - apply (Hm collection_ann _ _ eq_refl). reflexivity.
  - apply (Hp table_bo _ _ eq_refl). reflexivity.
  - apply Hn. reflexivity.
Defined.

Lemma unknown_id_is_not_found_witness :
  (getUserByIdFromMongo hex24 id9 collection_ann
   = (failure 404 "User not found", collection_ann)
   /\ deleteUserFromMongo hex24 id9 collection_ann
      = (failure 404 "User not found", collection_ann)
   /\ updateUserInMongo hex24 200 id9 age26 collection_ann
      = (failure 404 "User not found", collection_ann))
  /\ (getUserByIdFromPostgres "999999" table_bo
      = (failure 404 "User not found", table_bo)
      /\ deleteUserFromPostgres "999999" table_bo
         = (failure 404 "User not found", table_bo)
      /\ updateUserInPostgres 200 "999999" age26 table_bo
         = (failure 404 "User not found", table_bo))
  /\ (statusCode (fst (getUserByIdFromPostgres id_2_31 table_bo)) = 500
      /\ statusCode (fst (deleteUserFromPostgres id_2_31 table_bo)) = 500
      /\ statusCode (fst (updateUserInPostgres 200 id_2_31 age26 table_bo)) = 500).
Proof.
  pose proof (unknown_id_is_not_found hex24 200 id9 age26) as [Hm _].
  pose proof (unknown_id_is_not_found hex24 200 "999999" age26) as (_ & Hp & _).
  pose proof (unknown_id_is_not_found hex24 200 id_2_31 age26) as (_ & _ & Hb).
  destruct (Hm collection_ann 9%N eq_refl eq_refl eq_refl) as (H1 & H2 & H3).
  destruct (Hp table_bo 999999 eq_refl eq_refl eq_refl eq_refl) as (K1 & K2 & K3).
  split; [|split].
  - split; [exact H1 | split; [exact H2 | apply H3; reflexivity]].
  - split; [exact K1 | split; [exact K2 | apply K3; reflexivity]].
  - exact (Hb table_bo 2147483648 eq_refl eq_refl).
Defined.

(** An id that no record has is not always answered with 404: GET, PUT
    and DELETE /api/users/postgres/2147483648 answer 500, and so does a
    PUT on the document store with [{..., "age":200}] for an ObjectId no
    document has. *)
Lemma unknown_id_can_answer_500 :
  JS.parseInt (JS.VStr id_2_31) = JS.Num 2147483648
  /\ Prisma.find_by_id 2147483648 (Prisma.rows table_bo) = None
  /\ statusCode (fst (getUserByIdFromPostgres id_2_31 table_bo)) = 500
  /\ statusCode (fst (updateUserInPostgres 200 id_2_31 age26 table_bo)) = 500
  /\ statusCode (fst (deleteUserFromPostgres id_2_31 table_bo)) = 500
  /\ hex24 id9 = Some 9%N
  /\ Mongoose.find_by_id 9 (Mongoose.docs collection_ann) = None
  /\ updateUserInMongo hex24 200 id9 ann_age200 collection_ann
     = (failure_with 500 "Failed to update user in MongoDB" ValidationError,
        collection_ann).
Proof.
  repeat split; reflexivity.
Qed.




Lemma postgres_update_skips_falsy_fields_witness :
  Req.age (build_updateData age0) = JS.VUndefined
  /\ (exists z u u',
        JS.parseInt (JS.VStr "1") = JS.Num z
        /\ Prisma.find_by_id z (Prisma.rows table_bo) = Some u
        /\ fst (updateUserInPostgres 200 "1" age0 table_bo)
           = success_message 200 "User updated successfully" u'
        /\ Prisma.find_by_id z
             (Prisma.rows (snd (updateUserInPostgres 200 "1" age0 table_bo)))
           = Some u'
        /\ (JS.truthy (Req.name age0) = false -> Prisma.name u' = Prisma.name u)
        /\ (JS.truthy (Req.email age0) = false -> Prisma.email u' = Prisma.email u)
        /\ (JS.truthy (Req.age age0) = false -> Prisma.age u' = Prisma.age u)
        /\ (JS.truthy (Req.role age0) = false -> Prisma.role u' = Prisma.role u))
  /\ (exists u' t1,
        updateUserInPostgres 200 "1" age0 table_bo
        = (success_message 200 "User updated successfully" u', t1)
        /\ Prisma.find_by_id 1 (Prisma.rows t1) = Some u'
        /\ Prisma.name u' = Prisma.name bo_row
        /\ Prisma.email u' = Prisma.email bo_row
        /\ Prisma.age u' = Prisma.age bo_row
        /\ Prisma.role u' = Prisma.role bo_row)
  /\ (exists u' t1,
        updateUserInPostgres 200 "1" age0_string table_bo
        = (success_message 200 "User updated successfully" u', t1)
        /\ Prisma.find_by_id 1 (Prisma.rows t1) = Some u'
        /\ Prisma.age u' = Some 0).
Proof.
  pose proof (postgres_update_skips_falsy_fields 200 "1" age0)
    as (_ & _ & Ha & _ & Hk & Hz).
  destruct (Hz table_bo 1 bo_row eq_refl eq_refl eq_refl eq_refl) as [H0 Hs].
  split; [|split; [|split]].
  - apply Ha. reflexivity.
  - apply (Hk table_bo _ _ eq_refl). reflexivity.
  - exact H0.
  - exact Hs.
Defined.

(** PUT /api/users/postgres/1 with [{"age":"0"}] sets the age of Bo, which
    was 30, to 0. *)
Lemma postgres_update_sets_age_to_zero :
  Prisma.find_by_id 1 (Prisma.rows table_bo) = Some bo_row
  /\ Prisma.age bo_row = Some 30
  /\ updateUserInPostgres 200 "1" age0_string table_bo
     = (success_message 200 "User updated successfully"
          (Prisma.mkUser 1 "Bo" "bo@ex.com" (Some 0) "USER" 100 200),
        Prisma.mkTable [Prisma.mkUser 1 "Bo" "bo@ex.com" (Some 0) "USER" 100 200]
          2 true).
Proof.
  repeat split; reflexivity.
Qed.

(* ================================================================== *)
(** ** Further properties of the code *)
(* ================================================================== *)

(** *** Strings as they are stored *)

Lemma is_space_lower (c : ascii) : JS.is_space (JS.lower_char c) = JS.is_space c.
Proof. destruct c as [[] [] [] [] [] [] [] []]; reflexivity. Qed.

Lemma lower_char_idem (c : ascii) : JS.lower_char (JS.lower_char c) = JS.lower_char c.
Proof. destruct c as [[] [] [] [] [] [] [] []]; reflexivity. Qed.

Lemma toLowerCase_idem (s : string) :
  JS.toLowerCase (JS.toLowerCase s) = JS.toLowerCase s.
Proof. induction s; simpl; [trivial | now rewrite lower_char_idem, IHs]. Qed.

Lemma str_empty_lower (s : string) :
  JS.str_empty (JS.toLowerCase s) = JS.str_empty s.
Proof. now destruct s. Qed.

Lemma toLowerCase_trimStart (s : string) :
  JS.toLowerCase (JS.trimStart s) = JS.trimStart (JS.toLowerCase s).
Proof.
  induction s as [|c s IH]; simpl; trivial.
  rewrite is_space_lower. destruct (JS.is_space c); trivial.
Qed.

Lemma toLowerCase_trimEnd (s : string) :
  JS.toLowerCase (JS.trimEnd s) = JS.trimEnd (JS.toLowerCase s).
Proof.
  induction s as [|c s IH]; simpl; trivial.
  rewrite is_space_lower, <- IH, str_empty_lower.
  destruct (JS.is_space c && JS.str_empty (JS.trimEnd s)); simpl; trivial.
Qed.

Lemma toLowerCase_trim (s : string) :
  JS.toLowerCase (JS.trim s) = JS.trim (JS.toLowerCase s).
Proof. unfold JS.trim. now rewrite toLowerCase_trimEnd, toLowerCase_trimStart. Qed.

Lemma trimEnd_idem (s : string) : JS.trimEnd (JS.trimEnd s) = JS.trimEnd s.
Proof.
  induction s as [|c s IH]; simpl; trivial.
  destruct (JS.is_space c && JS.str_empty (JS.trimEnd s)) eqn:E; simpl; trivial.
  now rewrite IH, E.
Qed.

Import Invariant.

Lemma trimStart_clean (s : string) : starts_clean (JS.trimStart s) = true.
Proof.
  induction s as [|c s IH]; simpl; trivial.
  destruct (JS.is_space c) eqn:E; simpl; trivial. now rewrite E.
Qed.

Lemma trimStart_of_clean (s : string) :
  starts_clean s = true -> JS.trimStart s = s.
Proof.
  destruct s as [|c s]; simpl; trivial.
  now intros ->%negb_true_iff.
Qed.

Lemma trimEnd_clean (s : string) :
  starts_clean s = true -> starts_clean (JS.trimEnd s) = true.
Proof.
  destruct s as [|c s]; simpl; trivial.
  intros H. apply negb_true_iff in H. now rewrite H; simpl; rewrite H.
Qed.

Lemma trim_idem (s : string) : JS.trim (JS.trim s) = JS.trim s.
Proof.
  unfold JS.trim.
  rewrite (trimStart_of_clean (JS.trimEnd (JS.trimStart s))).
  - apply trimEnd_idem.
  - apply trimEnd_clean, trimStart_clean.
Qed.

(** *** What a path holds after its setters *)

Lemma set_name_trimmed (v : JS.value) (n : string) :
  Mongoose.set_name v = Mongoose.Val n -> JS.trim n = n.
Proof.
  unfold Mongoose.set_name. destruct (Mongoose.castString v); try discriminate.
  cbn. intros [= <-]. apply trim_idem.
Qed.

Lemma set_email_normal (v : JS.value) (e : string) :
  Mongoose.set_email v = Mongoose.Val e ->
  JS.trim e = e /\ JS.toLowerCase e = e.
Proof.
  unfold Mongoose.set_email. destruct (Mongoose.castString v); try discriminate.
  cbn. intros [= <-]. split; [apply trim_idem|].
  now rewrite toLowerCase_trim, toLowerCase_idem.
Qed.

Lemma valid_name_length (n : string) :
  Mongoose.valid_name (Mongoose.Val n) = true -> Mongoose.name_length_ok n = true.
Proof. unfold Mongoose.valid_name. now intros [_ H]%andb_true_iff. Qed.

Lemma valid_email_match (e : string) :
  Mongoose.valid_email (Mongoose.Val e) = true ->
  Regex.test Mongoose.email_pattern e = true.
Proof.
  unfold Mongoose.valid_email, Mongoose.required, Mongoose.email_match.
  intros [H1 H2]%andb_true_iff. apply negb_true_iff in H1. now rewrite H1 in H2.
Qed.

Lemma valid_age_stored (a : Mongoose.cast Z) (old : option Z) :
  Mongoose.valid_age a = true ->
  match old with Some z => Mongoose.age_in_range z | None => true end = true ->
  match Mongoose.stored a old with
  | Some z => Mongoose.age_in_range z
  | None => true
  end = true.
Proof. destruct a; cbn; auto. Qed.

Lemma valid_role_stored (r : Mongoose.cast string) (old : option string) :
  Mongoose.valid_role r = true ->
  match old with Some z => Mongoose.in_enum z | None => true end = true ->
  match Mongoose.stored r old with
  | Some z => Mongoose.in_enum z
  | None => true
  end = true.
Proof. destruct r; cbn; auto. Qed.

(** *** Lists of records *)

Lemma mongo_email_taken_false (e : string) (l : list Mongoose.User) :
  Mongoose.email_taken e l = false <-> ~ In e (map Mongoose.email l).
Proof.
  unfold Mongoose.email_taken. induction l as [|x l IH]; simpl.
  - tauto.
  - rewrite orb_false_iff, IH. destruct (String.eqb_spec (Mongoose.email x) e);
      intuition congruence.
Qed.

Lemma prisma_email_taken_false (e : string) (l : list Prisma.User) :
  Prisma.email_taken e l = false <-> ~ In e (map Prisma.email l).
Proof.
  unfold Prisma.email_taken. induction l as [|x l IH]; simpl.
  - tauto.
  - rewrite orb_false_iff, IH. destruct (String.eqb_spec (Prisma.email x) e);
      intuition congruence.
Qed.

Lemma NoDup_map_snoc {A B : Type} (f : A -> B) (l : list A) (x : A) :
  NoDup (map f l) -> ~ In (f x) (map f l) -> NoDup (map f (l ++ [x])).
Proof.
  induction l as [|y l IH]; simpl; intros Hn Hi.
  - constructor; [tauto | constructor].
  - inversion Hn as [|? ? Hy Hl]; subst. constructor.
    + rewrite map_app, in_app_iff. simpl. intuition.
    + apply IH; tauto.
Qed.

(** Replacing the first record with identifier [i]. *)
Lemma mongo_replace_ids (i : N) (u' : Mongoose.User) (l : list Mongoose.User) :
  Mongoose._id u' = i ->
  map Mongoose._id (Mongoose.replace_doc i u' l) = map Mongoose._id l.
Proof.
  intros Hi. induction l as [|x l IH]; simpl; trivial.
  destruct (N.eqb_spec (Mongoose._id x) i); simpl; congruence.
Qed.

Lemma prisma_replace_ids (i : Z) (u' : Prisma.User) (l : list Prisma.User) :
  Prisma.id u' = i ->
  map Prisma.id (Prisma.replace_row i u' l) = map Prisma.id l.
Proof.
  intros Hi. induction l as [|x l IH]; simpl; trivial.
  destruct (Z.eqb_spec (Prisma.id x) i); simpl; congruence.
Qed.

Lemma mongo_replace_In (i : N) (u' x : Mongoose.User) (l : list Mongoose.User) :
  In x (Mongoose.replace_doc i u' l) -> In x l \/ x = u'.
Proof.
  induction l as [|y l IH]; simpl; [tauto|].
  destruct (N.eqb (Mongoose._id y) i); simpl; intuition.
Qed.

Lemma prisma_replace_In (i : Z) (u' x : Prisma.User) (l : list Prisma.User) :
  In x (Prisma.replace_row i u' l) -> In x l \/ x = u'.
Proof.
  induction l as [|y l IH]; simpl; [tauto|].
  destruct (Z.eqb (Prisma.id y) i); simpl; intuition.
Qed.

Lemma mongo_replace_emails (i : N) (u u' : Mongoose.User) (l : list Mongoose.User) :
  NoDup (map Mongoose.email l) ->
  Mongoose.find_by_id i l = Some u ->
  Mongoose.email u' = Mongoose.email u \/ ~ In (Mongoose.email u') (map Mongoose.email l) ->
  NoDup (map Mongoose.email (Mongoose.replace_doc i u' l)).
Proof.
  unfold Mongoose.find_by_id.
  induction l as [|x l IH]; simpl; intros Hn Hf He; trivial.
  inversion Hn as [|? ? Hx Hl]; subst.
  destruct (N.eqb (Mongoose._id x) i); simpl.
  - injection Hf as ->. constructor; trivial.
    destruct He as [-> | He]; [trivial | intros Hin; apply He; now right].
  - constructor.
    + intros Hin. apply in_map_iff in Hin. destruct Hin as (y & Hy & Hin).
      apply mongo_replace_In in Hin. destruct Hin as [Hin | ->].
      * apply Hx, in_map_iff. eauto.
      * destruct He as [He | He]; [|apply He; left; congruence].
        apply Hx. rewrite <- Hy, He. apply in_map, (find_some _ _ Hf).
    + apply IH; trivial.
      destruct He as [He | He]; [now left | right; intros Hin; apply He; now right].
Qed.

Lemma prisma_replace_emails (i : Z) (u u' : Prisma.User) (l : list Prisma.User) :
  NoDup (map Prisma.email l) ->
  Prisma.find_by_id i l = Some u ->
  Prisma.email u' = Prisma.email u \/ ~ In (Prisma.email u') (map Prisma.email l) ->
  NoDup (map Prisma.email (Prisma.replace_row i u' l)).
Proof.
  unfold Prisma.find_by_id.
  induction l as [|x l IH]; simpl; intros Hn Hf He; trivial.
  inversion Hn as [|? ? Hx Hl]; subst.
  destruct (Z.eqb (Prisma.id x) i); simpl.
  - injection Hf as ->. constructor; trivial.
    destruct He as [-> | He]; [trivial | intros Hin; apply He; now right].
  - constructor.
    + intros Hin. apply in_map_iff in Hin. destruct Hin as (y & Hy & Hin).
      apply prisma_replace_In in Hin. destruct Hin as [Hin | ->].
      * apply Hx, in_map_iff. eauto.
      * destruct He as [He | He]; [|apply He; left; congruence].
        apply Hx. rewrite <- Hy, He. apply in_map, (find_some _ _ Hf).
    + apply IH; trivial.
      destruct He as [He | He]; [now left | right; intros Hin; apply He; now right].
Qed.

Lemma mongo_remove_In (i : N) (x : Mongoose.User) (l : list Mongoose.User) :
  In x (Mongoose.remove_doc i l) -> In x l.
Proof.
  induction l as [|y l IH]; simpl; [tauto|].
  destruct (N.eqb (Mongoose._id y) i); simpl; intuition.
Qed.

Lemma prisma_remove_In (i : Z) (x : Prisma.User) (l : list Prisma.User) :
  In x (Prisma.remove_row i l) -> In x l.
Proof.
  induction l as [|y l IH]; simpl; [tauto|].
  destruct (Z.eqb (Prisma.id y) i); simpl; intuition.
Qed.

Lemma mongo_remove_NoDup {B : Type} (f : Mongoose.User -> B) (i : N)
    (l : list Mongoose.User) :
  NoDup (map f l) -> NoDup (map f (Mongoose.remove_doc i l)).
Proof.
  induction l as [|y l IH]; simpl; intros Hn; trivial.
  inversion Hn as [|? ? Hy Hl]; subst.
  destruct (N.eqb (Mongoose._id y) i); simpl; trivial.
  constructor; auto. intros Hin. apply Hy.
  apply in_map_iff in Hin. destruct Hin as (z & <- & Hz).
  apply in_map, (mongo_remove_In _ _ _ Hz).
Qed.

Lemma prisma_remove_NoDup {B : Type} (f : Prisma.User -> B) (i : Z)
    (l : list Prisma.User) :
  NoDup (map f l) -> NoDup (map f (Prisma.remove_row i l)).
Proof.
  induction l as [|y l IH]; simpl; intros Hn; trivial.
  inversion Hn as [|? ? Hy Hl]; subst.
  destruct (Z.eqb (Prisma.id y) i); simpl; trivial.
  constructor; auto. intros Hin. apply Hy.
  apply in_map_iff in Hin. destruct Hin as (z & <- & Hz).
  apply in_map, (prisma_remove_In _ _ _ Hz).
Qed.

(** *** What each store call does to the store *)

Lemma try_catch_cases {S A U : Type} (call : M S A) (ok : A -> Response U)
    (h : exception -> Response U) (st st1 : S) (r : Response U) :
  try_catch call ok h st = (r, st1) ->
  (exists a, call st = inr (a, st1) /\ r = ok a)
  \/ (exists e, call st = inl (e, st1) /\ r = h e).
Proof.
  unfold try_catch. destruct (call st) as [[e st']|[a st']]; intros [= <- <-]; eauto.
Qed.

Lemma mongoose_create_full (now : Z) (doc : Req.body) (c c1 : Mongoose.Collection)
    (u : Mongoose.User) :
  Mongoose.create now doc c = inr (u, c1) ->
  exists n e,
    Mongoose.set_name (Req.name doc) = Mongoose.Val n
    /\ Mongoose.set_email (Req.email doc) = Mongoose.Val e
    /\ Mongoose.validate doc = true
    /\ Mongoose.connected c = true
    /\ Mongoose.email_taken e (Mongoose.docs c) = false
    /\ u = Mongoose.mkUser (Mongoose.next_id c) n e
             (Mongoose.stored (Mongoose.set_age (Req.age doc)) None)
             (Mongoose.stored (Mongoose.set_role (Req.role doc)) (Some "USER"))
             now now
    /\ c1 = Mongoose.mkCollection (Mongoose.docs c ++ [u])%list
              (N.succ (Mongoose.next_id c)) true.
Proof.
  unfold Mongoose.create. unfold_store.
  destruct (Mongoose.set_name (Req.name doc)) as [| |n|]; try discriminate.
  destruct (Mongoose.set_email (Req.email doc)) as [| |e|]; try discriminate.
  destruct (Mongoose.validate doc); try discriminate.
  destruct (Mongoose.connected c) eqn:Hc; try discriminate.
  destruct (Mongoose.email_taken e (Mongoose.docs c)) eqn:Ht; try discriminate.
  intros H. injection H as <- <-. exists n, e. rewrite Hc. auto 10.
Qed.

Lemma prisma_create_full (now : Z) (data : Req.body) (t t1 : Prisma.Table)
    (u : Prisma.User) :
  Prisma.create now data t = inr (u, t1) ->
  exists n e,
    Req.name data = JS.VStr n
    /\ Req.email data = JS.VStr e
    /\ Prisma.check_create data = true
    /\ Prisma.in_range data = true
    /\ Prisma.text_ok data = true
    /\ Prisma.connected t = true
    /\ Prisma.email_taken e (Prisma.rows t) = false
    /\ u = Prisma.mkUser (Prisma.next_id t) n e
             (match Prisma.arg_int_opt (Req.age data) with
              | Prisma.Given z => z
              | _ => None
              end)
             (match Prisma.arg_string (Req.role data) with
              | Prisma.Given s => s
              | _ => "USER"
              end) now now
    /\ t1 = Prisma.mkTable (Prisma.rows t ++ [u])%list (Prisma.next_id t + 1) true.
Proof.
  unfold Prisma.create. unfold_store.
  destruct (Req.name data) as [| |b|m|n]; try discriminate.
  destruct (Req.email data) as [| |b|m|e]; try discriminate.
  cbn [Prisma.arg_string].
  destruct (Prisma.check_create data); try discriminate.
  destruct (Prisma.connected t) eqn:Hc; try discriminate.
  destruct (Prisma.in_range data); try discriminate.
  destruct (Prisma.text_ok data); try discriminate.
  destruct (Prisma.email_taken e (Prisma.rows t)) eqn:Ht; try discriminate.
  intros H. injection H as <- <-. exists n, e. rewrite Hc. auto 10.
Qed.

(** A create that throws leaves the collection as it was; on the table it
    leaves the rows as they were, and the sequence one value further when
    the insert was refused by the unique index. *)
Lemma mongoose_create_thrown (now : Z) (doc : Req.body) (c c1 : Mongoose.Collection)
    (e : exception) :
  Mongoose.create now doc c = inl (e, c1) -> c1 = c.
Proof.
  unfold Mongoose.create. unfold_store.
  destruct (Mongoose.set_name (Req.name doc)) as [| |n|];
    try (now intros [= _ <-]).
  destruct (Mongoose.set_email (Req.email doc)) as [| |m|];
    try (now intros [= _ <-]).
  destruct (Mongoose.validate doc); try (now intros [= _ <-]).
  destruct (Mongoose.connected c); try (now intros [= _ <-]).
  destruct (Mongoose.email_taken m (Mongoose.docs c)); try discriminate.
  now intros [= _ <-].
Qed.

Lemma prisma_create_thrown (now : Z) (data : Req.body) (t t1 : Prisma.Table)
    (e : exception) :
  Prisma.create now data t = inl (e, t1) ->
  (t1 = t /\ e <> PrismaClientKnownRequestError "P2002")
  \/ (t1 = Prisma.nextval t /\ e = PrismaClientKnownRequestError "P2002").
Proof.
  unfold Prisma.create. unfold_store.
  destruct (Prisma.arg_string (Req.name data)) as [|n|];
    try (intros [= <- <-]; left; split; [trivial | discriminate]).
  destruct (Prisma.arg_string (Req.email data)) as [|m|];
    try (intros [= <- <-]; left; split; [trivial | discriminate]).
  destruct (Prisma.check_create data);
    try (intros [= <- <-]; left; split; [trivial | discriminate]).
  destruct (Prisma.connected t);
    try (intros [= <- <-]; left; split; [trivial | discriminate]).
  destruct (Prisma.in_range data);
    try (intros [= <- <-]; left; split; [trivial | discriminate]).
  destruct (Prisma.text_ok data);
    try (intros [= <- <-]; left; split; [trivial | discriminate]).
  destruct (Prisma.email_taken m (Prisma.rows t)); try discriminate.
  intros [= <- <-]. now right.
Qed.

Section Calls.

Variable castObjectId : string -> option N.

Lemma findByIdAndUpdate_full (now : Z) (id : string) (update : Req.body)
    (c c1 : Mongoose.Collection) (o : option Mongoose.User) :
  Mongoose.findByIdAndUpdate castObjectId now id update c = inr (o, c1) ->
  exists i,
    castObjectId id = Some i
    /\ Mongoose.castUpdate update = true
    /\ Mongoose.validate_update update = true
    /\ Mongoose.connected c = true
    /\ match o with
       | None => Mongoose.find_by_id i (Mongoose.docs c) = None /\ c1 = c
       | Some u' =>
           exists u,
             Mongoose.find_by_id i (Mongoose.docs c) = Some u
             /\ u' = Mongoose.apply_set now
                       (Mongoose.set_name (Req.name update))
                       (Mongoose.set_email (Req.email update))
                       (Mongoose.set_age (Req.age update))
                       (Mongoose.set_role (Req.role update)) u
             /\ (Mongoose.email u' = Mongoose.email u
                 \/ Mongoose.email_taken (Mongoose.email u') (Mongoose.docs c) = false)
             /\ c1 = Mongoose.mkCollection
                       (Mongoose.replace_doc i u' (Mongoose.docs c))
                       (Mongoose.next_id c) true
       end.
Proof.
  unfold Mongoose.findByIdAndUpdate. unfold_store.
  destruct (castObjectId id) as [i|]; try discriminate.
  destruct (Mongoose.castUpdate update); try discriminate.
  destruct (Mongoose.validate_update update); try discriminate.
  destruct (Mongoose.connected c) eqn:Hc; try discriminate.
  destruct (Mongoose.find_by_id i (Mongoose.docs c)) as [u|] eqn:Hf.
  - match goal with |- context [if ?b then _ else _] => destruct b eqn:Hb end;
      try discriminate.
    intros H. injection H as <- <-. exists i. repeat split; trivial.
    exists u. split; [trivial|]. split; [trivial|].
    split; [|now rewrite ?Hc].
    apply andb_false_iff in Hb. destruct Hb as [Hb | Hb].
    + left. apply negb_false_iff in Hb. now apply String.eqb_eq.
    + now right.
  - intros H. injection H as <- <-. exists i. repeat split; trivial.
Qed.

Lemma findByIdAndDelete_full (id : string) (c c1 : Mongoose.Collection)
    (o : option Mongoose.User) :
  Mongoose.findByIdAndDelete castObjectId id c = inr (o, c1) ->
  exists i,
    castObjectId id = Some i
    /\ Mongoose.connected c = true
    /\ Mongoose.find_by_id i (Mongoose.docs c) = o
    /\ c1 = match o with
            | None => c
            | Some _ => Mongoose.mkCollection (Mongoose.remove_doc i (Mongoose.docs c))
                          (Mongoose.next_id c) true
            end.
Proof.
  unfold Mongoose.findByIdAndDelete. unfold_store.
  destruct (castObjectId id) as [i|]; try discriminate.
  destruct (Mongoose.connected c) eqn:Hc; try discriminate.
  destruct (Mongoose.find_by_id i (Mongoose.docs c)) as [u|] eqn:Hf;
    intros H; injection H as <- <-; exists i; rewrite ?Hc; auto.
Qed.

Lemma findById_thrown (id : string) (c c1 : Mongoose.Collection) (e : exception) :
  Mongoose.findById castObjectId id c = inl (e, c1) -> c1 = c.
Proof.
  unfold Mongoose.findById. unfold_store.
  destruct (castObjectId id) as [i|]; try (now intros [= _ <-]).
  destruct (Mongoose.connected c); try discriminate.
  now intros [= _ <-].
Qed.

Lemma findByIdAndUpdate_thrown (now : Z) (id : string) (update : Req.body)
    (c c1 : Mongoose.Collection) (e : exception) :
  Mongoose.findByIdAndUpdate castObjectId now id update c = inl (e, c1) -> c1 = c.
Proof.
  unfold Mongoose.findByIdAndUpdate. unfold_store.
  destruct (castObjectId id) as [i|]; try (now intros [= _ <-]).
  destruct (Mongoose.castUpdate update); try (now intros [= _ <-]).
  destruct (Mongoose.validate_update update); try (now intros [= _ <-]).
  destruct (Mongoose.connected c); try (now intros [= _ <-]).
  destruct (Mongoose.find_by_id i (Mongoose.docs c)) as [u|]; try discriminate.
  match goal with |- context [if ?b then _ else _] => destruct b end;
    try discriminate.
  now intros [= _ <-].
Qed.

Lemma findByIdAndDelete_thrown (id : string) (c c1 : Mongoose.Collection)
    (e : exception) :
  Mongoose.findByIdAndDelete castObjectId id c = inl (e, c1) -> c1 = c.
Proof.
  unfold Mongoose.findByIdAndDelete. unfold_store.
  destruct (castObjectId id) as [i|]; try (now intros [= _ <-]).
  destruct (Mongoose.connected c); try (now intros [= _ <-]).
  destruct (Mongoose.find_by_id i (Mongoose.docs c)) as [u|]; discriminate.
Qed.

End Calls.

Lemma prisma_update_full (now : Z) (i : JS.number) (data : Req.body)
    (t t1 : Prisma.Table) (u' : Prisma.User) :
  Prisma.update now i data t = inr (u', t1) ->
  exists z u,
    i = JS.Num z
    /\ Prisma.int4 z = true
    /\ Prisma.connected t = true
    /\ Prisma.find_by_id z (Prisma.rows t) = Some u
    /\ u' = Prisma.apply_data now
              (Prisma.arg_string (Req.name data))
              (Prisma.arg_string (Req.email data))
              (Prisma.arg_int_opt (Req.age data))
              (Prisma.arg_string (Req.role data)) u
    /\ (Prisma.email u' = Prisma.email u
        \/ Prisma.email_taken (Prisma.email u') (Prisma.rows t) = false)
    /\ t1 = Prisma.mkTable (Prisma.replace_row z u' (Prisma.rows t))
              (Prisma.next_id t) true.
Proof.
  unfold Prisma.update, Prisma.where_id. unfold_store.
  destruct (Prisma.check_update data); try discriminate.
  destruct i as [|z]; try discriminate.
  destruct (Prisma.connected t) eqn:Hc; try discriminate.
  destruct (Prisma.int4 z) eqn:Hz; try discriminate.
  destruct (Prisma.in_range data); try discriminate.
  destruct (Prisma.text_ok data); try discriminate.
  destruct (Prisma.find_by_id z (Prisma.rows t)) as [u|] eqn:Hf; try discriminate.
  match goal with |- context [if ?b then _ else _] => destruct b eqn:Hb end;
    try discriminate.
  intros H. injection H as <- <-. exists z, u.
  do 5 (split; [trivial|]). split; [|now rewrite ?Hc].
  apply andb_false_iff in Hb. destruct Hb as [Hb | Hb].
  - left. apply negb_false_iff in Hb. now apply String.eqb_eq.
  - now right.
Qed.

(** Any other store call that throws leaves the store as it was. *)
Lemma prisma_update_thrown (now : Z) (i : JS.number) (data : Req.body)
    (t t1 : Prisma.Table) (e : exception) :
  Prisma.update now i data t = inl (e, t1) -> t1 = t.
Proof.
  unfold Prisma.update, Prisma.where_id. unfold_store.
  destruct (Prisma.check_update data); try (now intros [= _ <-]).
  destruct i as [|z]; try (now intros [= _ <-]).
  destruct (Prisma.connected t); try (now intros [= _ <-]).
  destruct (Prisma.int4 z); try (now intros [= _ <-]).
  destruct (Prisma.in_range data); try (now intros [= _ <-]).
  destruct (Prisma.text_ok data); try (now intros [= _ <-]).
  destruct (Prisma.find_by_id z (Prisma.rows t)) as [u|]; try (now intros [= _ <-]).
  match goal with |- context [if ?b then _ else _] => destruct b end;
    try discriminate.
  now intros [= _ <-].
Qed.

Lemma prisma_delete_thrown (i : JS.number) (t t1 : Prisma.Table) (e : exception) :
  Prisma.delete i t = inl (e, t1) -> t1 = t.
Proof.
  unfold Prisma.delete, Prisma.where_id. unfold_store.
  destruct i as [|z]; try (now intros [= _ <-]).
  destruct (Prisma.connected t); try (now intros [= _ <-]).
  destruct (Prisma.int4 z); try (now intros [= _ <-]).
  destruct (Prisma.find_by_id z (Prisma.rows t)) as [u|]; try discriminate.
  now intros [= _ <-].
Qed.

Lemma prisma_findUnique_thrown (i : JS.number) (t t1 : Prisma.Table) (e : exception) :
  Prisma.findUnique i t = inl (e, t1) -> t1 = t.
Proof.
  unfold Prisma.findUnique, Prisma.where_id. unfold_store.
  destruct i as [|z]; try (now intros [= _ <-]).
  destruct (Prisma.connected t); try (now intros [= _ <-]).
  destruct (Prisma.int4 z); try discriminate.
  now intros [= _ <-].
Qed.

Lemma prisma_delete_full (i : JS.number) (t t1 : Prisma.Table) (u : Prisma.User) :
  Prisma.delete i t = inr (u, t1) ->
  exists z,
    i = JS.Num z
    /\ Prisma.int4 z = true
    /\ Prisma.connected t = true
    /\ Prisma.find_by_id z (Prisma.rows t) = Some u
    /\ t1 = Prisma.mkTable (Prisma.remove_row z (Prisma.rows t)) (Prisma.next_id t) true.
Proof.
  unfold Prisma.delete, Prisma.where_id. unfold_store.
  destruct i as [|z]; try discriminate.
  destruct (Prisma.connected t) eqn:Hc; try discriminate.
  destruct (Prisma.int4 z) eqn:Hz; try discriminate.
  destruct (Prisma.find_by_id z (Prisma.rows t)) as [u0|] eqn:Hf; try discriminate.
  intros H. injection H as <- <-. exists z. rewrite ?Hc. auto.
Qed.

Lemma prisma_findUnique_full (i : JS.number) (t t1 : Prisma.Table)
    (o : option Prisma.User) :
  Prisma.findUnique i t = inr (o, t1) ->
  exists z, i = JS.Num z /\ Prisma.int4 z = true /\ Prisma.connected t = true
            /\ o = Prisma.find_by_id z (Prisma.rows t) /\ t1 = t.
Proof.
  unfold Prisma.findUnique, Prisma.where_id. unfold_store.
  destruct i as [|z]; try discriminate.
  destruct (Prisma.connected t) eqn:Hc; try discriminate.
  destruct (Prisma.int4 z) eqn:Hz; try discriminate.
  intros H. injection H as <- <-. exists z. auto.
Qed.

(** *** The stores stay well formed *)

Lemma Forall_snoc {A : Type} (P : A -> Prop) (l : list A) (x : A) :
  Forall P l -> P x -> Forall P (l ++ [x]).
Proof. intros Hl Hx. apply Forall_app. auto. Qed.

Lemma mongo_create_wf (now : Z) (doc : Req.body) (c c1 : Mongoose.Collection)
    (u : Mongoose.User) :
  mongo_wf c -> Mongoose.create now doc c = inr (u, c1) -> mongo_wf c1.
Proof.
  intros (Hfresh & Hids & Hem & Hval) H.
  apply mongoose_create_full in H.
  destruct H as (n & e & Hn & He & Hv & _ & Ht & Hu & ->).
  unfold mongo_wf, mongo_ids_fresh, mongo_ids_unique, mongo_emails_unique in *.
  cbn [Mongoose.docs Mongoose.next_id].
  assert (Hid : Mongoose._id u = Mongoose.next_id c) by now subst u.
  assert (Hmail : Mongoose.email u = e) by now subst u.
  repeat split.
  - apply Forall_snoc.
    + eapply Forall_impl; [|exact Hfresh]. cbn. intros; lia.
    + rewrite Hid. lia.
  - apply NoDup_map_snoc; trivial. rewrite Hid. intros Hin.
    apply in_map_iff in Hin. destruct Hin as (x & Hx & Hin).
    rewrite Forall_forall in Hfresh. specialize (Hfresh x Hin). cbn in Hfresh. lia.
  - apply NoDup_map_snoc; trivial. rewrite Hmail.
    now apply mongo_email_taken_false.
  - apply Forall_snoc; trivial.
    unfold Mongoose.validate in Hv. rewrite Hn, He in Hv.
    repeat rewrite andb_true_iff in Hv. destruct Hv as [[[Vn Ve] Va] Vr].
    split.
    + unfold valid_doc. subst u. cbn [Mongoose.name Mongoose.email Mongoose.age Mongoose.role].
      rewrite (valid_name_length _ Vn), (valid_email_match _ Ve).
      rewrite (valid_age_stored _ None Va eq_refl).
      now rewrite (valid_role_stored _ (Some "USER") Vr eq_refl).
    + unfold normalized. subst u. cbn [Mongoose.name Mongoose.email].
      split; [exact (set_name_trimmed _ _ Hn) | exact (set_email_normal _ _ He)].
Qed.

Lemma prisma_create_wf (now : Z) (data : Req.body) (t t1 : Prisma.Table)
    (u : Prisma.User) :
  postgres_wf t -> Prisma.create now data t = inr (u, t1) -> postgres_wf t1.
Proof.
  intros (Hfresh & Hids & Hem) H.
  apply prisma_create_full in H.
  destruct H as (n & e & _ & _ & _ & _ & _ & _ & Ht & Hu & ->).
  unfold postgres_wf, postgres_ids_fresh, postgres_ids_unique,
    postgres_emails_unique in *.
  cbn [Prisma.rows Prisma.next_id].
  assert (Hid : Prisma.id u = Prisma.next_id t) by now subst u.
  assert (Hmail : Prisma.email u = e) by now subst u.
  repeat split.
  - apply Forall_snoc.
    + eapply Forall_impl; [|exact Hfresh]. cbn. intros; lia.
    + rewrite Hid. lia.
  - apply NoDup_map_snoc; trivial. rewrite Hid. intros Hin.
    apply in_map_iff in Hin. destruct Hin as (x & Hx & Hin).
    rewrite Forall_forall in Hfresh. specialize (Hfresh x Hin). cbn in Hfresh. lia.
  - apply NoDup_map_snoc; trivial. rewrite Hmail.
    now apply prisma_email_taken_false.
Qed.

Lemma postgres_wf_nextval (t : Prisma.Table) :
  postgres_wf t -> postgres_wf (Prisma.nextval t).
Proof.
  intros (Hfresh & Hids & Hem). repeat split; trivial.
  unfold postgres_ids_fresh in *. cbn [Prisma.nextval Prisma.rows Prisma.next_id].
  eapply Forall_impl; [|exact Hfresh]. cbn. intros; lia.
Qed.

Lemma mongo_find_thrown (c c1 : Mongoose.Collection) (e : exception) :
  Mongoose.find c = inl (e, c1) -> c1 = c.
Proof.
  unfold Mongoose.find. unfold_store.
  destruct (Mongoose.connected c); [discriminate | now intros [= _ <-]].
Qed.

Lemma prisma_findMany_thrown (t t1 : Prisma.Table) (e : exception) :
  Prisma.findMany t = inl (e, t1) -> t1 = t.
Proof.
  unfold Prisma.findMany. unfold_store.
  destruct (Prisma.connected t); [discriminate | now intros [= _ <-]].
Qed.

Lemma Forall_replace_doc (P : Mongoose.User -> Prop) (i : N) (u' : Mongoose.User)
    (l : list Mongoose.User) :
  Forall P l -> P u' -> Forall P (Mongoose.replace_doc i u' l).
Proof.
  intros Hl Hu. rewrite Forall_forall in *. intros x Hx.
  apply mongo_replace_In in Hx. destruct Hx as [Hx | ->]; auto.
Qed.

Lemma Forall_replace_row (P : Prisma.User -> Prop) (i : Z) (u' : Prisma.User)
    (l : list Prisma.User) :
  Forall P l -> P u' -> Forall P (Prisma.replace_row i u' l).
Proof.
  intros Hl Hu. rewrite Forall_forall in *. intros x Hx.
  apply prisma_replace_In in Hx. destruct Hx as [Hx | ->]; auto.
Qed.

Lemma Forall_remove_doc (P : Mongoose.User -> Prop) (i : N) (l : list Mongoose.User) :
  Forall P l -> Forall P (Mongoose.remove_doc i l).
Proof.
  intros Hl. rewrite Forall_forall in *. intros x Hx.
  apply Hl, (mongo_remove_In _ _ _ Hx).
Qed.

Lemma Forall_remove_row (P : Prisma.User -> Prop) (i : Z) (l : list Prisma.User) :
  Forall P l -> Forall P (Prisma.remove_row i l).
Proof.
  intros Hl. rewrite Forall_forall in *. intros x Hx.
  apply Hl, (prisma_remove_In _ _ _ Hx).
Qed.

(** The document an accepted update writes is valid and normalized when
    the document it replaces is. *)
Lemma apply_set_valid (now : Z) (update : Req.body) (u : Mongoose.User) :
  Mongoose.castUpdate update = true ->
  Mongoose.validate_update update = true ->
  valid_doc u = true /\ normalized u ->
  let u' := Mongoose.apply_set now
              (Mongoose.set_name (Req.name update))
              (Mongoose.set_email (Req.email update))
              (Mongoose.set_age (Req.age update))
              (Mongoose.set_role (Req.role update)) u in
  valid_doc u' = true /\ normalized u'.
Proof.
  intros Hc Hv [Hu Hnorm] u'.
  unfold Mongoose.validate_update in Hv.
  repeat rewrite andb_true_iff in Hv. destruct Hv as [[[Vn Ve] Va] Vr].
  unfold valid_doc in Hu. repeat rewrite andb_true_iff in Hu.
  destruct Hu as [[[Un Ue] Ua] Ur].
  destruct Hnorm as (Nn & Ne & Nl).
  unfold valid_doc, normalized, u'.
  cbn [Mongoose.apply_set Mongoose.name Mongoose.email Mongoose.age Mongoose.role].
  rewrite (valid_age_stored _ _ Va Ua), (valid_role_stored _ _ Vr Ur).
  destruct (Mongoose.set_name (Req.name update)) as [| |n|] eqn:En;
    try discriminate Vn;
  destruct (Mongoose.set_email (Req.email update)) as [| |e|] eqn:Ee;
    try discriminate Ve;
  cbn [Mongoose.update_valid_required] in Vn, Ve;
  rewrite ?Un, ?Ue, ?(valid_name_length _ Vn), ?(valid_email_match _ Ve);
  (split; [reflexivity|]);
  repeat split; trivial;
  try exact (set_name_trimmed _ _ En);
  try exact (proj1 (set_email_normal _ _ Ee));
  try exact (proj2 (set_email_normal _ _ Ee)).
Qed.

Section Preservation.

Variable castObjectId : string -> option N.

Lemma mongo_update_wf (now : Z) (id : string) (update : Req.body)
    (c c1 : Mongoose.Collection) (o : option Mongoose.User) :
  mongo_wf c ->
  Mongoose.findByIdAndUpdate castObjectId now id update c = inr (o, c1) ->
  mongo_wf c1.
Proof.
  intros Hwf H. pose proof Hwf as (Hfresh & Hids & Hem & Hval).
  apply findByIdAndUpdate_full in H.
  destruct H as (i & _ & Hc & Hv & _ & H).
  destruct o as [u'|]; [|now destruct H as [_ ->]].
  destruct H as (u & Hf & Hu & He & ->).
  assert (Hid : Mongoose._id u' = i).
  { subst u'. cbn. apply find_some in Hf. now apply N.eqb_eq. }
  assert (Hin : In u (Mongoose.docs c)) by exact (proj1 (find_some _ _ Hf)).
  unfold mongo_wf, mongo_ids_fresh, mongo_ids_unique, mongo_emails_unique in *.
  cbn [Mongoose.docs Mongoose.next_id].
  repeat split.
  - apply Forall_replace_doc; trivial. rewrite Hid.
    rewrite Forall_forall in Hfresh. specialize (Hfresh u Hin). cbn in Hfresh.
    apply find_some in Hf. destruct Hf as [_ Hf]. apply N.eqb_eq in Hf. lia.
  - now rewrite mongo_replace_ids.
  - eapply mongo_replace_emails; eauto.
    destruct He as [He | He]; [now left | right].
    now apply mongo_email_taken_false.
  - apply Forall_replace_doc; trivial. subst u'.
    apply apply_set_valid; trivial.
    rewrite Forall_forall in Hval. now apply Hval.
Qed.

Lemma mongo_delete_wf (id : string) (c c1 : Mongoose.Collection)
    (o : option Mongoose.User) :
  mongo_wf c ->
  Mongoose.findByIdAndDelete castObjectId id c = inr (o, c1) ->
  mongo_wf c1.
Proof.
  intros Hwf H. pose proof Hwf as (Hfresh & Hids & Hem & Hval).
  apply findByIdAndDelete_full in H.
  destruct H as (i & _ & _ & _ & ->).
  destruct o as [u|]; trivial.
  unfold mongo_wf, mongo_ids_fresh, mongo_ids_unique, mongo_emails_unique in *.
  cbn [Mongoose.docs Mongoose.next_id].
  repeat split.
  - now apply Forall_remove_doc.
  - now apply mongo_remove_NoDup.
  - now apply mongo_remove_NoDup.
  - now apply Forall_remove_doc.
Qed.

End Preservation.

Lemma prisma_update_wf (now : Z) (i : JS.number) (data : Req.body)
    (t t1 : Prisma.Table) (u' : Prisma.User) :
  postgres_wf t -> Prisma.update now i data t = inr (u', t1) -> postgres_wf t1.
Proof.
  intros (Hfresh & Hids & Hem) H.
  apply prisma_update_full in H.
  destruct H as (z & u & _ & _ & _ & Hf & Hu & He & ->).
  assert (Hid : Prisma.id u' = z).
  { subst u'. cbn. apply find_some in Hf. now apply Z.eqb_eq. }
  assert (Hin : In u (Prisma.rows t)) by exact (proj1 (find_some _ _ Hf)).
  unfold postgres_wf, postgres_ids_fresh, postgres_ids_unique,
    postgres_emails_unique in *.
  cbn [Prisma.rows Prisma.next_id].
  repeat split.
  - apply Forall_replace_row; trivial. rewrite Hid.
    rewrite Forall_forall in Hfresh. specialize (Hfresh u Hin). cbn in Hfresh.
    apply find_some in Hf. destruct Hf as [_ Hf]. apply Z.eqb_eq in Hf. lia.
  - now rewrite prisma_replace_ids.
  - eapply prisma_replace_emails; eauto.
    destruct He as [He | He]; [now left | right].
    now apply prisma_email_taken_false.
Qed.

Lemma prisma_delete_wf (i : JS.number) (t t1 : Prisma.Table) (u : Prisma.User) :
  postgres_wf t -> Prisma.delete i t = inr (u, t1) -> postgres_wf t1.
Proof.
  intros (Hfresh & Hids & Hem) H.
  apply prisma_delete_full in H.
  destruct H as (z & _ & _ & _ & _ & ->).
  unfold postgres_wf, postgres_ids_fresh, postgres_ids_unique,
    postgres_emails_unique in *.
  cbn [Prisma.rows Prisma.next_id].
  repeat split.
  - now apply Forall_remove_row.
  - now apply prisma_remove_NoDup.
  - now apply prisma_remove_NoDup.
Qed.

Section Reachable.

Variable castObjectId : string -> option N.

Lemma handle_mongo_wf (r : Routes.request) (s : Routes.stores) :
  mongo_wf (Routes.collection s) ->
  mongo_wf (Routes.collection (snd (Routes.handle castObjectId r s))).
Proof.
  intros Hwf. destruct s as [c t]. cbn [Routes.collection] in Hwf.
  destruct r; cbn [Routes.handle]; unfold Routes.on_mongo, Routes.on_postgres;
    cbn [Routes.collection Routes.table];
    match goal with
    | |- context [let (_, _) := ?h in _] => destruct h as [resp x] eqn:E
    end; cbn [snd Routes.collection]; trivial.
  - unfold getAllUsersFromMongo in E. apply try_catch_cases in E.
    destruct E as [(a & E & _) | (e & E & _)];
      [|apply mongo_find_thrown in E; now subst].
    unfold Mongoose.find in E. unfold_store.
    destruct (Mongoose.connected c); [|discriminate]. now injection E as _ <-.
  - unfold getUserByIdFromMongo in E. apply try_catch_cases in E.
    destruct E as [(a & E & _) | (e & E & _)];
      [|apply findById_thrown in E; now subst].
    unfold Mongoose.findById in E. unfold_store.
    destruct (castObjectId s); [|discriminate].
    destruct (Mongoose.connected c); [|discriminate]. now injection E as _ <-.
  - unfold createUserInMongo in E.
    destruct (negb _ || negb _); [now injection E as _ <-|].
    apply try_catch_cases in E.
    destruct E as [(a & E & _) | (e & E & _)];
      [|apply mongoose_create_thrown in E; now subst].
    destruct b as [n e a' ro]. eapply mongo_create_wf; eauto.
  - unfold updateUserInMongo in E. apply try_catch_cases in E.
    destruct E as [(a & E & _) | (e & E & _)];
      [|apply findByIdAndUpdate_thrown in E; now subst].
    eapply mongo_update_wf; eauto.
  - unfold deleteUserFromMongo in E. apply try_catch_cases in E.
    destruct E as [(a & E & _) | (e & E & _)];
      [|apply findByIdAndDelete_thrown in E; now subst].
    eapply mongo_delete_wf; eauto.
Qed.

Lemma handle_postgres_wf (r : Routes.request) (s : Routes.stores) :
  postgres_wf (Routes.table s) ->
  postgres_wf (Routes.table (snd (Routes.handle castObjectId r s))).
Proof.
  intros Hwf. destruct s as [c t]. cbn [Routes.table] in Hwf.
  destruct r; cbn [Routes.handle]; unfold Routes.on_mongo, Routes.on_postgres;
    cbn [Routes.collection Routes.table];
    match goal with
    | |- context [let (_, _) := ?h in _] => destruct h as [resp x] eqn:E
    end; cbn [snd Routes.table]; trivial.
  - unfold getAllUsersFromPostgres in E. apply try_catch_cases in E.
    destruct E as [(a & E & _) | (e & E & _)];
      [|apply prisma_findMany_thrown in E; now subst].
    unfold Prisma.findMany in E. unfold_store.
    destruct (Prisma.connected t); [|discriminate]. now injection E as _ <-.
  - unfold getUserByIdFromPostgres in E.
    destruct (JS.isNaN _); [now injection E as _ <-|].
    apply try_catch_cases in E.
    destruct E as [(a & E & _) | (e & E & _)];
      [|apply prisma_findUnique_thrown in E; now subst].
    apply prisma_findUnique_full in E. now destruct E as (z & _ & _ & _ & _ & ->).
  - unfold createUserInPostgres in E.
    destruct (negb _ || negb _); [now injection E as _ <-|].
    apply try_catch_cases in E.
    destruct E as [(a & E & _) | (e & E & _)].
    + eapply prisma_create_wf; eauto.
    + apply prisma_create_thrown in E.
      destruct E as [[-> _] | [-> _]]; [trivial | now apply postgres_wf_nextval].
  - unfold updateUserInPostgres in E.
    destruct (JS.isNaN _); [now injection E as _ <-|].
    apply try_catch_cases in E.
    destruct E as [(a & E & _) | (e & E & _)];
      [|apply prisma_update_thrown in E; now subst].
    eapply prisma_update_wf; eauto.
  - unfold deleteUserFromPostgres in E.
    destruct (JS.isNaN _); [now injection E as _ <-|].
    apply try_catch_cases in E.
    destruct E as [(a & E & _) | (e & E & _)];
      [|apply prisma_delete_thrown in E; now subst].
    eapply prisma_delete_wf; eauto.
Qed.

Lemma serve_wf (rs : list Routes.request) (s : Routes.stores) :
  mongo_wf (Routes.collection s) ->
  postgres_wf (Routes.table s) ->
  mongo_wf (Routes.collection (Routes.serve castObjectId rs s))
  /\ postgres_wf (Routes.table (Routes.serve castObjectId rs s)).
Proof.
  revert s. induction rs as [|r rs IH]; intros s Hm Hp; cbn; [auto|].
  apply IH; [now apply handle_mongo_wf | now apply handle_postgres_wf].
Qed.

Lemma fresh_wf (n : N) (m : Z) (a b : bool) :
  mongo_wf (Routes.collection (Routes.fresh n m a b))
  /\ postgres_wf (Routes.table (Routes.fresh n m a b)).
Proof.
  unfold mongo_wf, postgres_wf, mongo_ids_fresh, mongo_ids_unique,
    mongo_emails_unique, postgres_ids_fresh, postgres_ids_unique,
    postgres_emails_unique. cbn.
  repeat split; constructor.
Qed.

End Reachable.

(** *** Looking records up *)

Lemma mongo_find_snoc_old (i : N) (v u : Mongoose.User) (l : list Mongoose.User) :
  Mongoose.find_by_id i l = Some v -> Mongoose.find_by_id i (l ++ [u]) = Some v.
Proof.
  unfold Mongoose.find_by_id. induction l as [|x l IH]; simpl; [discriminate|].
  destruct (N.eqb (Mongoose._id x) i); auto.
Qed.

Lemma prisma_find_snoc_old (i : Z) (v u : Prisma.User) (l : list Prisma.User) :
  Prisma.find_by_id i l = Some v -> Prisma.find_by_id i (l ++ [u]) = Some v.
Proof.
  unfold Prisma.find_by_id. induction l as [|x l IH]; simpl; [discriminate|].
  destruct (Z.eqb (Prisma.id x) i); auto.
Qed.

Lemma mongo_find_snoc_new (u : Mongoose.User) (l : list Mongoose.User) :
  Forall (fun x => (Mongoose._id x < Mongoose._id u)%N) l ->
  Mongoose.find_by_id (Mongoose._id u) (l ++ [u]) = Some u.
Proof.
  unfold Mongoose.find_by_id. induction l as [|x l IH]; simpl; intros H.
  - now rewrite N.eqb_refl.
  - inversion H as [|? ? Hx Hl]; subst.
    destruct (N.eqb_spec (Mongoose._id x) (Mongoose._id u)); [lia | auto].
Qed.

Lemma prisma_find_snoc_new (u : Prisma.User) (l : list Prisma.User) :
  Forall (fun x => Prisma.id x < Prisma.id u) l ->
  Prisma.find_by_id (Prisma.id u) (l ++ [u]) = Some u.
Proof.
  unfold Prisma.find_by_id. induction l as [|x l IH]; simpl; intros H.
  - now rewrite Z.eqb_refl.
  - inversion H as [|? ? Hx Hl]; subst.
    destruct (Z.eqb_spec (Prisma.id x) (Prisma.id u)); [lia | auto].
Qed.

Lemma mongo_find_not_in (i : N) (l : list Mongoose.User) :
  ~ In i (map Mongoose._id l) -> Mongoose.find_by_id i l = None.
Proof.
  unfold Mongoose.find_by_id. induction l as [|x l IH]; simpl; trivial.
  intros H. destruct (N.eqb_spec (Mongoose._id x) i); [tauto | apply IH; tauto].
Qed.

Lemma prisma_find_not_in (i : Z) (l : list Prisma.User) :
  ~ In i (map Prisma.id l) -> Prisma.find_by_id i l = None.
Proof.
  unfold Prisma.find_by_id. induction l as [|x l IH]; simpl; trivial.
  intros H. destruct (Z.eqb_spec (Prisma.id x) i); [tauto | apply IH; tauto].
Qed.

Lemma mongo_find_remove_same (i : N) (l : list Mongoose.User) :
  NoDup (map Mongoose._id l) ->
  Mongoose.find_by_id i (Mongoose.remove_doc i l) = None.
Proof.
  induction l as [|x l IH]; simpl; intros Hn; trivial.
  inversion Hn as [|? ? Hx Hl]; subst.
  destruct (N.eqb_spec (Mongoose._id x) i) as [<-|Hne].
  - now apply mongo_find_not_in.
  - unfold Mongoose.find_by_id in *. simpl.
    destruct (N.eqb_spec (Mongoose._id x) i); [tauto | auto].
Qed.

Lemma prisma_find_remove_same (i : Z) (l : list Prisma.User) :
  NoDup (map Prisma.id l) ->
  Prisma.find_by_id i (Prisma.remove_row i l) = None.
Proof.
  induction l as [|x l IH]; simpl; intros Hn; trivial.
  inversion Hn as [|? ? Hx Hl]; subst.
  destruct (Z.eqb_spec (Prisma.id x) i) as [<-|Hne].
  - now apply prisma_find_not_in.
  - unfold Prisma.find_by_id in *. simpl.
    destruct (Z.eqb_spec (Prisma.id x) i); [tauto | auto].
Qed.

Lemma mongo_find_remove_other (i j : N) (l : list Mongoose.User) :
  j <> i ->
  Mongoose.find_by_id j (Mongoose.remove_doc i l) = Mongoose.find_by_id j l.
Proof.
  intros Hne. unfold Mongoose.find_by_id.
  induction l as [|x l IH]; simpl; trivial.
  destruct (N.eqb_spec (Mongoose._id x) i) as [Hx|Hx]; simpl.
  - destruct (N.eqb_spec (Mongoose._id x) j); [congruence | trivial].
  - now rewrite IH.
Qed.

Lemma prisma_find_remove_other (i j : Z) (l : list Prisma.User) :
  j <> i ->
  Prisma.find_by_id j (Prisma.remove_row i l) = Prisma.find_by_id j l.
Proof.
  intros Hne. unfold Prisma.find_by_id.
  induction l as [|x l IH]; simpl; trivial.
  destruct (Z.eqb_spec (Prisma.id x) i) as [Hx|Hx]; simpl.
  - destruct (Z.eqb_spec (Prisma.id x) j); [congruence | trivial].
  - now rewrite IH.
Qed.

Lemma mongo_remove_length (i : N) (u : Mongoose.User) (l : list Mongoose.User) :
  Mongoose.find_by_id i l = Some u ->
  S (List.length (Mongoose.remove_doc i l)) = List.length l.
Proof.
  unfold Mongoose.find_by_id. induction l as [|x l IH]; simpl; [discriminate|].
  destruct (N.eqb (Mongoose._id x) i); simpl; auto.
Qed.

Lemma prisma_remove_length (i : Z) (u : Prisma.User) (l : list Prisma.User) :
  Prisma.find_by_id i l = Some u ->
  S (List.length (Prisma.remove_row i l)) = List.length l.
Proof.
  unfold Prisma.find_by_id. induction l as [|x l IH]; simpl; [discriminate|].
  destruct (Z.eqb (Prisma.id x) i); simpl; auto.
Qed.



(** *** What a controller answers on a store that can be reached *)

Lemma getUserByIdFromMongo_reached (cast : string -> option N) (id : string) (i : N)
    (c : Mongoose.Collection) :
  cast id = Some i ->
  Mongoose.connected c = true ->
  getUserByIdFromMongo cast id c
  = (match Mongoose.find_by_id i (Mongoose.docs c) with
     | None => failure 404 "User not found"
     | Some u => success_user u
     end, c).
Proof. intros Hi Hc. unfold_mongo. now rewrite Hi, Hc. Qed.

Lemma getUserByIdFromPostgres_reached (id : string) (z : Z) (t : Prisma.Table) :
  JS.parseInt (JS.VStr id) = JS.Num z ->
  Prisma.int4 z = true ->
  Prisma.connected t = true ->
  getUserByIdFromPostgres id t
  = (match Prisma.find_by_id z (Prisma.rows t) with
     | None => failure 404 "User not found"
     | Some u => success_user u
     end, t).
Proof.
  intros Hz Hr Hc. unfold_postgres. rewrite Hz. cbn [JS.isNaN]. cbv beta iota.
  now rewrite Hc, Hr.
Qed.

Lemma deleteUserFromMongo_200 (cast : string -> option N) (id : string)
    (c c1 : Mongoose.Collection) r :
  deleteUserFromMongo cast id c = (r, c1) ->
  statusCode r = 200 ->
  exists u, Mongoose.findByIdAndDelete cast id c = inr (Some u, c1)
            /\ r = success_message 200 "User deleted successfully" u.
Proof.
  unfold deleteUserFromMongo, try_catch.
  destruct (Mongoose.findByIdAndDelete _ _ _) as [[e c']|[[u|] c']];
    intros [= <- <-]; try discriminate. eauto.
Qed.

Lemma deleteUserFromPostgres_200 (id : string) (t t1 : Prisma.Table) r :
  deleteUserFromPostgres id t = (r, t1) ->
  statusCode r = 200 ->
  exists u, Prisma.delete (JS.parseInt (JS.VStr id)) t = inr (u, t1)
            /\ r = success_message 200 "User deleted successfully" u.
Proof.
  unfold deleteUserFromPostgres.
  destruct (JS.isNaN _).
  - intros [= <- <-]; discriminate.
  - unfold try_catch.
    destruct (Prisma.delete _ _) as [[e t']|[u t']].
    + destruct (code_is_string e "P2025"); intros [= <- <-]; discriminate.
    + intros [= <- <-] _. eauto.
Qed.

(* ================================================================== *)
(** ** Further properties of the controllers and the model *)
(* ================================================================== *)

Section Further.

Variable castObjectId : string -> option N.

(** X1.  Whatever requests are served, starting from stores without
    records, no two records of a store have the same identifier, and on
    the relational store every identifier in use is below the next value
    of the sequence. *)
Theorem identifiers_stay_unique :
  forall (rs : list Routes.request) (n : N) (m : Z) (a b : bool),
    let s := Routes.serve castObjectId rs (Routes.fresh n m a b) in
    mongo_ids_unique (Routes.collection s)
    /\ postgres_ids_unique (Routes.table s)
    /\ postgres_ids_fresh (Routes.table s).
Proof.
  intros rs n m a b s.
  destruct (fresh_wf n m a b) as [Hm Hp].
  destruct (serve_wf castObjectId rs _ Hm Hp) as [(F & U & _ & _) (F' & U' & _)].
  auto.
Qed.

(** X2.  Whatever requests are served, starting from stores without
    records, no two records of a store have the same stored email. *)
Theorem emails_stay_unique :
  forall (rs : list Routes.request) (n : N) (m : Z) (a b : bool),
    let s := Routes.serve castObjectId rs (Routes.fresh n m a b) in
    mongo_emails_unique (Routes.collection s)
    /\ postgres_emails_unique (Routes.table s).
Proof.
  intros rs n m a b s.
  destruct (fresh_wf n m a b) as [Hm Hp].
  destruct (serve_wf castObjectId rs _ Hm Hp) as [(_ & _ & E & _) (_ & _ & E')].
  auto.
Qed.

(** X3.  Whatever requests are served whose bodies hold the four fields
    of the schema, with scalar values, and no other key (so no update
    operator), starting from stores without records, every document of
    the collection passes the validators of the schema (name of 2 to 50
    characters, email matching the pattern, age null or from 0 to 150,
    role null or in the enumeration), its name is trimmed, and its email
    is trimmed and in lower case. *)
Theorem documents_stay_valid :
  forall (rs : list Routes.request) (n : N) (m : Z) (a b : bool) (u : Mongoose.User),
    In u (Mongoose.docs
            (Routes.collection (Routes.serve castObjectId rs (Routes.fresh n m a b)))) ->
    valid_doc u = true /\ normalized u.
Proof.
  intros rs n m a b u Hin.
  destruct (fresh_wf n m a b) as [Hm Hp].
  destruct (serve_wf castObjectId rs _ Hm Hp) as [(_ & _ & _ & V) _].
  rewrite Forall_forall in V. now apply V.
Qed.

(** X4.  Create, then get, on the document store: when a create answers
    201 on a collection whose identifiers are below the next one, the
    record it returns carries the time of the request in [createdAt] and
    [updatedAt], and a getById with a string the driver casts to its
    identifier answers 200 with the same record. *)
Theorem mongo_create_then_get :
  forall (now : Z) (body : Req.body) (c c1 : Mongoose.Collection) r,
    mongo_ids_fresh c ->
    createUserInMongo now body c = (r, c1) ->
    statusCode r = 201 ->
    exists u,
      r = success_message 201 "User created successfully" u
      /\ Mongoose.createdAt u = now
      /\ Mongoose.updatedAt u = now
      /\ forall id, castObjectId id = Some (Mongoose._id u) ->
                    getUserByIdFromMongo castObjectId id c1 = (success_user u, c1).
Proof.
  intros now body c c1 r Hfresh H S.
  destruct (createUserInMongo_201 _ _ _ _ _ H S) as (u & Hc & ->).
  apply mongoose_create_full in Hc.
  destruct Hc as (n & e & _ & _ & _ & _ & _ & Hu & ->).
  exists u. split; trivial. split; [now subst u|]. split; [now subst u|].
  intros id Hid.
  erewrite getUserByIdFromMongo_reached; [|exact Hid|reflexivity].
  cbn [Mongoose.docs]. rewrite mongo_find_snoc_new; trivial.
  replace (Mongoose._id u) with (Mongoose.next_id c) by now subst u.
  exact Hfresh.
Qed.

(** X5.  Create, then get, on the relational store: when a create answers
    201 on a table whose identifiers are below the next one, and the next
    one is in the 32-bit range, a getById with the decimal form of the
    identifier of the returned record answers 200 with the same record. *)
Theorem postgres_create_then_get :
  forall (now : Z) (body : Req.body) (t t1 : Prisma.Table) r,
    postgres_ids_fresh t ->
    Prisma.int4 (Prisma.next_id t) = true ->
    createUserInPostgres now body t = (r, t1) ->
    statusCode r = 201 ->
    exists u,
      r = success_message 201 "User created successfully" u
      /\ Prisma.createdAt u = now
      /\ Prisma.updatedAt u = now
      /\ getUserByIdFromPostgres (JS.number_toString (JS.Num (Prisma.id u))) t1
         = (success_user u, t1).
Proof.
  intros now body t t1 r Hfresh Hr H S.
  destruct (createUserInPostgres_201 _ _ _ _ _ H S) as (u & Hc & ->).
  apply prisma_create_full in Hc.
  destruct Hc as (n & e & _ & _ & _ & _ & _ & _ & _ & Hu & ->).
  exists u. split; trivial. split; [now subst u|]. split; [now subst u|].
  assert (Hid : Prisma.id u = Prisma.next_id t) by now subst u.
  rewrite (getUserByIdFromPostgres_reached _ (Prisma.id u)).
  - cbn [Prisma.rows]. rewrite prisma_find_snoc_new; trivial.
    rewrite Hid. exact Hfresh.
  - unfold JS.parseInt. cbn [JS.toString].
    apply JSFacts.parseInt_number_toString. rewrite Hid.
    unfold Prisma.int4 in Hr. apply andb_true_iff in Hr.
    destruct Hr as [Hlo Hhi]. apply Z.leb_le in Hlo. apply Z.ltb_lt in Hhi.
    change (2 ^ 31) with 2147483648 in *.
    change (10 ^ 21) with 1000000000000000000000. lia.
  - now rewrite Hid.
  - reflexivity.
Qed.

(** X6.  A create that answers 201 adds the returned record to the store
    and touches no other: listing afterwards gives, in some order, the
    former records and the new one, each once, and every record that a
    getById found before is found unchanged afterwards.  On both
    adapters. *)
Theorem create_adds_one_record :
  forall (now : Z) (body : Req.body),
    (forall (c c1 : Mongoose.Collection) r,
        createUserInMongo now body c = (r, c1) ->
        statusCode r = 201 ->
        exists u,
          r = success_message 201 "User created successfully" u
          /\ (exists l,
                getAllUsersFromMongo c1 = (success_list l, c1)
                /\ Permutation l (u :: Mongoose.docs c))
          /\ forall id v,
               getUserByIdFromMongo castObjectId id c = (success_user v, c) ->
               getUserByIdFromMongo castObjectId id c1 = (success_user v, c1))
    /\ (forall (t t1 : Prisma.Table) r,
          createUserInPostgres now body t = (r, t1) ->
          statusCode r = 201 ->
          exists u,
            r = success_message 201 "User created successfully" u
            /\ (exists l,
                  getAllUsersFromPostgres t1 = (success_list l, t1)
                  /\ Permutation l (u :: Prisma.rows t))
            /\ forall id v,
                 getUserByIdFromPostgres id t = (success_user v, t) ->
                 getUserByIdFromPostgres id t1 = (success_user v, t1)).
Proof.
  intros now body. split.
  - intros c c1 r H S.
    destruct (createUserInMongo_201 _ _ _ _ _ H S) as (u & Hc & ->).
    apply mongoose_create_full in Hc.
    destruct Hc as (n & e & _ & _ & _ & Hconn & _ & _ & ->).
    exists u. split; trivial.
    split; [eexists; split; [reflexivity|];
            apply Permutation_sym, Permutation_cons_append|].
    intros id v Hg.
    destruct (castObjectId id) as [i|] eqn:Hi.
    + rewrite (getUserByIdFromMongo_reached _ _ _ _ Hi Hconn) in Hg.
      erewrite getUserByIdFromMongo_reached; [|exact Hi|reflexivity].
      cbn [Mongoose.docs].
      destruct (Mongoose.find_by_id i (Mongoose.docs c)) as [w|] eqn:Hf;
        [|discriminate Hg].
      rewrite (mongo_find_snoc_old _ _ u _ Hf).
      injection Hg as Hg. now rewrite Hg.
    + unfold_mongo. rewrite Hi in Hg. discriminate Hg.
  - intros t t1 r H S.
    destruct (createUserInPostgres_201 _ _ _ _ _ H S) as (u & Hc & ->).
    apply prisma_create_full in Hc.
    destruct Hc as (n & e & _ & _ & _ & _ & _ & Hconn & _ & _ & ->).
    exists u. split; trivial.
    split; [eexists; split; [reflexivity|];
            apply Permutation_sym, Permutation_cons_append|].
    intros id v Hg.
    unfold getUserByIdFromPostgres in Hg |- *.
    destruct (JS.isNaN (JS.parseInt (JS.VStr id))); [discriminate Hg|].
    apply try_catch_cases in Hg.
    destruct Hg as [(o & Hg & Ho) | (err & _ & Ho)]; [|discriminate Ho].
    apply prisma_findUnique_full in Hg.
    destruct Hg as (z & Hz & Hr & _ & -> & _).
    destruct (Prisma.find_by_id z (Prisma.rows t)) as [w|] eqn:Hf;
      [|discriminate Ho].
    injection Ho as <-.
    unfold try_catch, Prisma.findUnique, Prisma.where_id. unfold_store.
    rewrite Hz. cbn [Prisma.connected]. rewrite Hr. cbn [Prisma.rows].
    now rewrite (prisma_find_snoc_old _ _ u _ Hf).
Qed.

(** X7.  Delete is final.  When a delete answers 200, on a store whose
    identifiers are unique, the record it returns is the one the store
    held under this id; afterwards a getById or a second delete with the
    same id answers 404, the store holds one record less, and the records
    with another identifier are where they were.  On both adapters. *)
Theorem delete_then_get_is_not_found :
  forall id : string,
    (forall (c c1 : Mongoose.Collection) r,
        mongo_ids_unique c ->
        deleteUserFromMongo castObjectId id c = (r, c1) ->
        statusCode r = 200 ->
        exists i u,
          castObjectId id = Some i
          /\ Mongoose.find_by_id i (Mongoose.docs c) = Some u
          /\ r = success_message 200 "User deleted successfully" u
          /\ getUserByIdFromMongo castObjectId id c1
             = (failure 404 "User not found", c1)
          /\ deleteUserFromMongo castObjectId id c1
             = (failure 404 "User not found", c1)
          /\ S (List.length (Mongoose.docs c1)) = List.length (Mongoose.docs c)
          /\ forall j, j <> i ->
                       Mongoose.find_by_id j (Mongoose.docs c1)
                       = Mongoose.find_by_id j (Mongoose.docs c))
    /\ (forall (t t1 : Prisma.Table) r,
          postgres_ids_unique t ->
          deleteUserFromPostgres id t = (r, t1) ->
          statusCode r = 200 ->
          exists z u,
            JS.parseInt (JS.VStr id) = JS.Num z
            /\ Prisma.find_by_id z (Prisma.rows t) = Some u
            /\ r = success_message 200 "User deleted successfully" u
            /\ getUserByIdFromPostgres id t1 = (failure 404 "User not found", t1)
            /\ deleteUserFromPostgres id t1 = (failure 404 "User not found", t1)
            /\ S (List.length (Prisma.rows t1)) = List.length (Prisma.rows t)
            /\ forall j, j <> z ->
                         Prisma.find_by_id j (Prisma.rows t1)
                         = Prisma.find_by_id j (Prisma.rows t)).
Proof.
  intros id. split.
  - intros c c1 r Hu H S.
    destruct (deleteUserFromMongo_200 _ _ _ _ _ H S) as (u & Hd & ->).
    apply findByIdAndDelete_full in Hd.
    destruct Hd as (i & Hi & _ & Hf & ->).
    exists i, u. do 3 (split; [trivial|]).
    assert (Hnone : Mongoose.find_by_id i (Mongoose.remove_doc i (Mongoose.docs c))
                    = None) by now apply mongo_find_remove_same.
    split; [|split; [|split]].
    + erewrite getUserByIdFromMongo_reached; [|exact Hi|reflexivity].
      cbn [Mongoose.docs]. now rewrite Hnone.
    + unfold_mongo. rewrite Hi. cbn [Mongoose.connected Mongoose.docs].
      now rewrite Hnone.
    + cbn [Mongoose.docs]. now apply mongo_remove_length with (u := u).
    + intros j Hj. cbn [Mongoose.docs]. now apply mongo_find_remove_other.
  - intros t t1 r Hu H S.
    destruct (deleteUserFromPostgres_200 _ _ _ _ H S) as (u & Hd & ->).
    apply prisma_delete_full in Hd.
    destruct Hd as (z & Hz & Hr & _ & Hf & ->).
    exists z, u. do 3 (split; [trivial|]).
    assert (Hnone : Prisma.find_by_id z (Prisma.remove_row z (Prisma.rows t))
                    = None) by now apply prisma_find_remove_same.
    split; [|split; [|split]].
    + erewrite getUserByIdFromPostgres_reached; [|exact Hz|exact Hr|reflexivity].
      cbn [Prisma.rows]. now rewrite Hnone.
    + unfold_postgres. rewrite Hz. cbn [JS.isNaN]. cbv beta iota.
      repeat (first [rewrite Hr | rewrite Hnone
                    | progress cbn [Prisma.connected Prisma.rows]];
              cbv beta iota).
      reflexivity.
    + cbn [Prisma.rows]. now apply prisma_remove_length with (u := u).
    + intros j Hj. cbn [Prisma.rows]. now apply prisma_find_remove_other.
Qed.


(** X9.  An update that the store accepts otherwise (on the relational
    store: arguments that fit the schema, an age that fits the column,
    strings without the code unit 0) and that would give a record the
    email of another record is refused by the store, and since the update
    controllers map no duplicate-key error, the answer is 500 (not the 400
    of create), with the error of the store, and the store is left as it
    was.  On both adapters. *)
Theorem update_to_taken_email_is_500 :
  forall (now : Z) (id : string) (body : Req.body),
    (forall (c : Mongoose.Collection) (i : N) (u : Mongoose.User) (e : string),
        castObjectId id = Some i ->
        Mongoose.connected c = true ->
        Mongoose.find_by_id i (Mongoose.docs c) = Some u ->
        Mongoose.castUpdate body = true ->
        Mongoose.validate_update body = true ->
        Mongoose.set_email (Req.email body) = Mongoose.Val e ->
        e <> Mongoose.email u ->
        Mongoose.email_taken e (Mongoose.docs c) = true ->
        updateUserInMongo castObjectId now id body c
        = (failure_with 500 "Failed to update user in MongoDB"
             (MongoServerError 11000), c))
    /\ (forall (t : Prisma.Table) (z : Z) (u : Prisma.User) (e : string),
          JS.parseInt (JS.VStr id) = JS.Num z ->
          Prisma.int4 z = true ->
          Prisma.connected t = true ->
          Prisma.find_by_id z (Prisma.rows t) = Some u ->
          Prisma.check_update (build_updateData body) = true ->
          Prisma.in_range (build_updateData body) = true ->
          Prisma.text_ok (build_updateData body) = true ->
          Req.email (build_updateData body) = JS.VStr e ->
          e <> Prisma.email u ->
          Prisma.email_taken e (Prisma.rows t) = true ->
          updateUserInPostgres now id body t
          = (failure_with 500 "Failed to update user in PostgreSQL"
               (PrismaClientKnownRequestError "P2002"), t)).
Proof.
  intros now id body. split.
  - intros c i u e Hi Hc Hf Hcu Hv He Hne Ht.
    unfold_mongo.
    repeat (first [rewrite Hi | rewrite Hcu | rewrite Hv | rewrite Hc | rewrite Hf];
            cbv beta iota).
    rewrite He. cbn [Mongoose.apply_set Mongoose.email].
    rewrite Ht. apply String.eqb_neq in Hne. rewrite Hne. reflexivity.
  - intros t z u e Hz Hr Hc Hf Hv Hr' Hx He Hne Ht.
    unfold_postgres. rewrite Hz. cbn [JS.isNaN].
    repeat (first [rewrite Hv | rewrite Hr' | rewrite Hx | rewrite Hc | rewrite Hr
                  | rewrite Hf];
            cbv beta iota).
    rewrite He. cbn [Prisma.arg_string Prisma.apply_data Prisma.email].
    rewrite Ht. apply String.eqb_neq in Hne. rewrite Hne. reflexivity.
Qed.

Lemma try_catch_answer {S A U : Type} (P : Response U -> Prop) (call : M S A)
    (ok : A -> Response U) (h : exception -> Response U) (st : S) :
  (forall a, P (ok a)) -> (forall e, P (h e)) -> P (fst (try_catch call ok h st)).
Proof.
  intros Hok Hh. unfold try_catch.
  destruct (call st) as [[e st']|[a st']]; cbn; auto.
Qed.

Ltac shape_success := left; cbn; repeat split; auto.
Ltac shape_client := right; left; cbn; repeat split; auto; discriminate.
Ltac shape_server := right; right; cbn; repeat split; discriminate.

(** X10.  Every answer of the ten controllers has one of three shapes: a
    success, with code 200 or 201, status "success" and [data]; a client
    error, with code 400 or 404, status "error" and a [message]; or a
    server error, with code 500, status "error", a [message] and the
    [error] that was caught.  No other code is ever sent, and an error
    never carries [data]. *)
Theorem answers_are_well_shaped :
  forall (r : Routes.request) (s : Routes.stores),
    Routes.well_shaped (fst (Routes.handle castObjectId r s)).
Proof.
  intros r [c t].
  destruct r; cbn [Routes.handle]; unfold Routes.on_mongo, Routes.on_postgres;
    cbn [Routes.collection Routes.table];
    match goal with
    | |- context [let (_, _) := ?h in _] =>
        let E := fresh "E" in
        destruct h as [resp x] eqn:E;
        assert (Hresp : resp = fst h) by (now rewrite E); clear E
    end; cbn [fst]; subst resp.
  - apply (try_catch_answer (fun x => Routes.well_shaped (Routes.MongoReply x))).
    + intros a. shape_success.
    + intros e. shape_server.
  - apply (try_catch_answer (fun x => Routes.well_shaped (Routes.MongoReply x))).
    + intros [u|]; [shape_success | shape_client].
    + intros e. shape_server.
  - unfold createUserInMongo. destruct (negb _ || negb _); [shape_client|].
    apply (try_catch_answer (fun x => Routes.well_shaped (Routes.MongoReply x))).
    + intros a. shape_success.
    + intros e. destruct (code_is_number e 11000); [shape_client | shape_server].
  - apply (try_catch_answer (fun x => Routes.well_shaped (Routes.MongoReply x))).
    + intros [u|]; [shape_success | shape_client].
    + intros e. shape_server.
  - apply (try_catch_answer (fun x => Routes.well_shaped (Routes.MongoReply x))).
    + intros [u|]; [shape_success | shape_client].
    + intros e. shape_server.
  - apply (try_catch_answer (fun x => Routes.well_shaped (Routes.PostgresReply x))).
    + intros a. shape_success.
    + intros e. shape_server.
  - unfold getUserByIdFromPostgres. destruct (JS.isNaN _); [shape_client|].
    apply (try_catch_answer (fun x => Routes.well_shaped (Routes.PostgresReply x))).
    + intros [u|]; [shape_success | shape_client].
    + intros e. shape_server.
  - unfold createUserInPostgres. destruct (negb _ || negb _); [shape_client|].
    apply (try_catch_answer (fun x => Routes.well_shaped (Routes.PostgresReply x))).
    + intros a. shape_success.
    + intros e. destruct (code_is_string e "P2002"); [shape_client | shape_server].
  - unfold updateUserInPostgres. destruct (JS.isNaN _); [shape_client|].
    apply (try_catch_answer (fun x => Routes.well_shaped (Routes.PostgresReply x))).
    + intros a. shape_success.
    + intros e. destruct (code_is_string e "P2025"); [shape_client | shape_server].
  - unfold deleteUserFromPostgres. destruct (JS.isNaN _); [shape_client|].
    apply (try_catch_answer (fun x => Routes.well_shaped (Routes.PostgresReply x))).
    + intros a. shape_success.
    + intros e. destruct (code_is_string e "P2025"); [shape_client | shape_server].
Qed.

(** What a request that is answered with an error, and what a GET, does to
    a store. *)
Lemma mongo_unchanged (r : Routes.request) (c : Mongoose.Collection)
    (t : Prisma.Table) :
  let out := Routes.handle castObjectId r (Routes.mkStores c t) in
  (Routes.code_of (fst out) <> 200 /\ Routes.code_of (fst out) <> 201)
  \/ Routes.is_get r = true ->
  Routes.collection (snd out) = c.
Proof.
  destruct r; cbn [Routes.handle Routes.is_get]; unfold Routes.on_mongo,
    Routes.on_postgres; cbn [Routes.collection Routes.table];
    match goal with
    | |- context [let (_, _) := ?h in _] => destruct h as [resp x] eqn:E
    end; cbn [fst snd Routes.code_of Routes.collection]; trivial; intros H.
  - unfold getAllUsersFromMongo in E. apply try_catch_cases in E.
    destruct E as [(a & E & _) | (e & E & _)];
      [|now apply mongo_find_thrown in E].
    unfold Mongoose.find in E. unfold_store.
    destruct (Mongoose.connected c); [|discriminate]. now injection E as _ <-.
  - unfold getUserByIdFromMongo in E. apply try_catch_cases in E.
    destruct E as [(a & E & _) | (e & E & _)];
      [|now apply findById_thrown in E].
    unfold Mongoose.findById in E. unfold_store.
    destruct (castObjectId s); [|discriminate].
    destruct (Mongoose.connected c); [|discriminate]. now injection E as _ <-.
  - destruct H as [[_ H] | H]; [|discriminate H].
    unfold createUserInMongo in E.
    destruct (negb _ || negb _); [now injection E as _ <-|].
    apply try_catch_cases in E.
    destruct E as [(a & _ & ->) | (e & E & _)];
      [now contradiction H | now apply mongoose_create_thrown in E].
  - destruct H as [[H _] | H]; [|discriminate H].
    unfold updateUserInMongo in E. apply try_catch_cases in E.
    destruct E as [(a & E & ->) | (e & E & _)];
      [|now apply findByIdAndUpdate_thrown in E].
    destruct a as [u|]; [now contradiction H|].
    apply findByIdAndUpdate_full in E. now destruct E as (i & _ & _ & _ & _ & _ & ->).
  - destruct H as [[H _] | H]; [|discriminate H].
    unfold deleteUserFromMongo in E. apply try_catch_cases in E.
    destruct E as [(a & E & ->) | (e & E & _)];
      [|now apply findByIdAndDelete_thrown in E].
    destruct a as [u|]; [now contradiction H|].
    apply findByIdAndDelete_full in E. now destruct E as (i & _ & _ & _ & ->).
Qed.

Lemma postgres_unchanged (r : Routes.request) (c : Mongoose.Collection)
    (t : Prisma.Table) :
  let out := Routes.handle castObjectId r (Routes.mkStores c t) in
  (Routes.code_of (fst out) <> 200 /\ Routes.code_of (fst out) <> 201)
  \/ Routes.is_get r = true ->
  Routes.table (snd out) = t
  \/ (exists now body,
        r = Routes.POST_postgres now body
        /\ fst out = Routes.PostgresReply (failure 400 "Email already exists")
        /\ Routes.table (snd out) = Prisma.nextval t).
Proof.
  destruct r; cbn [Routes.handle Routes.is_get]; unfold Routes.on_mongo,
    Routes.on_postgres; cbn [Routes.collection Routes.table];
    match goal with
    | |- context [let (_, _) := ?h in _] => destruct h as [resp x] eqn:E
    end; cbn [fst snd Routes.code_of Routes.table]; intros H;
    try (left; reflexivity).
  - left. unfold getAllUsersFromPostgres in E. apply try_catch_cases in E.
    destruct E as [(a & E & _) | (e & E & _)];
      [|now apply prisma_findMany_thrown in E].
    unfold Prisma.findMany in E. unfold_store.
    destruct (Prisma.connected t); [|discriminate]. now injection E as _ <-.
  - left. unfold getUserByIdFromPostgres in E.
    destruct (JS.isNaN _); [now injection E as _ <-|].
    apply try_catch_cases in E.
    destruct E as [(a & E & _) | (e & E & _)];
      [|now apply prisma_findUnique_thrown in E].
    apply prisma_findUnique_full in E. now destruct E as (z & _ & _ & _ & _ & ->).
  - destruct H as [[_ H] | H]; [|discriminate H].
    unfold createUserInPostgres in E.
    destruct (negb _ || negb _); [left; now injection E as _ <-|].
    apply try_catch_cases in E.
    destruct E as [(a & _ & ->) | (e & E & ->)]; [now contradiction H|].
    apply prisma_create_thrown in E.
    destruct E as [[-> _] | [-> ->]]; [now left|].
    right. do 2 eexists. split; [reflexivity|]. split; reflexivity.
  - left. destruct H as [[H _] | H]; [|discriminate H].
    unfold updateUserInPostgres in E.
    destruct (JS.isNaN _); [now injection E as _ <-|].
    apply try_catch_cases in E.
    destruct E as [(a & _ & ->) | (e & E & _)];
      [now contradiction H | now apply prisma_update_thrown in E].
  - left. destruct H as [[H _] | H]; [|discriminate H].
    unfold deleteUserFromPostgres in E.
    destruct (JS.isNaN _); [now injection E as _ <-|].
    apply try_catch_cases in E.
    destruct E as [(a & _ & ->) | (e & E & _)];
      [now contradiction H | now apply prisma_delete_thrown in E].
Qed.

(** X11.  A GET leaves both stores exactly as they were, whatever it is
    answered with.  A request that is not answered with 200 or 201 leaves
    both stores as they were too, with one exception: a create on the
    relational store that is refused with ["Email already exists"] leaves
    the rows as they were but has spent a value of the identifier
    sequence. *)
Theorem failed_requests_and_reads_change_no_record :
  forall (r : Routes.request) (s : Routes.stores),
    (Routes.is_get r = true -> snd (Routes.handle castObjectId r s) = s)
    /\ (Routes.code_of (fst (Routes.handle castObjectId r s)) <> 200 ->
        Routes.code_of (fst (Routes.handle castObjectId r s)) <> 201 ->
        snd (Routes.handle castObjectId r s) = s
        \/ (exists now body,
              r = Routes.POST_postgres now body
              /\ fst (Routes.handle castObjectId r s)
                 = Routes.PostgresReply (failure 400 "Email already exists")
              /\ snd (Routes.handle castObjectId r s)
                 = Routes.mkStores (Routes.collection s)
                     (Prisma.mkTable (Prisma.rows (Routes.table s))
                        (Prisma.next_id (Routes.table s) + 1)
                        (Prisma.connected (Routes.table s))))).
Proof.
  intros r [c t]. split.
  - intros G.
    pose proof (mongo_unchanged r c t (or_intror G)) as Hm.
    pose proof (postgres_unchanged r c t (or_intror G)) as Hp.
    destruct Hp as [Hp | (now & body & -> & _)]; [|discriminate G].
    destruct (snd (Routes.handle castObjectId r (Routes.mkStores c t))) as [c' t'].
    cbn in Hm, Hp. now subst.
  - intros H1 H2.
    pose proof (mongo_unchanged r c t (or_introl (conj H1 H2))) as Hm.
    pose proof (postgres_unchanged r c t (or_introl (conj H1 H2))) as Hp.
    destruct Hp as [Hp | (now & body & -> & Ha & Hp)].
    + left.
      destruct (snd (Routes.handle castObjectId r (Routes.mkStores c t))) as [c' t'].
      cbn in Hm, Hp. now subst.
    + right. exists now, body. split; [reflexivity|]. split; [exact Ha|].
      destruct (snd (Routes.handle castObjectId (Routes.POST_postgres now body)
                       (Routes.mkStores c t))) as [c' t'].
      cbn in Hm, Hp. now subst.
Qed.

(** X12.  The two adapters differ on an age of 0.  A create on the
    relational store whose age is falsy (0, the empty string, null, false,
    or absent) stores the age null: the number 0 is not stored.  A create
    on the document store whose age is the number 0 stores 0. *)
Theorem create_with_age_zero :
  forall (now : Z) (body : Req.body),
    (forall (t t1 : Prisma.Table) r,
        JS.truthy (Req.age body) = false ->
        createUserInPostgres now body t = (r, t1) ->
        statusCode r = 201 ->
        exists u,
          r = success_message 201 "User created successfully" u
          /\ Prisma.age u = None
          /\ In u (Prisma.rows t1))
    /\ (forall (c c1 : Mongoose.Collection) r,
          Req.age body = JS.VNumber (JS.Num 0) ->
          createUserInMongo now body c = (r, c1) ->
          statusCode r = 201 ->
          exists u,
            r = success_message 201 "User created successfully" u
            /\ Mongoose.age u = Some 0
            /\ In u (Mongoose.docs c1)).
Proof.
  intros now body. split.
  - intros t t1 r Ha H S.
    destruct (createUserInPostgres_201 _ _ _ _ _ H S) as (u & Hc & ->).
    exists u. split; trivial.
    destruct (prisma_create_optional _ _ _ _ _ Hc) as [Hage _].
    destruct (prisma_create_inr _ _ _ _ _ Hc) as (_ & _ & _ & Hd & _).
    unfold create_data in Hage; fields. rewrite Ha in Hage.
    split; [exact Hage|]. rewrite Hd. apply in_or_app. right. now left.
  - intros c c1 r Ha H S.
    destruct (createUserInMongo_201 _ _ _ _ _ H S) as (u & Hc & ->).
    exists u. split; trivial.
    destruct (mongoose_create_optional _ _ _ _ _ Hc) as [Hage _].
    destruct (mongoose_create_inr _ _ _ _ _ Hc) as (_ & _ & _ & _ & _ & Hd & _).
    rewrite Ha in Hage. split; [exact Hage|].
    rewrite Hd. apply in_or_app. right. now left.
Qed.

Lemma prisma_update_checked (now : Z) (i : JS.number) (data : Req.body)
    (t t1 : Prisma.Table) (u' : Prisma.User) :
  Prisma.update now i data t = inr (u', t1) -> Prisma.check_update data = true.
Proof.
  unfold Prisma.update. unfold_store.
  destruct (Prisma.check_update data); [trivial | discriminate].
Qed.

(** The keys of [build_updateData body], for a body whose [updateData]
    fits the schema: one for each field of the body that is truthy. *)
Lemma build_updateData_given (body : Req.body) :
  Prisma.check_update (build_updateData body) = true ->
  Prisma.given (Prisma.arg_string (Req.name (build_updateData body)))
  = JS.truthy (Req.name body)
  /\ Prisma.given (Prisma.arg_string (Req.email (build_updateData body)))
     = JS.truthy (Req.email body)
  /\ Prisma.given (Prisma.arg_int_opt (Req.age (build_updateData body)))
     = JS.truthy (Req.age body)
  /\ Prisma.given (Prisma.arg_string (Req.role (build_updateData body)))
     = JS.truthy (Req.role body).
Proof.
  destruct body as [n e a r].
  unfold Prisma.check_update, build_updateData; fields.
  intros H. apply negb_true_iff in H. repeat rewrite orb_false_iff in H.
  destruct H as [[[Hn He] Ha] Hr].
  assert (K : forall v,
             Prisma.rejected
               (Prisma.arg_string (if JS.truthy v then v else JS.VUndefined)) = false ->
             Prisma.given
               (Prisma.arg_string (if JS.truthy v then v else JS.VUndefined))
             = JS.truthy v).
  { intros [| |[]|[|z]|x]; cbn; try reflexivity; try discriminate.
    - destruct (z =? 0); cbn; [reflexivity | discriminate].
    - destruct x; reflexivity. }
  repeat split; auto.
  destruct (JS.truthy a); [|reflexivity].
  cbn. now destruct (JS.parseInt a).
Qed.

(** X13.  Update, then get.  When an update answers 200, the record it
    returns has the identifier and [createdAt] of the record it replaces,
    and a getById with the same id afterwards answers 200 with this
    record.  On the document store [updatedAt] is the time of the
    request; on the relational store it is the time of the request when
    the body has a truthy field, and what it was when it has none, since
    nothing is written then.  On both adapters. *)
Theorem update_then_get :
  forall (now : Z) (id : string) (body : Req.body),
    (forall (c c1 : Mongoose.Collection) r,
        updateUserInMongo castObjectId now id body c = (r, c1) ->
        statusCode r = 200 ->
        exists i u u',
          castObjectId id = Some i
          /\ Mongoose.find_by_id i (Mongoose.docs c) = Some u
          /\ r = success_message 200 "User updated successfully" u'
          /\ Mongoose._id u' = Mongoose._id u
          /\ Mongoose.createdAt u' = Mongoose.createdAt u
          /\ Mongoose.updatedAt u' = now
          /\ getUserByIdFromMongo castObjectId id c1 = (success_user u', c1))
    /\ (forall (t t1 : Prisma.Table) r,
          updateUserInPostgres now id body t = (r, t1) ->
          statusCode r = 200 ->
          exists z u u',
            JS.parseInt (JS.VStr id) = JS.Num z
            /\ Prisma.find_by_id z (Prisma.rows t) = Some u
            /\ r = success_message 200 "User updated successfully" u'
            /\ Prisma.id u' = Prisma.id u
            /\ Prisma.createdAt u' = Prisma.createdAt u
            /\ Prisma.updatedAt u'
               = (if JS.truthy (Req.name body) || JS.truthy (Req.email body)
                     || JS.truthy (Req.age body) || JS.truthy (Req.role body)
                  then now else Prisma.updatedAt u)
            /\ getUserByIdFromPostgres id t1 = (success_user u', t1)).
Proof.
  intros now id body. split.
  - intros c c1 r H S.
    destruct (updateUserInMongo_200 _ _ _ _ _ _ _ H S) as (u' & Hu & ->).
    pose proof (findByIdAndUpdate_inr _ _ _ _ _ _ _ Hu) as (i0 & u0 & _ & _ & _ & Hf').
    apply findByIdAndUpdate_full in Hu.
    destruct Hu as (i & Hi & _ & _ & _ & u & Hf & Hu' & _ & ->).
    exists i, u, u'. do 3 (split; [trivial|]).
    split; [now subst u'|]. split; [now subst u'|]. split; [now subst u'|].
    erewrite getUserByIdFromMongo_reached; [|exact Hi|reflexivity].
    cbn [Mongoose.docs].
    rewrite (mongo_find_replace i u u'); trivial.
    subst u'. cbn. eapply mongo_find_id; eauto.
  - intros t t1 r H S.
    destruct (updateUserInPostgres_200 _ _ _ _ _ _ H S) as (u' & Hu & ->).
    pose proof (build_updateData_given body (prisma_update_checked _ _ _ _ _ _ Hu))
      as (Gn & Ge & Ga & Gr).
    apply prisma_update_full in Hu.
    destruct Hu as (z & u & Hz & Hr & _ & Hf & Hu' & _ & ->).
    exists z, u, u'. do 3 (split; [trivial|]).
    split; [now subst u'|]. split; [now subst u'|].
    split; [subst u'; cbn [Prisma.apply_data Prisma.updatedAt];
            now rewrite Gn, Ge, Ga, Gr|].
    erewrite getUserByIdFromPostgres_reached; [|exact Hz|exact Hr|reflexivity].
    cbn [Prisma.rows].
    rewrite (prisma_find_replace z u u'); trivial.
    subst u'. cbn. eapply prisma_find_id; eauto.
Qed.

Lemma malformed_not_valid_update (update : Req.body) :
  Entity.malformed_name (Req.name update)
  || Entity.malformed_email (Req.email update)
  || Entity.age_out_of_range (Req.age update)
  || Entity.role_outside_enum (Req.role update) = true ->
  Mongoose.validate_update update = false.
Proof.
  unfold Mongoose.validate_update. destruct update as [n e a r]; fields.
  intros H. repeat rewrite orb_true_iff in H.
  destruct H as [[[H|H]|H]|H].
  - destruct n as [| |b|m|s]; try discriminate H. cbn [Entity.malformed_name] in H.
    unfold Mongoose.set_name, Mongoose.valid_name, Mongoose.required.
    cbn [Mongoose.castString Mongoose.cast_map JS.toString
         Mongoose.update_valid_required].
    unfold Entity.name_ok in H. apply negb_true_iff in H. rewrite H.
    now rewrite andb_false_r.
  - destruct e as [| |b|m|s]; try discriminate H. cbn [Entity.malformed_email] in H.
    unfold Mongoose.set_email, Mongoose.valid_email, Mongoose.required.
    cbn [Mongoose.castString Mongoose.cast_map JS.toString
         Mongoose.update_valid_required].
    unfold Entity.email_ok in H. apply negb_true_iff in H.
    unfold Mongoose.email_match. rewrite H.
    destruct (JS.str_empty _); cbn; now rewrite andb_false_r.
  - destruct a as [| |b|[|z]|s]; try discriminate H. cbn in H.
    apply negb_true_iff in H. cbn. rewrite H. now rewrite andb_false_r.
  - destruct r as [| |b|m|s]; try discriminate H. cbn in H.
    apply negb_true_iff in H. cbn. rewrite H. now rewrite andb_false_r.
Qed.

(** X14.  The document store validates an update before it looks the
    record up.  For an id the driver casts, an update in which the name or
    the email is malformed, the age is a number outside 0..150, or the role
    is a string outside the enumeration is answered with 500 and the cast
    or validation error of the client, whether or not a record has this
    id, and the collection is left as it was. *)
Theorem mongo_update_rejects_invalid_fields :
  forall (now : Z) (id : string) (i : N) (body : Req.body) (c : Mongoose.Collection),
    castObjectId id = Some i ->
    Entity.malformed_name (Req.name body)
    || Entity.malformed_email (Req.email body)
    || Entity.age_out_of_range (Req.age body)
    || Entity.role_outside_enum (Req.role body) = true ->
    exists e,
      (e = CastError \/ e = ValidationError)
      /\ updateUserInMongo castObjectId now id body c
         = (failure_with 500 "Failed to update user in MongoDB" e, c).
Proof.
  intros now id i body c Hi Hbad.
  apply malformed_not_valid_update in Hbad.
  unfold_mongo. rewrite Hi, Hbad.
  destruct (Mongoose.castUpdate body); eauto.
Qed.

(** X15.  An update of the document store can set the age to every value
    from 0 to 150, 0 included: for a record that exists, on a collection
    that can be reached, the update with [{"age": z}] answers 200, the
    stored record has age [z], and its name, email and role are as they
    were. *)
Theorem mongo_update_sets_age :
  forall (now : Z) (id : string) (i : N) (z : Z) (u : Mongoose.User)
         (c : Mongoose.Collection),
    castObjectId id = Some i ->
    Mongoose.connected c = true ->
    Mongoose.find_by_id i (Mongoose.docs c) = Some u ->
    Mongoose.age_in_range z = true ->
    exists u' c1,
      updateUserInMongo castObjectId now id
        (Req.mkBody JS.VUndefined JS.VUndefined (JS.VNumber (JS.Num z)) JS.VUndefined) c
      = (success_message 200 "User updated successfully" u', c1)
      /\ Mongoose.find_by_id i (Mongoose.docs c1) = Some u'
      /\ Mongoose.age u' = Some z
      /\ Mongoose.name u' = Mongoose.name u
      /\ Mongoose.email u' = Mongoose.email u
      /\ Mongoose.role u' = Mongoose.role u.
Proof.
  intros now id i z u c Hi Hc Hf Hz.
  set (body := Req.mkBody JS.VUndefined JS.VUndefined (JS.VNumber (JS.Num z))
                 JS.VUndefined).
  assert (Hcu : Mongoose.castUpdate body = true) by reflexivity.
  assert (Hv : Mongoose.validate_update body = true).
  { unfold Mongoose.validate_update, body; fields. cbn. now rewrite Hz. }
  unfold_mongo.
  repeat (first [rewrite Hi | rewrite Hcu | rewrite Hv | rewrite Hc | rewrite Hf];
          cbv beta iota).
  unfold body; fields.
  cbn [Mongoose.set_name Mongoose.set_email Mongoose.castString Mongoose.cast_map
       Mongoose.apply_set Mongoose.email].
  rewrite String.eqb_refl. cbn [negb andb]. do 2 eexists. split; [reflexivity|].
  split; [|cbn; auto].
  cbn [Mongoose.docs]. eapply mongo_find_replace; eauto.
  cbn. eapply mongo_find_id; eauto.
Qed.

End Further.

(** *** The statics and the virtual of the schema *)

Lemma find_snoc_first {A : Type} (p : A -> bool) (l : list A) (x : A) :
  existsb p l = false -> p x = true -> List.find p (l ++ [x]) = Some x.
Proof.
  induction l as [|y l IH]; simpl; intros Hl Hx.
  - now rewrite Hx.
  - apply orb_false_iff in Hl. destruct Hl as [-> Hl]. auto.
Qed.

(** X16.  After a create on the document store has answered 201,
    [findByEmail] finds the created document under the email of the
    payload in any case: for every string equal to it up to case, the
    answer is the document that the create returned. *)
Theorem findByEmail_finds_created_user :
  forall (now : Z) (body : Req.body) (c c1 : Mongoose.Collection) r (e e' : string),
    createUserInMongo now body c = (r, c1) ->
    statusCode r = 201 ->
    Req.email body = JS.VStr e ->
    JS.toLowerCase e' = JS.toLowerCase e ->
    exists u,
      r = success_message 201 "User created successfully" u
      /\ UserModel.findByEmail e' c1 = inr (Some u, c1).
Proof.
  intros now body c c1 r e e' H S He Hcase.
  destruct (createUserInMongo_201 _ _ _ _ _ H S) as (u & Hc & ->).
  apply mongoose_create_full in Hc.
  destruct Hc as (n & e0 & _ & He0 & _ & _ & Ht & Hu & ->).
  exists u. split; trivial.
  rewrite He in He0. unfold Mongoose.set_email in He0.
  cbn [Mongoose.castString Mongoose.cast_map JS.toString] in He0.
  injection He0 as He0.
  unfold UserModel.findByEmail, UserModel.findOne_email. unfold_store.
  cbn [Mongoose.connected Mongoose.docs].
  rewrite toLowerCase_idem, Hcase, He0.
  rewrite find_snoc_first; trivial.
  subst u. cbn. apply String.eqb_refl.
Qed.

(** X17.  [findAdmins] after a create that answered 201: the admins are
    the admins there were, followed by the created document when its role
    is ADMIN.  A document created without a role is never among them; one
    created with the role ADMIN always is. *)
Theorem findAdmins_after_create :
  forall (now : Z) (body : Req.body) (c c1 : Mongoose.Collection) r,
    createUserInMongo now body c = (r, c1) ->
    statusCode r = 201 ->
    exists u,
      r = success_message 201 "User created successfully" u
      /\ UserModel.findAdmins c1
         = inr ((filter (UserModel.has_role "ADMIN") (Mongoose.docs c)
                 ++ (if UserModel.has_role "ADMIN" u then [u] else []))%list, c1)
      /\ (Req.role body = JS.VUndefined -> UserModel.has_role "ADMIN" u = false)
      /\ (Req.role body = JS.VStr "ADMIN" -> UserModel.has_role "ADMIN" u = true).
Proof.
  intros now body c c1 r H S.
  destruct (createUserInMongo_201 _ _ _ _ _ H S) as (u & Hc & ->).
  apply mongoose_create_full in Hc.
  destruct Hc as (n & e0 & _ & _ & _ & _ & _ & Hu & ->).
  exists u. split; trivial. split; [|split].
  - unfold UserModel.findAdmins, UserModel.find_role. unfold_store.
    cbn [Mongoose.connected Mongoose.docs]. rewrite filter_app. cbn [filter].
    now destruct (UserModel.has_role "ADMIN" u).
  - intros Hr. subst u. unfold UserModel.has_role. cbn. now rewrite Hr.
  - intros Hr. subst u. unfold UserModel.has_role. cbn. now rewrite Hr.
Qed.

Ltac by_cases :=
  repeat match goal with
         | |- _ /\ _ => split
         | |- _ <-> _ => split
         end;
  intros K; try discriminate K; trivial; lra.

(** X18.  For an age that passes the validators of the schema, a number
    from 0 to 150 that need not be whole, the virtual [ageGroup] is
    Unknown exactly when the age is 0, Minor exactly when it is above 0
    and below 18, Adult exactly from 18 to below 65, and Senior exactly
    from 65 on.  So an age of 0, which the schema accepts, is Unknown and
    not Minor, and an age of 17.5 is Minor. *)
Theorem ageGroup_of_valid_age :
  forall q : Q,
    (0 <= q <= 150)%Q ->
    (UserModel.ageGroup_of (Some q) = "Unknown" <-> (q == 0)%Q)
    /\ (UserModel.ageGroup_of (Some q) = "Minor" <-> (0 < q < 18)%Q)
    /\ (UserModel.ageGroup_of (Some q) = "Adult" <-> (18 <= q < 65)%Q)
    /\ (UserModel.ageGroup_of (Some q) = "Senior" <-> (65 <= q)%Q).
Proof.
  intros q [H0 H150]. unfold UserModel.ageGroup_of, UserModel.lt.
  destruct (Qeq_bool q 0) eqn:E0.
  - apply Qeq_bool_iff in E0. by_cases.
  - apply Qeq_bool_neq in E0.
    destruct (Qle_bool 18 q) eqn:E18; cbn [negb].
    + apply Qle_bool_iff in E18.
      destruct (Qle_bool 65 q) eqn:E65; cbn [negb].
      * apply Qle_bool_iff in E65. by_cases.
      * assert (N65 : ~ (65 <= q)%Q)
          by (intros K; apply Qle_bool_iff in K; congruence).
        by_cases.
    + assert (N18 : ~ (18 <= q)%Q)
        by (intros K; apply Qle_bool_iff in K; congruence).
      by_cases.
Qed.

(** *** The client of the process *)

(** X19.  Outside production the module makes the client once: loading it
    a second time gives the same client, makes no new one, and leaves it
    in [global.prisma].  In production nothing is kept: with
    [global.prisma] empty, every load makes a new client, with the log
    level [error] only. *)
Theorem prisma_client_is_made_once_outside_production :
  forall p : PrismaDb.process,
    (PrismaDb.env_is p "production" = false ->
       let (c1, p1) := PrismaDb.load p in
       let (c2, p2) := PrismaDb.load p1 in
       c2 = c1
       /\ PrismaDb.made p2 = PrismaDb.made p1
       /\ PrismaDb.global_prisma p2 = Some c1)
    /\ (PrismaDb.env_is p "production" = true ->
        PrismaDb.global_prisma p = None ->
        let (c1, p1) := PrismaDb.load p in
        let (c2, p2) := PrismaDb.load p1 in
        PrismaDb.instance c2 <> PrismaDb.instance c1
        /\ PrismaDb.log c1 = ["error"]
        /\ PrismaDb.log c2 = ["error"]
        /\ PrismaDb.global_prisma p2 = None).
Proof.
  intros [env g k]. unfold PrismaDb.load, PrismaDb.prismaClientSingleton, PrismaDb.env_is.
  cbn [PrismaDb.NODE_ENV PrismaDb.global_prisma PrismaDb.made]. split.
  - intros Hp. rewrite Hp.
    set (lg := if match env with Some e => String.eqb e "development" | None => false end
               then _ else _).
    clearbody lg. cbn [negb].
    destruct g as [c0|]; cbn [PrismaDb.NODE_ENV PrismaDb.global_prisma PrismaDb.made];
      rewrite Hp; cbn [negb]; auto.
  - intros Hp ->. destruct env as [e|]; [|discriminate Hp].
    apply String.eqb_eq in Hp. subst e. vm_compute.
    repeat split; trivial. intros H. apply (Nat.neq_succ_diag_l k H).
Qed.

(** *** The further properties at sample data *)

Import Scenario.

Lemma documents_stay_valid_witness :
  In ann_doc
     (Mongoose.docs
        (Routes.collection
           (Routes.serve hex24 [Routes.POST_mongo 100 ann] stores0)))
  /\ valid_doc ann_doc = true
  /\ normalized ann_doc.
Proof.
  assert (H : In ann_doc
                (Mongoose.docs
                   (Routes.collection
                      (Routes.serve hex24 [Routes.POST_mongo 100 ann] stores0)))).
  { left. reflexivity. }
  split; [exact H|].
  exact (documents_stay_valid hex24 [Routes.POST_mongo 100 ann] 1 1 true true ann_doc H).
Defined.

Lemma mongo_create_then_get_witness :
  exists u,
    fst (createUserInMongo 100 ann empty_collection)
    = success_message 201 "User created successfully" u
    /\ Mongoose.createdAt u = 100
    /\ Mongoose.updatedAt u = 100
    /\ forall id, hex24 id = Some (Mongoose._id u) ->
                  getUserByIdFromMongo hex24 id collection_ann
                  = (success_user u, collection_ann).
Proof.
  apply (mongo_create_then_get hex24 100 ann empty_collection collection_ann).
  - constructor.
  - reflexivity.
  - reflexivity.
Defined.

Lemma postgres_create_then_get_witness :
  exists u,
    fst (createUserInPostgres 100 bo empty_table)
    = success_message 201 "User created successfully" u
    /\ Prisma.createdAt u = 100
    /\ Prisma.updatedAt u = 100
    /\ getUserByIdFromPostgres (JS.number_toString (JS.Num (Prisma.id u))) table_bo
       = (success_user u, table_bo).
Proof.
  apply (postgres_create_then_get 100 bo empty_table table_bo).
  - constructor.
  - reflexivity.
  - reflexivity.
  - reflexivity.
Defined.

Lemma create_adds_one_record_witness :
  (exists u,
      fst (createUserInMongo 101 cy collection_ann)
      = success_message 201 "User created successfully" u
      /\ (exists l,
            getAllUsersFromMongo collection_ann_cy = (success_list l, collection_ann_cy)
            /\ Permutation l (u :: Mongoose.docs collection_ann))
      /\ forall id v,
           getUserByIdFromMongo hex24 id collection_ann
           = (success_user v, collection_ann) ->
           getUserByIdFromMongo hex24 id collection_ann_cy
           = (success_user v, collection_ann_cy))
  /\ (exists u,
         fst (createUserInPostgres 101 di table_bo)
         = success_message 201 "User created successfully" u
         /\ (exists l,
               getAllUsersFromPostgres table_bo_di = (success_list l, table_bo_di)
               /\ Permutation l (u :: Prisma.rows table_bo))
         /\ forall id v,
              getUserByIdFromPostgres id table_bo = (success_user v, table_bo) ->
              getUserByIdFromPostgres id table_bo_di = (success_user v, table_bo_di)).
Proof.
  destruct (create_adds_one_record hex24 101 cy) as [Hm _].
  destruct (create_adds_one_record hex24 101 di) as [_ Hp].
  split.
  - exact (Hm collection_ann collection_ann_cy _ eq_refl eq_refl).
  - exact (Hp table_bo table_bo_di _ eq_refl eq_refl).
Defined.

Lemma delete_then_get_is_not_found_witness :
  (exists i u,
      hex24 id1 = Some i
      /\ Mongoose.find_by_id i (Mongoose.docs collection_ann) = Some u
      /\ fst (deleteUserFromMongo hex24 id1 collection_ann)
         = success_message 200 "User deleted successfully" u
      /\ getUserByIdFromMongo hex24 id1 empty_collection_2
         = (failure 404 "User not found", empty_collection_2)
      /\ deleteUserFromMongo hex24 id1 empty_collection_2
         = (failure 404 "User not found", empty_collection_2)
      /\ S (List.length (Mongoose.docs empty_collection_2))
         = List.length (Mongoose.docs collection_ann)
      /\ forall j, j <> i ->
                   Mongoose.find_by_id j (Mongoose.docs empty_collection_2)
                   = Mongoose.find_by_id j (Mongoose.docs collection_ann))
  /\ (exists z u,
         JS.parseInt (JS.VStr "1") = JS.Num z
         /\ Prisma.find_by_id z (Prisma.rows table_bo) = Some u
         /\ fst (deleteUserFromPostgres "1" table_bo)
            = success_message 200 "User deleted successfully" u
         /\ getUserByIdFromPostgres "1" empty_table_2
            = (failure 404 "User not found", empty_table_2)
         /\ deleteUserFromPostgres "1" empty_table_2
            = (failure 404 "User not found", empty_table_2)
         /\ S (List.length (Prisma.rows empty_table_2))
            = List.length (Prisma.rows table_bo)
         /\ forall j, j <> z ->
                      Prisma.find_by_id j (Prisma.rows empty_table_2)
                      = Prisma.find_by_id j (Prisma.rows table_bo)).
Proof.
  destruct (delete_then_get_is_not_found hex24 id1) as [Hm _].
  destruct (delete_then_get_is_not_found hex24 "1") as [_ Hp].
  split.
  - apply (Hm collection_ann empty_collection_2).
    + repeat constructor. intros [].
    + reflexivity.
    + reflexivity.
  - apply (Hp table_bo empty_table_2).
    + repeat constructor. intros [].
    + reflexivity.
    + reflexivity.
Defined.


Lemma update_to_taken_email_is_500_witness :
  updateUserInMongo hex24 200 id2 email_ann collection_ann_cy
  = (failure_with 500 "Failed to update user in MongoDB" (MongoServerError 11000),
     collection_ann_cy)
  /\ updateUserInPostgres 200 "2" email_bo table_bo_di
     = (failure_with 500 "Failed to update user in PostgreSQL"
          (PrismaClientKnownRequestError "P2002"), table_bo_di).
Proof.
  destruct (update_to_taken_email_is_500 hex24 200 id2 email_ann) as [Hm _].
  destruct (update_to_taken_email_is_500 hex24 200 "2" email_bo) as [_ Hp].
  split.
  - apply (Hm collection_ann_cy 2%N cy_doc "ann@ex.com"); try reflexivity.
    intros H. discriminate H.
  - apply (Hp table_bo_di 2 di_row "bo@ex.com"); try reflexivity.
    intros H. discriminate H.
Defined.

Lemma failed_requests_and_reads_change_no_record_witness :
  snd (Routes.handle hex24 (Routes.GET_postgres_id "1") stores_ann_bo)
  = stores_ann_bo
  /\ (snd (Routes.handle hex24 (Routes.DELETE_mongo_id id9) stores_ann_bo)
      = stores_ann_bo
      \/ exists now body,
           Routes.DELETE_mongo_id id9 = Routes.POST_postgres now body
           /\ fst (Routes.handle hex24 (Routes.DELETE_mongo_id id9) stores_ann_bo)
              = Routes.PostgresReply (failure 400 "Email already exists")
           /\ snd (Routes.handle hex24 (Routes.DELETE_mongo_id id9) stores_ann_bo)
              = Routes.mkStores collection_ann (Prisma.mkTable [bo_row] 3 true))
  /\ (snd (Routes.handle hex24 (Routes.POST_postgres 101 bo) stores_ann_bo)
      = stores_ann_bo
      \/ exists now body,
           Routes.POST_postgres 101 bo = Routes.POST_postgres now body
           /\ fst (Routes.handle hex24 (Routes.POST_postgres 101 bo) stores_ann_bo)
              = Routes.PostgresReply (failure 400 "Email already exists")
           /\ snd (Routes.handle hex24 (Routes.POST_postgres 101 bo) stores_ann_bo)
              = Routes.mkStores collection_ann (Prisma.mkTable [bo_row] 3 true)).
Proof.
  split; [|split].
  - apply (proj1 (failed_requests_and_reads_change_no_record hex24
                    (Routes.GET_postgres_id "1") stores_ann_bo)).
    reflexivity.
  - apply (proj2 (failed_requests_and_reads_change_no_record hex24
                    (Routes.DELETE_mongo_id id9) stores_ann_bo));
      intros H; discriminate H.
  - apply (proj2 (failed_requests_and_reads_change_no_record hex24
                    (Routes.POST_postgres 101 bo) stores_ann_bo));
      intros H; discriminate H.
Defined.

Lemma create_with_age_zero_witness :
  (exists u,
      fst (createUserInPostgres 100 ann_age0 empty_table)
      = success_message 201 "User created successfully" u
      /\ Prisma.age u = None
      /\ In u (Prisma.rows (snd (createUserInPostgres 100 ann_age0 empty_table))))
  /\ (exists u,
         fst (createUserInMongo 100 ann_age0 empty_collection)
         = success_message 201 "User created successfully" u
         /\ Mongoose.age u = Some 0
         /\ In u (Mongoose.docs (snd (createUserInMongo 100 ann_age0 empty_collection)))).
Proof.
  destruct (create_with_age_zero 100 ann_age0) as [Hp Hm].
  split.
  - exact (Hp empty_table _ _ eq_refl eq_refl eq_refl).
  - exact (Hm empty_collection _ _ eq_refl eq_refl eq_refl).
Defined.

Lemma update_then_get_witness :
  (exists i u u',
      hex24 id1 = Some i
      /\ Mongoose.find_by_id i (Mongoose.docs collection_ann) = Some u
      /\ fst (updateUserInMongo hex24 200 id1 age26 collection_ann)
         = success_message 200 "User updated successfully" u'
      /\ Mongoose._id u' = Mongoose._id u
      /\ Mongoose.createdAt u' = Mongoose.createdAt u
      /\ Mongoose.updatedAt u' = 200
      /\ getUserByIdFromMongo hex24 id1
           (snd (updateUserInMongo hex24 200 id1 age26 collection_ann))
         = (success_user u',
            snd (updateUserInMongo hex24 200 id1 age26 collection_ann)))
  /\ (exists z u u',
         JS.parseInt (JS.VStr "1") = JS.Num z
         /\ Prisma.find_by_id z (Prisma.rows table_bo) = Some u
         /\ fst (updateUserInPostgres 200 "1" age26 table_bo)
            = success_message 200 "User updated successfully" u'
         /\ Prisma.id u' = Prisma.id u
         /\ Prisma.createdAt u' = Prisma.createdAt u
         /\ Prisma.updatedAt u' = 200
         /\ getUserByIdFromPostgres "1"
              (snd (updateUserInPostgres 200 "1" age26 table_bo))
            = (success_user u', snd (updateUserInPostgres 200 "1" age26 table_bo)))
  /\ (exists z u u',
         JS.parseInt (JS.VStr "1") = JS.Num z
         /\ Prisma.find_by_id z (Prisma.rows table_bo) = Some u
         /\ fst (updateUserInPostgres 200 "1" age0 table_bo)
            = success_message 200 "User updated successfully" u'
         /\ Prisma.id u' = Prisma.id u
         /\ Prisma.createdAt u' = Prisma.createdAt u
         /\ Prisma.updatedAt u' = Prisma.updatedAt u
         /\ getUserByIdFromPostgres "1"
              (snd (updateUserInPostgres 200 "1" age0 table_bo))
            = (success_user u', snd (updateUserInPostgres 200 "1" age0 table_bo))).
Proof.
  destruct (update_then_get hex24 200 id1 age26) as [Hm _].
  destruct (update_then_get hex24 200 "1" age26) as [_ Hp].
  destruct (update_then_get hex24 200 "1" age0) as [_ Hp0].
  split; [|split].
  - exact (Hm collection_ann _ _ eq_refl eq_refl).
  - exact (Hp table_bo _ _ eq_refl eq_refl).
  - exact (Hp0 table_bo _ _ eq_refl eq_refl).
Defined.

Lemma mongo_update_rejects_invalid_fields_witness :
  exists e,
    (e = CastError \/ e = ValidationError)
    /\ updateUserInMongo hex24 200 id9 ann_age200 collection_ann
       = (failure_with 500 "Failed to update user in MongoDB" e, collection_ann).
Proof.
  exact (mongo_update_rejects_invalid_fields hex24 200 id9 9%N ann_age200
           collection_ann eq_refl eq_refl).
Defined.

Lemma mongo_update_sets_age_witness :
  exists u' c1,
    updateUserInMongo hex24 200 id1 age0 collection_ann
    = (success_message 200 "User updated successfully" u', c1)
    /\ Mongoose.find_by_id 1%N (Mongoose.docs c1) = Some u'
    /\ Mongoose.age u' = Some 0
    /\ Mongoose.name u' = Mongoose.name ann_doc
    /\ Mongoose.email u' = Mongoose.email ann_doc
    /\ Mongoose.role u' = Mongoose.role ann_doc.
Proof.
  exact (mongo_update_sets_age hex24 200 id1 1%N 0 ann_doc collection_ann
           eq_refl eq_refl eq_refl eq_refl).
Defined.

Lemma findByEmail_finds_created_user_witness :
  exists u,
    fst (createUserInMongo 100 ann empty_collection)
    = success_message 201 "User created successfully" u
    /\ UserModel.findByEmail "ANN@EX.COM" collection_ann
       = inr (Some u, collection_ann).
Proof.
  exact (findByEmail_finds_created_user 100 ann empty_collection collection_ann _
           "ann@ex.com" "ANN@EX.COM" eq_refl eq_refl eq_refl eq_refl).
Defined.

Lemma findAdmins_after_create_witness :
  exists u,
    fst (createUserInMongo 100 ann empty_collection)
    = success_message 201 "User created successfully" u
    /\ UserModel.findAdmins collection_ann
       = inr ((filter (UserModel.has_role "ADMIN") (Mongoose.docs empty_collection)
               ++ (if UserModel.has_role "ADMIN" u then [u] else []))%list,
              collection_ann)
    /\ (Req.role ann = JS.VUndefined -> UserModel.has_role "ADMIN" u = false)
    /\ (Req.role ann = JS.VStr "ADMIN" -> UserModel.has_role "ADMIN" u = true).
Proof.
  exact (findAdmins_after_create 100 ann empty_collection collection_ann _
           eq_refl eq_refl).
Defined.

Lemma ageGroup_of_valid_age_witness :
  (UserModel.ageGroup_of (Some 0%Q) = "Unknown" <-> (0 == 0)%Q)
  /\ (UserModel.ageGroup_of (Some (35 # 2)) = "Minor" <-> (0 < 35 # 2 < 18)%Q).
Proof.
  split.
  - apply (ageGroup_of_valid_age 0%Q). split; discriminate.
  - apply (ageGroup_of_valid_age (35 # 2)). split; discriminate.
Defined.

Lemma prisma_client_is_made_once_outside_production_witness :
  (let (c1, p1) := PrismaDb.load development in
   let (c2, p2) := PrismaDb.load p1 in
   c2 = c1
   /\ PrismaDb.made p2 = PrismaDb.made p1
   /\ PrismaDb.global_prisma p2 = Some c1)
  /\ (let (c1, p1) := PrismaDb.load production in
      let (c2, p2) := PrismaDb.load p1 in
      PrismaDb.instance c2 <> PrismaDb.instance c1
      /\ PrismaDb.log c1 = ["error"]
      /\ PrismaDb.log c2 = ["error"]
      /\ PrismaDb.global_prisma p2 = None).
Proof.
  split.
  - exact (proj1 (prisma_client_is_made_once_outside_production development) eq_refl).
  - exact (proj2 (prisma_client_is_made_once_outside_production production)
             eq_refl eq_refl).
Defined.
